(** * DeepPoly verifier: a shallow embedding of the bound-propagation engine

    The development follows the layout of the repository:
    - [Tensor]: the few tensor operations the code uses, over exact rationals;
    - [Transformers]: [src/src/transformers.py] (Polygon,
      back-substitution, the Flatten / Linear / ReLU transformers);
    - [VerifierCode]: [src/code/verifier.py] ([analyze], [train]);
    - [VerifierSrc]: [src/src/verifier.py] ([analyze], [train], the
      convolution helpers);
    - [GroundTruth]: [get_gt] of both [verifier.py] files.

    Tensors carry the batch dimension that [analyze] adds with
    [inputs.unsqueeze(0)]; it always has size one, and a tensor is modelled
    by its slice at batch index 0: a (1, n) tensor is a list of n numbers,
    a (1, n, m) tensor a list of n rows of m numbers.  Numbers are exact
    rationals, so every statement below is about the real-valued semantics
    of the arithmetic.  The operations on lists are total: where torch
    raises on operands whose shapes do not fit, the list operation stops at
    the shorter operand; statements that depend on the shapes assume that
    they fit. *)

From Stdlib Require Import String Ascii Bool List ZArith QArith Qminmax Qabs Lqa Lia.
Import ListNotations.

Open Scope Q_scope.

(* ===================================================================== *)
(** * Part I: definitions                                                 *)
(* ===================================================================== *)

Module Tensor.

Definition Vector := list Q.
Definition Matrix := list (list Q).

(** [zip]-style pointwise combination; stops at the shorter list. *)
Fixpoint map2 {A B C : Type} (f : A -> B -> C) (xs : list A) (ys : list B)
  : list C :=
  match xs, ys with
  | x :: xs', y :: ys' => f x y :: map2 f xs' ys'
  | _, _ => []
  end.

(** [torch.clamp(x, min=lo)] and [torch.clamp(x, max=hi)] on a scalar. *)
Definition clamp_min (lo x : Q) : Q := if Qle_bool lo x then x else lo.
Definition clamp_max (hi x : Q) : Q := if Qle_bool x hi then x else hi.
(** [torch.clamp(x, min=lo, max=hi)] is [min(max(x, lo), hi)]. *)
Definition clamp (lo hi x : Q) : Q := clamp_max hi (clamp_min lo x).

Definition zeros (n : nat) : Vector := repeat 0 n.
Definition zeros_mat (n m : nat) : Matrix := repeat (zeros m) n.

(** Row [i] of [torch.eye(n)]. *)
Definition eye_row (n i : nat) : Vector :=
  map (fun j => if Nat.eqb i j then 1 else 0) (seq 0 n).
Definition eye (n : nat) : Matrix := map (eye_row n) (seq 0 n).

Definition vsum (v : Vector) : Q := fold_right Qplus 0 v.
Definition vadd (a b : Vector) : Vector := map2 Qplus a b.
Definition vsub (a b : Vector) : Vector := map2 Qminus a b.
Definition vmul (a b : Vector) : Vector := map2 Qmult a b.
Definition vdiv (a b : Vector) : Vector := map2 Qdiv a b.
Definition vneg (a : Vector) : Vector := map Qopp a.
Definition vscale (c : Q) (a : Vector) : Vector := map (Qmult c) a.
Definition madd (a b : Matrix) : Matrix := map2 vadd a b.

Definition dot (a b : Vector) : Q := vsum (vmul a b).

Definition nrows (m : Matrix) : nat := length m.
Definition ncols (m : Matrix) : nat :=
  match m with [] => O | r :: _ => length r end.
Definition col (j : nat) (m : Matrix) : Vector := map (fun r => nth j r 0) m.

(** [a @ b]: entry (i, j) is the sum over k of [a[i][k] * b[k][j]]. *)
Definition matmul (a b : Matrix) : Matrix :=
  map (fun r => map (fun j => dot r (col j b)) (seq 0 (ncols b))) a.

(** [(m * v.unsqueeze(1)).sum(-1)]: every row of [m] is multiplied
    elementwise by [v] and summed. *)
Definition mul_rows_sum (m : Matrix) (v : Vector) : Vector :=
  map (fun r => vsum (vmul r v)) m.

(** The affine image [m x + b] (what [torch.nn.Linear] computes). *)
Definition affine (m : Matrix) (b x : Vector) : Vector :=
  map2 (fun r bi => dot r x + bi) m b.

(** [t[mask]]: the entries (rows) of [t] where [mask] holds, in order. *)
Fixpoint select {A : Type} (mask : list bool) (t : list A) : list A :=
  match mask, t with
  | b :: mask', x :: t' =>
      if b then x :: select mask' t' else select mask' t'
  | _, _ => []
  end.

(** [t[mask] = vals]: the entries (rows) of [t] where [mask] holds are
    replaced by the successive elements of [vals]. *)
Fixpoint index_put {A : Type} (mask : list bool) (t vals : list A)
  : list A :=
  match mask, t with
  | b :: mask', x :: t' =>
      if b then
        match vals with
        | v :: vals' => v :: index_put mask' t' vals'
        | [] => x :: index_put mask' t' []
        end
      else x :: index_put mask' t' vals
  | _, _ => t
  end.

(** [t[mask] = c] for a scalar [c], on a vector and on the rows of a
    matrix (the scalar is broadcast over the row). *)
Definition index_fill_vec (mask : list bool) (t : Vector) (c : Q) : Vector :=
  map2 (fun (b : bool) x => if b then c else x) mask t.
Definition index_fill_mat (mask : list bool) (t : Matrix) (c : Q) : Matrix :=
  map2 (fun (b : bool) r => if b then map (fun _ => c) r else r) mask t.

(** [torch.where(cond, a, b)] on tensors of the shape of [cond]. *)
Definition where_vec (cond : list bool) (a b : Vector) : Vector :=
  map2 (fun (c : bool) ab => if c then fst ab else snd ab)
       cond (combine a b).
(** [torch.where(cond, a, b)] with [cond] of shape (1, n) and [a], [b] of
    shape (1, n, n): broadcasting aligns [cond] with the LAST axis, so
    entry (i, j) is chosen by [cond[j]]. *)
Definition where_mat (cond : list bool) (a b : Matrix) : Matrix :=
  map2 (where_vec cond) a b.

End Tensor.
Import Tensor.

(* --------------------------------------------------------------------- *)
(** ** A store of tensors

    [ReLUTransformer.forward] allocates four tensors and hands them to
    [relu_I] and [relu_II], which assign into them in place and return
    them.  Tensors that are mutated therefore live in a store and are
    passed around by reference. *)

Module Store.

Record Heap := mkHeap { vecs : list Vector; mats : list Matrix }.
Definition empty : Heap := mkHeap [] [].

Definition VRef := nat.
Definition MRef := nat.

Definition M (A : Type) : Type := Heap -> A * Heap.
Definition ret {A} (a : A) : M A := fun h => (a, h).
Definition bind {A B} (m : M A) (k : A -> M B) : M B :=
  fun h => let '(a, h') := m h in k a h'.
Definition run {A} (m : M A) : A := fst (m empty).

Fixpoint update {A} (i : nat) (x : A) (l : list A) {struct l} : list A :=
  match l, i with
  | [], _ => []
  | _ :: l', O => x :: l'
  | y :: l', S i' => y :: update i' x l'
  end.

Definition new_vec (v : Vector) : M VRef :=
  fun h => (length (vecs h), mkHeap (vecs h ++ [v]) (mats h)).
Definition new_mat (m : Matrix) : M MRef :=
  fun h => (length (mats h), mkHeap (vecs h) (mats h ++ [m])).
Definition get_vec (r : VRef) : M Vector := fun h => (nth r (vecs h) [], h).
Definition get_mat (r : MRef) : M Matrix := fun h => (nth r (mats h) [], h).
Definition set_vec (r : VRef) (v : Vector) : M unit :=
  fun h => (tt, mkHeap (update r v (vecs h)) (mats h)).
Definition set_mat (r : MRef) (m : Matrix) : M unit :=
  fun h => (tt, mkHeap (vecs h) (update r m (mats h))).

(** In-place masked assignments [t[mask] = c] and [t[mask] = vals] on a
    tensor of the store. *)
Definition fill_vec (r : VRef) (mask : list bool) (c : Q) : M unit :=
  fun h => set_vec r (index_fill_vec mask (nth r (vecs h) []) c) h.
Definition fill_mat (r : MRef) (mask : list bool) (c : Q) : M unit :=
  fun h => set_mat r (index_fill_mat mask (nth r (mats h) []) c) h.
Definition put_vec (r : VRef) (mask : list bool) (vals : Vector) : M unit :=
  fun h => set_vec r (index_put mask (nth r (vecs h) []) vals) h.
Definition put_mat (r : MRef) (mask : list bool) (vals : Matrix) : M unit :=
  fun h => set_mat r (index_put mask (nth r (mats h) []) vals) h.

End Store.
Import Store.

Declare Scope store_scope.
Delimit Scope store_scope with store.
Notation "x <- c1 ;; c2" := (bind c1 (fun x => c2))
  (at level 61, c1 at next level, right associativity) : store_scope.
Notation "c1 ;; c2" := (bind c1 (fun _ => c2))
  (at level 61, right associativity) : store_scope.
Open Scope store_scope.

(* --------------------------------------------------------------------- *)
(** ** [src/src/transformers.py] *)

Module Transformers.

(** [class Polygon]: the symbolic bounds of one layer relative to the
    output of the previous one, the concrete bounds, and the parent. *)
#[warnings="-register-all"]
Inductive Polygon : Type := Build_Polygon {
  l_coefs : Matrix;
  u_coefs : Matrix;
  l_bias : Vector;
  u_bias : Vector;
  l_bound : Vector;
  u_bound : Vector;
  parent : option Polygon
}.

(** One run of the body of the [while parent is not None] loop of
    [Polygon.__init__], against the polygon [p] bound to [parent]. *)
Definition back_substitution_step
    (lc uc : Matrix) (lb ub : Vector) (p : Polygon)
  : Matrix * Matrix * Vector * Vector :=
  let l_coefs_new :=
    madd (matmul (map (map (clamp_min 0)) lc) (l_coefs p))
         (matmul (map (map (clamp_max 0)) lc) (u_coefs p)) in
  let u_coefs_new :=
    madd (matmul (map (map (clamp_min 0)) uc) (u_coefs p))
         (matmul (map (map (clamp_max 0)) uc) (l_coefs p)) in
  let l_bias_new :=
    vadd lb
      (vadd (mul_rows_sum (map (map (clamp_min 0)) lc) (l_bias p))
            (mul_rows_sum (map (map (clamp_max 0)) lc) (u_bias p))) in
  let u_bias_new :=
    vadd ub
      (vadd (mul_rows_sum (map (map (clamp_min 0)) uc) (u_bias p))
            (mul_rows_sum (map (map (clamp_max 0)) uc) (l_bias p))) in
  (l_coefs_new, u_coefs_new, l_bias_new, u_bias_new).

(** The loop itself, entered with [parent] bound to [p]; it returns the
    values of [l_bias] and [u_bias] at loop exit.  The parent chain is a
    finite path, so the loop is a structural recursion on it. *)
Fixpoint back_substitution
    (p : Polygon) (lc uc : Matrix) (lb ub : Vector) {struct p}
  : Vector * Vector :=
  let '(lc', uc', lb', ub') := back_substitution_step lc uc lb ub p in
  match p with
  | Build_Polygon _ _ _ _ _ _ None => (lb', ub')
  | Build_Polygon _ _ _ _ _ _ (Some p') =>
      back_substitution p' lc' uc' lb' ub'
  end.

(** [Polygon.__init__]. *)
Definition Polygon_init
    (l_coefs u_coefs : Matrix) (l_bias u_bias : Vector)
    (parent : option Polygon) : Polygon :=
  let bounds :=
    match parent with
    | None => (l_bias, u_bias)
    | Some p => back_substitution p l_coefs u_coefs l_bias u_bias
    end in
  Build_Polygon l_coefs u_coefs l_bias u_bias (fst bounds) (snd bounds)
                parent.

(** [Polygon.evaluate]. *)
Definition evaluate (p : Polygon) : Vector * Vector :=
  (l_bound p, u_bound p).

(** [Polygon.create_from_input]; [input_tensor] is already flat here,
    [input_size] is its number of entries. *)
Definition create_from_input (input_tensor : Vector) (eps : Q) : Polygon :=
  let input_size := length input_tensor in
  Polygon_init
    (zeros_mat input_size 0)
    (zeros_mat input_size 0)
    (map (fun x => clamp 0 1 (x - eps)) input_tensor)
    (map (fun x => clamp 0 1 (x + eps)) input_tensor)
    None.

(** [FlattenTransformer.forward]. *)
Definition FlattenTransformer_forward (x : Polygon) : Polygon := x.

(** [LinearTransformer.forward]. *)
Definition LinearTransformer_forward
    (weight : Matrix) (bias : Vector) (x : Polygon) : Polygon :=
  Polygon_init weight weight bias bias (Some x).

(** The tuple of tensors that [relu_I] and [relu_II] receive and return:
    references to [l_coefs], [l_bias], [u_coefs], [u_bias]. *)
Definition PolyRefs : Type := (MRef * VRef * MRef * VRef)%type.

(** The secant slope of the crossing neurons:
    [u_bound[is_crossing] / (u_bound[is_crossing] - l_bound[is_crossing])]. *)
Definition crossing_slope (l_bound u_bound : Vector)
    (is_crossing : list bool) : Vector :=
  vdiv (select is_crossing u_bound)
       (vsub (select is_crossing u_bound) (select is_crossing l_bound)).

(** [torch.eye(n).unsqueeze(0)[is_crossing] * slope.unsqueeze(-1)]. *)
Definition scaled_eye_rows (n : nat) (is_crossing : list bool)
    (slope : Vector) : Matrix :=
  map2 (fun row s => map (fun e => e * s) row)
       (select is_crossing (eye n)) slope.

(** [ReLUTransformer.relu_I]. *)
Definition relu_I (l_bound u_bound : Vector)
    (l_coefs : MRef) (l_bias : VRef) (u_coefs : MRef) (u_bias : VRef)
    (is_crossing : list bool) : M PolyRefs :=
  lc <- get_mat l_coefs ;;
  let n := nrows lc in
  fill_mat l_coefs is_crossing 0 ;;
  fill_vec l_bias is_crossing 0 ;;
  let slope := crossing_slope l_bound u_bound is_crossing in
  put_mat u_coefs is_crossing (scaled_eye_rows n is_crossing slope) ;;
  put_vec u_bias is_crossing
          (vmul (vneg slope) (select is_crossing l_bound)) ;;
  ret (l_coefs, l_bias, u_coefs, u_bias).

(** [ReLUTransformer.relu_II]. *)
Definition relu_II (l_bound u_bound : Vector)
    (l_coefs : MRef) (l_bias : VRef) (u_coefs : MRef) (u_bias : VRef)
    (is_crossing : list bool) : M PolyRefs :=
  lc <- get_mat l_coefs ;;
  let n := nrows lc in
  put_mat l_coefs is_crossing (select is_crossing (eye n)) ;;
  fill_vec l_bias is_crossing 0 ;;
  let slope := crossing_slope l_bound u_bound is_crossing in
  put_mat u_coefs is_crossing (scaled_eye_rows n is_crossing slope) ;;
  put_vec u_bias is_crossing
          (vmul (vneg slope) (select is_crossing l_bound)) ;;
  ret (l_coefs, l_bias, u_coefs, u_bias).

Definition is_always_negative (u_bound : Vector) : list bool :=
  map (fun u => Qle_bool u 0) u_bound.
Definition is_always_positive (l_bound : Vector) : list bool :=
  map (fun l => Qle_bool 0 l) l_bound.
Definition is_crossing (l_bound u_bound : Vector) : list bool :=
  map negb (map2 orb (is_always_negative u_bound)
                     (is_always_positive l_bound)).
(** The test of the final [torch.where]: [u_bound <= -l_bound]. *)
Definition area_test (l_bound u_bound : Vector) : list bool :=
  map2 (fun u l => Qle_bool u (- l)) u_bound l_bound.

(** [ReLUTransformer.forward] up to and including the two calls
    [poly_I = self.relu_I(...)] and [poly_II = self.relu_II(...)]. *)
Definition relu_candidates (x : Polygon) : M (PolyRefs * PolyRefs) :=
  let '(l_bound, u_bound) := evaluate x in
  let n := nrows (l_coefs x) in
  l_coefs <- new_mat (zeros_mat n n) ;;
  u_coefs <- new_mat (zeros_mat n n) ;;
  l_bias <- new_vec (zeros n) ;;
  u_bias <- new_vec (zeros n) ;;
  let neg := is_always_negative u_bound in
  fill_mat l_coefs neg 0 ;;
  fill_mat u_coefs neg 0 ;;
  fill_vec l_bias neg 0 ;;
  fill_vec u_bias neg 0 ;;
  let pos := is_always_positive l_bound in
  put_mat l_coefs pos (select pos (eye n)) ;;
  put_mat u_coefs pos (select pos (eye n)) ;;
  fill_vec l_bias pos 0 ;;
  fill_vec u_bias pos 0 ;;
  let crossing := is_crossing l_bound u_bound in
  poly_I <- relu_I l_bound u_bound l_coefs l_bias u_coefs u_bias crossing ;;
  poly_II <- relu_II l_bound u_bound l_coefs l_bias u_coefs u_bias crossing ;;
  ret (poly_I, poly_II).

(** The rest of [ReLUTransformer.forward]: the loop over
    [zip(poly_I, poly_II)] with [torch.where], and the new polygon. *)
Definition ReLUTransformer_forward_M (x : Polygon) : M Polygon :=
  let '(l_bound, u_bound) := evaluate x in
  candidates <- relu_candidates x ;;
  let '((a_lc, a_lb, a_uc, a_ub), (b_lc, b_lb, b_uc, b_ub)) := candidates in
  let cond := area_test l_bound u_bound in
  a <- get_mat a_lc ;; b <- get_mat b_lc ;;
  let l_coefs := where_mat cond a b in
  a <- get_vec a_lb ;; b <- get_vec b_lb ;;
  let l_bias := where_vec cond a b in
  a <- get_mat a_uc ;; b <- get_mat b_uc ;;
  let u_coefs := where_mat cond a b in
  a <- get_vec a_ub ;; b <- get_vec b_ub ;;
  let u_bias := where_vec cond a b in
  ret (Polygon_init l_coefs u_coefs l_bias u_bias (Some x)).

Definition ReLUTransformer_forward (x : Polygon) : Polygon :=
  run (ReLUTransformer_forward_M x).

(** The transformer classes of the file, and [module(x)]. *)
Inductive Transformer : Type :=
  | FlattenTransformer
  | LinearTransformer (weight : Matrix) (bias : Vector)
  | ReLUTransformer.



End Transformers.
Import Transformers.
Close Scope store_scope.

(* --------------------------------------------------------------------- *)
(** ** What the two [verifier.py] files share

    Network descriptions ([torch.nn] modules as the verifier inspects
    them), Python exceptions, and the interface of the classes that
    [verifier.py] imports from a [transformers.py] newer than the one
    above ([LeakyReLUTransformer], [Conv2dTransformer]) and from torch
    ([nn.Sequential], the SGD optimizer, autograd). *)

Module Torch.

Inductive Exn : Type :=
  | IndexError
  | AttributeError
  | ValueError
  | RuntimeError
  | ZeroDivisionError
  | Exception (message : string).

(** The outcome of running a piece of Python: a value or an exception.
    The [while] loop of [train] need not terminate; it is run for a
    bounded number of iterations and its outcome is optional, [None]
    meaning that the bound was reached. *)
Inductive Result (A : Type) : Type :=
  | Return (a : A)
  | Raise (e : Exn).
Arguments Return {A} a.
Arguments Raise {A} e.

Definition rbind {A B} (r : Result A) (k : A -> Result B) : Result B :=
  match r with
  | Return a => k a
  | Raise e => Raise e
  end.

(** The attributes of a [torch.nn.Conv2d] that the verifier reads. *)
Record Conv2d_attrs : Type := {
  stride : Z * Z;
  padding : Z * Z;
  kernel_size : Z * Z;
  in_channels : Z;
  out_channels : Z;
  conv_weight : list (list (list (list Q)));
  conv_bias : Vector
}.

(** A child of the [torch.nn.Sequential] network.  [Other] stands for a
    module of any class that is none of the five the verifier tests for
    with [isinstance]; it carries its class name and its [out_features]
    attribute if it has one. *)
Inductive Layer : Type :=
  | Flatten
  | Linear (weight : Matrix) (bias : Vector)
  | ReLU
  | LeakyReLU (negative_slope : Q)
  | Conv2d (conv : Conv2d_attrs)
  | Other (class_name : string) (out_features : option nat).

Definition is_recognized (l : Layer) : Prop :=
  match l with Other _ _ => False | _ => True end.

(** [layer.out_features]. *)
Definition out_features_of (l : Layer) : Result nat :=
  match l with
  | Linear weight _ => Return (nrows weight)
  | Other _ (Some n) => Return n
  | _ => Raise AttributeError
  end.

(** The image handed to [analyze]: the last two entries of
    [inputs.shape] and the entries in row-major order. *)
Record Inputs : Type := {
  shape_m2 : Z;
  shape_m1 : Z;
  data : Vector
}.

(** The transformer objects that [analyze] creates. *)
Inductive Transformer : Type :=
  | FlattenTransformer
  | LinearTransformer (weight : Matrix) (bias : Vector)
  | LeakyReLUTransformer (negative_slope : Q) (init_polygon : Polygon)
  | Conv2dTransformer (conv : Conv2d_attrs) (input_size : Z * Z).

(** A [torch.nn.Sequential] of transformers as [train] uses it: the
    trainable parameter tensors, the forward pass (under given parameter
    values), and the update of the parameters by one round of
    [optimizer.zero_grad(); loss.backward(); optimizer.step()] followed by
    the [clamp()] of every [LeakyReLUTransformer], at a given learning
    rate. *)
Record Sequential : Type := {
  parameters : list Vector;
  call : list Vector -> Polygon -> Polygon;
  sgd_step : Q -> list Vector -> Polygon -> list Vector
}.

(** What is imported but not available; calls into it are taken to
    return. *)
Record Imports : Type := {
  (** [t(x)] for [t = LeakyReLUTransformer(negative_slope, init_polygon)] *)
  LeakyReLUTransformer_call : Q -> Polygon -> Polygon -> Polygon;
  (** [t(x)] and [t.output_size()] for a [Conv2dTransformer] *)
  Conv2dTransformer_call : Conv2d_attrs -> Z * Z -> Polygon -> Polygon;
  Conv2dTransformer_output_size : Conv2d_attrs -> Z * Z -> Z * Z;
  (** [nn.Sequential] over a list of transformers *)
  nn_Sequential : list Transformer -> Sequential;
  (** entry [i] of the bias that a fresh [nn.Linear(in_features,
      out_features)] holds (torch draws it at random) *)
  nn_Linear_bias : nat -> nat -> nat -> Q
}.

(** [transformer(x)]. *)
Definition apply (E : Imports) (t : Transformer) (x : Polygon) : Polygon :=
  match t with
  | FlattenTransformer => FlattenTransformer_forward x
  | LinearTransformer weight bias => LinearTransformer_forward weight bias x
  | LeakyReLUTransformer s init => LeakyReLUTransformer_call E s init x
  | Conv2dTransformer conv size => Conv2dTransformer_call E conv size x
  end.

(** [n_classes = list(net.children())[-1].out_features]. *)
Definition n_classes_of (net : list Layer) : Result nat :=
  match rev net with
  | [] => Raise IndexError
  | l :: _ => out_features_of l
  end.

(** The synthetic last layer of [analyze]:
  [[
  final_layer = torch.nn.Linear(in_features=n_classes, out_features=n_classes - 1)
  final_layer_weights = -torch.eye(n_classes)
  final_layer_weights = torch.cat(
      (final_layer_weights[:true_label], final_layer_weights[true_label + 1 :]))
  final_layer_weights[:, true_label] = 1.0
  final_layer.weight.data = final_layer_weights
  final_layer.bias.data[:] = 0.0
  ]]
    [true_label] is a class index, a natural number.  [nn.Linear] refuses
    a negative [out_features], and the column assignment an index that is
    out of range. *)
Definition final_layer (n_classes true_label : nat) : Result Layer :=
  if Nat.eqb n_classes 0 then Raise RuntimeError
  else
    let final_layer_weights := map vneg (eye n_classes) in
    let final_layer_weights :=
      firstn true_label final_layer_weights
      ++ skipn (true_label + 1) final_layer_weights in
    if Nat.ltb true_label n_classes then
      Return (Linear (map (update true_label 1) final_layer_weights)
                     (zeros (n_classes - 1)))
    else Raise IndexError.

(** [torch.all(lower_bounds > 0)]. *)
Definition all_positive (lower_bounds : Vector) : bool :=
  forallb (fun x => negb (Qle_bool x 0)) lower_bounds.

(** [lower_bounds.clamp(max=0).abs().sum()]. *)
Definition loss_of (lower_bounds : Vector) : Q :=
  vsum (map Qabs (map (clamp_max 0) lower_bounds)).

(** [previous_loss is not None and loss >= previous_loss]. *)
Definition is_rising (previous_loss : option Q) (loss : Q) : bool :=
  match previous_loss with
  | None => false
  | Some p => Qle_bool p loss
  end.

(** Python's [max(a, b)]: [b] if [b > a], else [a]. *)
Definition py_max (a b : Q) : Q := if Qle_bool b a then a else b.

(** [range(n)] over the integers. *)
Definition zrange (n : Z) : list Z := map Z.of_nat (seq 0 (Z.to_nat n)).

End Torch.
Import Torch.

Declare Scope result_scope.
Delimit Scope result_scope with result.
Notation "x <- c1 ;; c2" := (rbind c1 (fun x => c2))
  (at level 61, c1 at next level, right associativity) : result_scope.
Open Scope result_scope.

(* --------------------------------------------------------------------- *)
(** ** [src/code/verifier.py] *)

Module VerifierCode.

(** *** [train] *)

(** [collections.deque(maxlen=maxlen).append(x)]: nothing is kept when
    [maxlen] is zero, and the oldest entry is dropped when full. *)
Definition deque_append (maxlen : nat) (d : list bool) (x : bool)
  : list bool :=
  if Nat.eqb maxlen 0 then d
  else if Nat.leb maxlen (length d) then tl d ++ [x]
  else d ++ [x].

(** [sum(1 for is_rising in loss_rising if is_rising)]. *)
Definition number_of_rising (loss_rising : list bool) : Z :=
  Z.of_nat (length (filter (fun b : bool => b) loss_rising)).

(** [loss_rising[-1]]. *)
Definition deque_last (loss_rising : list bool) : Result bool :=
  match rev loss_rising with
  | [] => Raise IndexError
  | b :: _ => Return b
  end.

(** [x or 0] for an optional integer [x]. *)
Definition or_0 (x : option Z) : Z :=
  match x with None => 0%Z | Some k => k end.

(** The variables of [train] that change from one iteration to the
    next; [lr] is [optimizer.param_groups[0]["lr"]] and [params] the
    current values of the parameter tensors. *)
Record LoopState : Type := mkLoopState {
  epoch : Z;
  previous_loss : option Q;
  loss_rising : list bool;
  lr : Q;
  params : list Vector
}.

(** How one run of the loop body ends: with a [return], with an
    exception, or at its last statement.  A [return] also records the
    state at that moment. *)
Inductive Step : Type :=
  | Returns (verified : bool) (epoch : Z) (final : LoopState)
  | Raises (e : Exn)
  | Continues (next : LoopState).

(** The learning-rate update of the loop body:
  [[
  if (lr_scheduling is not None
      and number_of_rising >= lr_scheduling
      and loss_rising[-1]):
      optimizer.param_groups[0]["lr"] = max(lr / 2, 1e-4)
  ]] *)
Definition schedule_lr (lr_scheduling : option Z) (loss_rising : list bool)
    (lr : Q) : Result Q :=
  match lr_scheduling with
  | None => Return lr
  | Some m =>
      if (m <=? number_of_rising loss_rising)%Z then
        last <- deque_last loss_rising ;;
        Return (if (last : bool) then py_max (lr / 2) (1 # 10000) else lr)
      else Return lr
  end.

(** [early_stopping is not None and number_of_rising >= early_stopping]. *)
Definition early_stop (early_stopping : option Z) (loss_rising : list bool)
  : bool :=
  match early_stopping with
  | None => false
  | Some k => (k <=? number_of_rising loss_rising)%Z
  end.

(** The body of the [while] loop. *)
Definition iteration (polygon_model : Sequential) (in_polygon : Polygon)
    (trainable : bool) (maxlen : nat)
    (early_stopping lr_scheduling : option Z) (st : LoopState) : Step :=
  let out_polygon := call polygon_model (params st) in_polygon in
  let lower_bounds := fst (evaluate out_polygon) in
  let verified := all_positive lower_bounds in
  if verified then Returns true (epoch st) st
  else if negb trainable then Returns false (epoch st) st
  else
    let loss := loss_of lower_bounds in
    let loss_rising :=
      deque_append maxlen (loss_rising st)
                   (is_rising (previous_loss st) loss) in
    match schedule_lr lr_scheduling loss_rising (lr st) with
    | Raise e => Raises e
    | Return lr' =>
        if early_stop early_stopping loss_rising then
          Returns false (epoch st)
            (mkLoopState (epoch st) (previous_loss st) loss_rising lr'
                         (params st))
        else
          Continues
            (mkLoopState (epoch st + 1) (Some loss) loss_rising lr'
               (sgd_step polygon_model lr' (params st) in_polygon))
    end.

(** [max_epochs is None or epoch <= max_epochs]. *)
Definition loop_test (max_epochs : option Z) (epoch : Z) : bool :=
  match max_epochs with
  | None => true
  | Some m => (epoch <=? m)%Z
  end.

(** The [while] loop and the [return False, epoch] after it; [fuel]
    bounds the number of iterations. *)
Fixpoint train_loop (fuel : nat) (polygon_model : Sequential)
    (in_polygon : Polygon) (trainable : bool) (maxlen : nat)
    (max_epochs early_stopping lr_scheduling : option Z) (st : LoopState)
  : option (Result (bool * Z)) :=
  if loop_test max_epochs (epoch st) then
    match fuel with
    | O => None
    | S fuel' =>
        match iteration polygon_model in_polygon trainable maxlen
                        early_stopping lr_scheduling st with
        | Returns verified epoch _ => Some (Return (verified, epoch))
        | Raises e => Some (Raise e)
        | Continues st' =>
            train_loop fuel' polygon_model in_polygon trainable maxlen
                       max_epochs early_stopping lr_scheduling st'
        end
    end
  else Some (Return (false, epoch st)).

Definition trainable_of (polygon_model : Sequential) : bool :=
  Nat.ltb 0 (length (parameters polygon_model)).

Definition history_size (early_stopping lr_scheduling : option Z) : Z :=
  Z.max (or_0 early_stopping) (or_0 lr_scheduling).

Definition initial_state (polygon_model : Sequential) : LoopState :=
  mkLoopState 1 None [] 5 (parameters polygon_model).

(** [train]; a [deque] refuses a negative [maxlen]. *)
Definition train (fuel : nat) (polygon_model : Sequential)
    (in_polygon : Polygon)
    (max_epochs early_stopping lr_scheduling : option Z)
  : option (Result (bool * Z)) :=
  let trainable := trainable_of polygon_model in
  let maxlen := (2 * history_size early_stopping lr_scheduling)%Z in
  if (maxlen <? 0)%Z then Some (Raise ValueError)
  else
    train_loop fuel polygon_model in_polygon trainable (Z.to_nat maxlen)
               max_epochs early_stopping lr_scheduling
               (initial_state polygon_model).

(** *** [analyze] *)

(** The variables that the loop over [net_layers] updates. *)
Record Build : Type := mkBuild {
  transformer_layers : list Transformer;
  x : Polygon;
  x_size : Z * Z
}.

(** The local function [add_transformer]. *)
Definition add_transformer (E : Imports) (transformer : Transformer)
    (b : Build) : Build :=
  mkBuild (transformer_layers b ++ [transformer])
          (apply E transformer (x b))
          (x_size b).

(** The body of [for depth, layer in enumerate(net_layers)]. *)
Definition add_layer (E : Imports) (depth : nat) (layer : Layer)
    (b : Build) : Result Build :=
  match layer with
  | Flatten => Return (add_transformer E FlattenTransformer b)
  | Linear weight bias =>
      Return (add_transformer E (LinearTransformer weight bias) b)
  | ReLU => Return (add_transformer E (LeakyReLUTransformer 0 (x b)) b)
  | LeakyReLU negative_slope =>
      Return (add_transformer E
                (LeakyReLUTransformer negative_slope (x b)) b)
  | Conv2d conv =>
      let b := if Nat.eqb depth 0
               then add_transformer E FlattenTransformer b else b in
      let transformer := Conv2dTransformer conv (x_size b) in
      let b := add_transformer E transformer b in
      Return (mkBuild (transformer_layers b) (x b)
                      (Conv2dTransformer_output_size E conv
                         (x_size b)))
  | Other class_name _ =>
      Raise (Exception ("Unknown layer type " ++ class_name))
  end.

Fixpoint add_layers (E : Imports) (depth : nat) (net_layers : list Layer)
    (b : Build) : Result Build :=
  match net_layers with
  | [] => Return b
  | layer :: rest =>
      b' <- add_layer E depth layer b ;;
      add_layers E (S depth) rest b'
  end.

(** [analyze] up to [polygon_model = nn.Sequential(...)]: the layers
    with the margin layer appended, and the chain of transformers. *)
Definition construct (E : Imports) (net : list Layer) (inputs : Inputs)
    (eps : Q) (true_label : nat) : Result (list Layer * Build) :=
  n_classes <- n_classes_of net ;;
  final <- final_layer n_classes true_label ;;
  let net_layers := net ++ [final] in
  let in_polygon := create_from_input (data inputs) eps in
  b <- add_layers E 0 net_layers
         (mkBuild [] in_polygon (shape_m2 inputs, shape_m1 inputs)) ;;
  Return (net_layers, b).

(** [analyze]; of the pair it returns, the verdict (the elapsed time is
    not modelled). *)
Definition analyze (fuel : nat) (E : Imports) (net : list Layer)
    (inputs : Inputs) (eps : Q) (true_label : nat)
    (early_stopping lr_scheduling : option Z) : option (Result bool) :=
  match construct E net inputs eps true_label with
  | Raise e => Some (Raise e)
  | Return (_, b) =>
      let polygon_model := nn_Sequential E (transformer_layers b) in
      let in_polygon := create_from_input (data inputs) eps in
      option_map (fun r => verdict <- r ;; Return (fst verdict))
        (train fuel polygon_model in_polygon None early_stopping
               lr_scheduling)
  end.

End VerifierCode.

(* --------------------------------------------------------------------- *)
(** ** [src/src/verifier.py] *)

Module VerifierSrc.

(** *** Convolutions as dense linear layers *)

(** [a // b]: floor division, as [Z.div], that raises on a zero
    divisor. *)
Definition floordiv (a b : Z) : Result Z :=
  if (b =? 0)%Z then Raise ZeroDivisionError else Return (a / b)%Z.

(** [output_size]. *)
Definition output_size (conv : Conv2d_attrs) (wh : Z * Z)
  : Result (Z * Z) :=
  o0 <- floordiv (fst wh + 2 * fst (padding conv) - fst (kernel_size conv))
                 (fst (stride conv)) ;;
  o1 <- floordiv (snd wh + 2 * snd (padding conv) - snd (kernel_size conv))
                 (snd (stride conv)) ;;
  Return ((o0 + 1)%Z, (o1 + 1)%Z).

(** [encode_loc]: the loop runs over the indices of [shape] from the
    last to the first. *)
Definition encode_loc (tup shape : list Z) : Z :=
  fst (fold_left
         (fun (acc : Z * Z) (ts : Z * Z) =>
            let '(residual, coefficient) := acc in
            let '(t, s) := ts in
            ((residual + coefficient * t)%Z, (coefficient * s)%Z))
         (rev (combine tup shape))
         (0%Z, 1%Z)).

Definition prod (shape : list Z) : Z := fold_right Z.mul 1%Z shape.

(** [m[i, j] = v]. *)
Definition update2 (i j : nat) (v : Q) (m : Matrix) : Matrix :=
  update i (update j v (nth i m [])) m.

(** [nn.Linear(in_features, out_features)] followed by
    [fc.weight.data.fill_(0.0)], as the pair [(fc.weight, fc.bias)]; torch
    refuses to create a tensor with a negative dimension. *)
Definition zero_Linear (E : Imports) (in_features out_features : Z)
  : Result (Matrix * Vector) :=
  if ((in_features <? 0) || (out_features <? 0))%Z%bool
  then Raise RuntimeError
  else
    Return
      (zeros_mat (Z.to_nat out_features) (Z.to_nat in_features),
       map (nn_Linear_bias E (Z.to_nat in_features) (Z.to_nat out_features))
           (seq 0 (Z.to_nat out_features))).

(** [conv_linear]; the result is the pair [(fc.weight, fc.bias)].  The
    weight and the bias of [conv] have the shapes [(out_channels,
    in_channels, kernel_size[0], kernel_size[1])] and [(out_channels)]. *)
Definition conv_linear (E : Imports) (conv : Conv2d_attrs) (wh : Z * Z)
  : Result (Matrix * Vector) :=
  let '(w, h) := wh in
  output <- output_size conv wh ;;
  let in_shape := [in_channels conv; w; h] in
  let out_shape := [out_channels conv; fst output; snd output] in
  fc <- zero_Linear E (prod in_shape) (prod out_shape) ;;
  Return (
  fold_left (fun fc x_0 =>
  fold_left (fun fc y_0 =>
    let x_00 := (fst (stride conv) * x_0 - fst (padding conv))%Z in
    let y_00 := (snd (stride conv) * y_0 - snd (padding conv))%Z in
    fold_left (fun fc xd =>
    fold_left (fun fc yd =>
    fold_left (fun (fc : Matrix * Vector) c1 =>
      let fc :=
        (fst fc,
         update (Z.to_nat (encode_loc [c1; x_0; y_0] out_shape))
                (nth (Z.to_nat c1) (conv_bias conv) 0)
                (snd fc)) in
      fold_left (fun (fc : Matrix * Vector) c2 =>
        if ((0 <=? x_00 + xd) && (x_00 + xd <? w)
            && (0 <=? y_00 + yd) && (y_00 + yd <? h))%Z%bool
        then
          let cw :=
            nth (Z.to_nat yd)
                (nth (Z.to_nat xd)
                     (nth (Z.to_nat c2)
                          (nth (Z.to_nat c1) (conv_weight conv) [])
                          [])
                     [])
                0 in
          (update2
             (Z.to_nat (encode_loc [c1; x_0; y_0] out_shape))
             (Z.to_nat
                (encode_loc [c2; x_00 + xd; y_00 + yd]%Z in_shape))
             cw (fst fc),
           snd fc)
        else fc)
        (zrange (in_channels conv)) fc)
      (zrange (out_channels conv)) fc)
      (zrange (snd (kernel_size conv))) fc)
      (zrange (fst (kernel_size conv))) fc)
    (zrange (snd output)) fc)
    (zrange (fst output)) fc).

(** *** [train] *)

Record LoopState : Type := mkLoopState {
  epoch : Z;
  previous_loss : option Q;
  params : list Vector
}.

Inductive Step : Type :=
  | Returns (verified : bool) (epoch : Z)
  | Continues (next : LoopState).

(** The body of the [while] loop; the optimizer is [SGD(..., lr=1.0)]. *)
Definition iteration (polygon_model : Sequential) (in_polygon : Polygon)
    (trainable : bool) (early_stopping : bool) (st : LoopState) : Step :=
  let out_polygon := call polygon_model (params st) in_polygon in
  let lower_bounds := fst (evaluate out_polygon) in
  let verified := all_positive lower_bounds in
  if verified then Returns true (epoch st)
  else if negb trainable then Returns false (epoch st)
  else
    let loss := loss_of lower_bounds in
    if early_stopping && is_rising (previous_loss st) loss then
      Returns false (epoch st)
    else
      Continues
        (mkLoopState (epoch st + 1)
           (if early_stopping then Some loss else previous_loss st)
           (sgd_step polygon_model 1 (params st) in_polygon)).

Definition loop_test (max_epochs : option Z) (epoch : Z) : bool :=
  match max_epochs with
  | None => true
  | Some m => (epoch <=? m)%Z
  end.

Fixpoint train_loop (fuel : nat) (polygon_model : Sequential)
    (in_polygon : Polygon) (trainable : bool)
    (max_epochs : option Z) (early_stopping : bool) (st : LoopState)
  : option (bool * Z) :=
  if loop_test max_epochs (epoch st) then
    match fuel with
    | O => None
    | S fuel' =>
        match iteration polygon_model in_polygon trainable
                        early_stopping st with
        | Returns verified epoch => Some (verified, epoch)
        | Continues st' =>
            train_loop fuel' polygon_model in_polygon trainable
                       max_epochs early_stopping st'
        end
    end
  else Some (false, epoch st).

Definition trainable_of (polygon_model : Sequential) : bool :=
  Nat.ltb 0 (length (parameters polygon_model)).

Definition initial_state (polygon_model : Sequential) : LoopState :=
  mkLoopState 1 None (parameters polygon_model).

(** [train]. *)
Definition train (fuel : nat) (polygon_model : Sequential)
    (in_polygon : Polygon) (max_epochs : option Z) (early_stopping : bool)
  : option (bool * Z) :=
  train_loop fuel polygon_model in_polygon (trainable_of polygon_model)
             max_epochs early_stopping (initial_state polygon_model).

(** *** [analyze] *)

(** The list [input_size], filled from the leading [Conv2d] layers. *)
Fixpoint input_sizes (net : list Layer) (wh : Z * Z)
  : Result (list (Z * Z)) :=
  match net with
  | Conv2d conv :: rest =>
      wh' <- output_size conv wh ;;
      sizes <- input_sizes rest wh' ;;
      Return (wh :: sizes)
  | _ => Return [wh]
  end.

Record Build : Type := mkBuild {
  transformer_layers : list Transformer;
  x : Polygon;
  flattened : bool;
  location : nat
}.

(** The local function [add_layer]. *)
Definition add_transformer (E : Imports) (new_layer : Transformer)
    (b : Build) : Build :=
  mkBuild (transformer_layers b ++ [new_layer])
          (apply E new_layer (x b))
          (flattened b) (location b).

(** The body of [for layer in net_layers]. *)
Definition add_layer (E : Imports) (input_size : list (Z * Z))
    (layer : Layer) (b : Build) : Result Build :=
  match layer with
  | Flatten =>
      if negb (flattened b)
      then Return (add_transformer E FlattenTransformer b)
      else Raise (Exception ("Unknown layer type " ++ "Flatten"))
  | Linear weight bias =>
      Return (add_transformer E (LinearTransformer weight bias) b)
  | ReLU => Return (add_transformer E (LeakyReLUTransformer 0 (x b)) b)
  | LeakyReLU negative_slope =>
      Return (add_transformer E
                (LeakyReLUTransformer negative_slope (x b)) b)
  | Conv2d conv =>
      match nth_error input_size (location b) with
      | None => Raise IndexError
      | Some wh =>
          fc <- conv_linear E conv wh ;;
          let b := mkBuild (transformer_layers b) (x b) (flattened b)
                           (S (location b)) in
          let b :=
            if negb (flattened b) then
              let b := add_transformer E FlattenTransformer b in
              mkBuild (transformer_layers b) (x b) true (location b)
            else b in
          Return (add_transformer E
                    (LinearTransformer (fst fc) (snd fc)) b)
      end
  | Other class_name _ =>
      Raise (Exception ("Unknown layer type " ++ class_name))
  end.

Fixpoint add_layers (E : Imports) (input_size : list (Z * Z))
    (net_layers : list Layer) (b : Build) : Result Build :=
  match net_layers with
  | [] => Return b
  | layer :: rest =>
      b' <- add_layer E input_size layer b ;;
      add_layers E input_size rest b'
  end.

(** [analyze] up to [polygon_model = nn.Sequential(...)]. *)
Definition construct (E : Imports) (net : list Layer) (inputs : Inputs)
    (eps : Q) (true_label : nat) : Result (list Layer * Build) :=
  input_size <- input_sizes net (shape_m2 inputs, shape_m1 inputs) ;;
  n_classes <- n_classes_of net ;;
  final <- final_layer n_classes true_label ;;
  let net_layers := net ++ [final] in
  let in_polygon := create_from_input (data inputs) eps in
  b <- add_layers E input_size net_layers
         (mkBuild [] in_polygon false 0) ;;
  Return (net_layers, b).

(** [analyze]. *)
Definition analyze (fuel : nat) (E : Imports) (net : list Layer)
    (inputs : Inputs) (eps : Q) (true_label : nat) (early_stopping : bool)
  : option (Result bool) :=
  match construct E net inputs eps true_label with
  | Raise e => Some (Raise e)
  | Return (_, b) =>
      let polygon_model := nn_Sequential E (transformer_layers b) in
      let in_polygon := create_from_input (data inputs) eps in
      option_map (fun r : bool * Z => Return (fst r))
        (train fuel polygon_model in_polygon (Some 100%Z) early_stopping)
  end.

End VerifierSrc.

(* --------------------------------------------------------------------- *)
(** ** Vocabulary of the specification *)

Module Spec.

(** The margin rows in the words of the specification: one row per
    class other than the true one, equal to the unit vector of the true
    class minus the unit vector of that class. *)
Definition margin_rows (n_classes true_label : nat) : Matrix :=
  map (fun j => vsub (eye_row n_classes true_label) (eye_row n_classes j))
      (filter (fun j => negb (Nat.eqb j true_label)) (seq 0 n_classes)).

(** *** Back-substitution in the words of the specification *)

(** The non-negative and the non-positive part of a matrix. *)
Definition nonneg_part (m : Matrix) : Matrix :=
  map (map (fun c => if Qle_bool 0 c then c else 0)) m.
Definition nonpos_part (m : Matrix) : Matrix :=
  map (map (fun c => if Qle_bool c 0 then c else 0)) m.

(** Matrix times vector. *)
Definition matvec (m : Matrix) (v : Vector) : Vector :=
  map (fun r => dot r v) m.

(** The bounds that are being substituted: coefficient matrices and
    bias vectors, lower and upper. *)
Record SymBounds : Type := mkSymBounds {
  lower_coefs : Matrix;
  upper_coefs : Matrix;
  lower_bias : Vector;
  upper_bias : Vector
}.

(** One substitution step into the bounds of an ancestor [p]. *)
Definition substitute (s : SymBounds) (p : Polygon) : SymBounds :=
  mkSymBounds
    (madd (matmul (nonneg_part (lower_coefs s)) (l_coefs p))
          (matmul (nonpos_part (lower_coefs s)) (u_coefs p)))
    (madd (matmul (nonneg_part (upper_coefs s)) (u_coefs p))
          (matmul (nonpos_part (upper_coefs s)) (l_coefs p)))
    (vadd (lower_bias s)
          (vadd (matvec (nonneg_part (lower_coefs s)) (l_bias p))
                (matvec (nonpos_part (lower_coefs s)) (u_bias p))))
    (vadd (upper_bias s)
          (vadd (matvec (nonneg_part (upper_coefs s)) (u_bias p))
                (matvec (nonpos_part (upper_coefs s)) (l_bias p)))).

(** A polygon and its ancestors, from the polygon itself to the root. *)
Fixpoint chain (p : Polygon) : list Polygon :=
  match p with
  | Build_Polygon _ _ _ _ _ _ None => [p]
  | Build_Polygon _ _ _ _ _ _ (Some p') => p :: chain p'
  end.

Definition ancestors (parent : option Polygon) : list Polygon :=
  match parent with None => [] | Some p => chain p end.

(** The step repeated at every ancestor, parent first, root last. *)
Definition substituted (l_coefs u_coefs : Matrix) (l_bias u_bias : Vector)
    (parent : option Polygon) : SymBounds :=
  fold_left substitute (ancestors parent)
            (mkSymBounds l_coefs u_coefs l_bias u_bias).

Definition zero_width (m : Matrix) : Prop := Forall (fun r => r = []) m.

(** *** The relaxation of one neuron, as [ReLUTransformer.forward]
    leaves it *)

(** Row [i] of the four tensors of the polygon that
    [ReLUTransformer.forward] returns for input bounds [l], [u] on the
    neuron (of [n]). *)
Definition relu_slope (l u : Q) : Q := u / (u - l).

Definition crossing (l u : Q) : bool :=
  negb (Qle_bool u 0 || Qle_bool 0 l).

Definition relu_l_row (n : nat) (l u : Q) (i : nat) : Vector :=
  if crossing l u then eye_row n i
  else if Qle_bool 0 l then eye_row n i
  else zeros n.

Definition relu_u_row (n : nat) (l u : Q) (i : nat) : Vector :=
  if crossing l u then map (fun e => e * relu_slope l u) (eye_row n i)
  else if Qle_bool 0 l then eye_row n i
  else zeros n.

Definition relu_u_bias (l u : Q) : Q :=
  if crossing l u then - relu_slope l u * l else 0.

(** The four tensors of that polygon for [n] neurons with input bounds
    [l], [u]. *)
Definition relu_l_coefs (n : nat) (l u : Vector) : Matrix :=
  map (fun i => relu_l_row n (nth i l 0) (nth i u 0) i) (seq 0 n).
Definition relu_u_coefs (n : nat) (l u : Vector) : Matrix :=
  map (fun i => relu_u_row n (nth i l 0) (nth i u 0) i) (seq 0 n).
Definition relu_l_bias_vec (n : nat) : Vector :=
  map (fun _ => 0) (seq 0 n).
Definition relu_u_bias_vec (n : nat) (l u : Vector) : Vector :=
  map (fun i => relu_u_bias (nth i l 0) (nth i u 0)) (seq 0 n).

(** The tensors of the two candidates as the final [torch.where] loop of
    [ReLUTransformer.forward] reads them: [(l_coefs, l_bias, u_coefs,
    u_bias)] of [poly_I] and of [poly_II]. *)
Definition read_candidates (x : Polygon)
  : (Matrix * Vector * Matrix * Vector) * (Matrix * Vector * Matrix * Vector)
  :=
  Store.run
    (c <- relu_candidates x ;;
     let '((a_lc, a_lb, a_uc, a_ub), (b_lc, b_lb, b_uc, b_ub)) := c in
     v1 <- get_mat a_lc ;; v2 <- get_vec a_lb ;;
     v3 <- get_mat a_uc ;; v4 <- get_vec a_ub ;;
     w1 <- get_mat b_lc ;; w2 <- get_vec b_lb ;;
     w3 <- get_mat b_uc ;; w4 <- get_vec b_ub ;;
     ret ((v1, v2, v3, v4), (w1, w2, w3, w4)))%store.

(** *** Concrete semantics and soundness *)




(** Componentwise order on vectors of the same length. *)
Definition vle (a b : Vector) : Prop := Forall2 Qle a b.





(** The symbolic bounds of [p] hold between the activation [b] of the
    previous layer and the activation [a] of this one, and the tensors of
    [p] have matching shapes. *)
Definition symbolic (p : Polygon) (b a : Vector) : Prop :=
  Forall (fun r => length r = length b) (l_coefs p)
  /\ Forall (fun r => length r = length b) (u_coefs p)
  /\ length (l_coefs p) = length (l_bias p)
  /\ length (u_coefs p) = length (u_bias p)
  /\ vle (affine (l_coefs p) (l_bias p) b) a
  /\ vle a (affine (u_coefs p) (u_bias p) b).

(** [p] has the concrete bounds that its constructor computes. *)
Definition built (p : Polygon) : Prop :=
  p = Polygon_init (l_coefs p) (u_coefs p) (l_bias p) (u_bias p) (parent p).

(** The invariant of a chain of polygons against the activations of the
    layers they stand for, listed from the last layer back to the input:
    every polygon is built by the constructor and its symbolic bounds hold
    (the root has no previous layer: its bounds are constants). *)
Inductive sound_chain : option Polygon -> list Vector -> Prop :=
  | sound_none : sound_chain None []
  | sound_some (p : Polygon) (a : Vector) (rest : list Vector) :
    sound_chain (parent p) rest ->
    symbolic p (hd [] rest) a ->
    built p ->
    sound_chain (Some p) (a :: rest).

(** The last [n] entries of a list. *)
Definition lastn {A : Type} (n : nat) (l : list A) : list A :=
  skipn (length l - n) l.

Definition count_true (l : list bool) : nat :=
  length (filter (fun b : bool => b) l).

(** The early-stopping test in the words of the specification, for a
    threshold [k] and the flags of all iterations so far: at least [k]
    flags are set among those of the last [2k] iterations, and the flag
    of the latest iteration is set. *)
Definition claimed_early_stop (k : nat) (flags : list bool) : bool :=
  Nat.leb k (count_true (lastn (2 * k) flags)) && last flags false.

Section CodeRuns.

Variables (polygon_model : Sequential) (in_polygon : Polygon)
        (trainable : bool) (maxlen : nat)
        (early_stopping lr_scheduling : option Z).

(** What an iteration of [train] that starts in state [st] observes. *)
Definition lower_bounds (st : VerifierCode.LoopState) : Vector :=
  fst (evaluate (call polygon_model (VerifierCode.params st) in_polygon)).

(** The loss-did-not-improve flag of that iteration. *)
Definition flag_of (st : VerifierCode.LoopState) : bool :=
  is_rising (VerifierCode.previous_loss st) (loss_of (lower_bounds st)).

(** The state after [n] iterations that all reach the end of the loop
  body ([None] if one of them returns or raises). *)
Fixpoint continues (n : nat) (st : VerifierCode.LoopState)
  : option VerifierCode.LoopState :=
  match n with
  | O => Some st
  | S n' =>
    match VerifierCode.iteration polygon_model in_polygon trainable
            maxlen early_stopping lr_scheduling st with
    | VerifierCode.Continues st' => continues n' st'
    | _ => None
    end
  end.

(** The flags of the first [n] iterations from [st] (fewer if the loop
  ends before). *)
Fixpoint flag_history (n : nat) (st : VerifierCode.LoopState)
  : list bool :=
  match n with
  | O => []
  | S n' =>
    flag_of st ::
    match VerifierCode.iteration polygon_model in_polygon trainable
            maxlen early_stopping lr_scheduling st with
    | VerifierCode.Continues st' => flag_history n' st'
    | _ => []
    end
  end.

End CodeRuns.

Section SrcRuns.

Variables (polygon_model : Sequential) (in_polygon : Polygon)
        (trainable : bool) (early_stopping : bool).

Fixpoint src_continues (n : nat) (st : VerifierSrc.LoopState)
  : option VerifierSrc.LoopState :=
  match n with
  | O => Some st
  | S n' =>
    match VerifierSrc.iteration polygon_model in_polygon trainable
            early_stopping st with
    | VerifierSrc.Continues st' => src_continues n' st'
    | _ => None
    end
  end.

End SrcRuns.

End Spec.

(* --------------------------------------------------------------------- *)
(** ** Small concrete instances, used to exercise the statements *)

Module Examples.

(** Stand-ins for the unavailable classes: a relaxation and a
    convolution transformer that hand their input on unchanged, and a
    [Sequential] without trainable parameters that does the same. *)
Definition plain_imports : Imports := {|
  LeakyReLUTransformer_call := fun _ _ x => x;
  Conv2dTransformer_call := fun _ _ x => x;
  Conv2dTransformer_output_size := fun _ wh => wh;
  nn_Sequential := fun _ =>
    {| parameters := []; call := fun _ x => x;
       sgd_step := fun _ ps _ => ps |};
  nn_Linear_bias := fun _ _ _ => 0
  |}.

Definition one_pixel : Inputs :=
  {| shape_m2 := 1; shape_m1 := 1; data := [1 # 2] |}.


(** A [Sequential] with one (empty) parameter tensor that plays back a
    list of losses: at the [i]-th forward pass its single margin has the
    lower bound [- losses[i]], and a step of the optimizer moves on to
    the next entry (the length of the parameter tensor counts the
    steps). *)
Definition scripted (losses : list Q) : Sequential := {|
  parameters := [[]];
  call := fun ps _ =>
    Build_Polygon [] [] [] []
                  [- nth (length (hd [] ps)) losses 0] [] None;
  sgd_step := fun _ ps _ => [0 :: hd [] ps]
  |}.

(** A [Sequential] without parameters whose single margin is [lb]. *)
Definition fixed_margin (lb : Q) : Sequential := {|
  parameters := [];
  call := fun _ _ => Build_Polygon [] [] [] [] [lb] [] None;
  sgd_step := fun _ ps _ => ps
  |}.

Definition some_polygon : Polygon := create_from_input [1 # 2] (1 # 10).

(** One input in [0, 1] mapped by a linear layer to the interval
    [-3, 1], and to the interval [-1, 3]. *)
Definition unit_box : Polygon := create_from_input [1 # 2] (1 # 2).
Definition interval_m3_1 : Polygon :=
  LinearTransformer_forward [[4]] [-3] unit_box.
Definition interval_m1_3 : Polygon :=
  LinearTransformer_forward [[4]] [-1] unit_box.

(** The input polygon of the single pixel 0 with radius 0: the interval
    [0, 0]. *)
Definition interval_0_0 : Polygon := create_from_input [0] 0.


End Examples.

(* --------------------------------------------------------------------- *)
(** ** [get_gt] of the two [verifier.py] files *)

Module GroundTruth.

(** [s.split(sep)] for a separator of one character. *)
Fixpoint split (sep : ascii) (s : string) : list string :=
  match s with
  | EmptyString => [EmptyString]
  | String c s' =>
      if Ascii.eqb c sep then EmptyString :: split sep s'
      else
        match split sep s' with
        | field :: fields => String c field :: fields
        | [] => [String c EmptyString]
        end
  end.

(** [sub in s] for strings. *)
Fixpoint contains (sub s : string) : bool :=
  if String.prefix sub s then true
  else
    match s with
    | EmptyString => false
    | String _ s' => contains sub s'
    end.

(** The loop of [get_gt] over the lines of the file that it has opened:
  [[
  for line in f.read().splitlines():
      model, fl, answer = line.split(",")
      if model == net and fl in spec:
          return answer
  ]]
    Unpacking a list that has not three elements raises [ValueError];
    when the loop ends the function returns [None]. *)
Fixpoint get_gt_lines (lines : list string) (net spec : string)
  : Result (option string) :=
  match lines with
  | [] => Return None
  | line :: rest =>
      match split "," line with
      | [model; fl; answer] =>
          if (String.eqb model net && contains fl spec)%bool
          then Return (Some answer)
          else get_gt_lines rest net spec
      | _ => Raise ValueError
      end
  end.

(** [get_gt] of [src/src/verifier.py]; [read] gives the lines of a file
    (the files are taken to exist). *)
Definition src_get_gt (read : string -> list string) (net spec : string)
  : Result (option string) :=
  get_gt_lines (read "test_cases/gt.txt"%string) net spec.

(** [get_gt] of [src/code/verifier.py]:
    [folder = spec.split("/")[0]], and the file is [f"{folder}/gt.txt"]. *)
Definition code_get_gt (read : string -> list string) (net spec : string)
  : Result (option string) :=
  let folder := hd EmptyString (split "/" spec) in
  get_gt_lines (read (folder ++ "/gt.txt")%string) net spec.

End GroundTruth.

(* --------------------------------------------------------------------- *)
(** ** Vocabulary and instances of the further properties *)

Module Props.

(** Entry [(r, c)] of a matrix. *)
Definition entry (r c : nat) (m : Matrix) : Q := nth c (nth r m []) 0.

(** The pair [(fc.weight, fc.bias)] has [rows] rows and [cols] columns. *)
Definition fc_shape (rows cols : nat) (fc : Matrix * Vector) : Prop :=
  length (fst fc) = rows
  /\ Forall (fun r => length r = cols) (fst fc)
  /\ length (snd fc) = rows.

(** Entry [(r, c)] of the matrix of [conv_linear] for an image of size
    [(w, h)] and an output of size [(o0, o1)] is the kernel weight of a
    window position that lies inside the image. *)
Definition kernel_entry (conv : Conv2d_attrs) (w h o0 o1 : Z)
    (r c : nat) (v : Q) : Prop :=
  exists c1 c2 x_0 y_0 xd yd : Z,
    let x := (fst (stride conv) * x_0 - fst (padding conv) + xd)%Z in
    let y := (snd (stride conv) * y_0 - snd (padding conv) + yd)%Z in
    (0 <= c1 < out_channels conv)%Z /\ (0 <= c2 < in_channels conv)%Z
    /\ (0 <= x_0 < o0)%Z /\ (0 <= y_0 < o1)%Z
    /\ (0 <= xd < fst (kernel_size conv))%Z
    /\ (0 <= yd < snd (kernel_size conv))%Z
    /\ (0 <= x < w)%Z /\ (0 <= y < h)%Z
    /\ r = Z.to_nat (VerifierSrc.encode_loc [c1; x_0; y_0]
                       [out_channels conv; o0; o1])
    /\ c = Z.to_nat (VerifierSrc.encode_loc [c2; x; y]
                       [in_channels conv; w; h])
    /\ v = nth (Z.to_nat yd)
             (nth (Z.to_nat xd)
                (nth (Z.to_nat c2) (nth (Z.to_nat c1) (conv_weight conv) [])
                   [])
                [])
             0.

(** Every entry of the matrix is zero or such a kernel weight. *)
Definition conv_sparse (conv : Conv2d_attrs) (w h o0 o1 : Z) (m : Matrix)
  : Prop :=
  forall r c : nat,
    entry r c m = 0 \/ kernel_entry conv w h o0 o1 r c (entry r c m).

(** [isinstance(layer, torch.nn.Conv2d)], the number of such layers in
    a list, and the number at its front. *)
Definition is_conv (l : Layer) : bool :=
  match l with Conv2d _ => true | _ => false end.

Definition count_conv (layers : list Layer) : nat :=
  length (filter is_conv layers).

Fixpoint leading_convs (net : list Layer) : nat :=
  match net with
  | Conv2d _ :: rest => S (leading_convs rest)
  | _ => O
  end.

(** The classes of the transformers, and the class that [analyze] of
    [src/code/verifier.py] instantiates for a layer. *)
Inductive Kind : Type := KFlatten | KLinear | KLeakyReLU | KConv2d.

Definition kind_of (t : Transformer) : Kind :=
  match t with
  | FlattenTransformer => KFlatten
  | LinearTransformer _ _ => KLinear
  | LeakyReLUTransformer _ _ => KLeakyReLU
  | Conv2dTransformer _ _ => KConv2d
  end.

Definition kind_for (l : Layer) : list Kind :=
  match l with
  | Flatten => [KFlatten]
  | Linear _ _ => [KLinear]
  | ReLU | LeakyReLU _ => [KLeakyReLU]
  | Conv2d _ => [KConv2d]
  | Other _ _ => []
  end.





(** The character [c] occurs in [s]. *)
Fixpoint occurs (c : ascii) (s : string) : bool :=
  match s with
  | EmptyString => false
  | String c' s' => (Ascii.eqb c' c || occurs c s')%bool
  end.

(** The loop of [get_gt] passes over [line]: it has three fields, and they
    do not match [net] and [spec]. *)
Definition passed_over (net spec line : string) : Prop :=
  exists model fl answer,
    GroundTruth.split "," line = [model; fl; answer]
    /\ (String.eqb model net && GroundTruth.contains fl spec)%bool = false.

End Props.
Import Props.

Module MoreExamples.

(** A convolution with two output channels, a 2 x 2 kernel, stride 2
    and padding 1, and a 3 x 3 image with one channel; the output is
    2 x 2. *)
Definition small_conv : Conv2d_attrs := {|
  stride := (2, 2)%Z;
  padding := (1, 1)%Z;
  kernel_size := (2, 2)%Z;
  in_channels := 1%Z;
  out_channels := 2%Z;
  conv_weight := [[[[1; 2]; [3; 4]]]; [[[5; 6]; [7; 8]]]];
  conv_bias := [9; 10]
  |}.

Definition image_3x3 : Inputs := {|
  shape_m2 := 3;
  shape_m1 := 3;
  data := [0; 1 # 8; 2 # 8; 3 # 8; 4 # 8; 5 # 8; 6 # 8; 7 # 8; 1]
  |}.

(** The dense layer that [conv_linear] builds for them. *)
Definition small_fc : Matrix * Vector :=
  match VerifierSrc.conv_linear Examples.plain_imports small_conv
                                (3, 3)%Z with
  | Return fc => fc
  | Raise _ => ([], [])
  end.

(** A pointwise (1 x 1) convolution from two channels to one. *)
Definition pointwise_conv : Conv2d_attrs := {|
  stride := (1, 1)%Z;
  padding := (0, 0)%Z;
  kernel_size := (1, 1)%Z;
  in_channels := 2%Z;
  out_channels := 1%Z;
  conv_weight := [[[[1]]; [[1]]]];
  conv_bias := [0]
  |}.

(** Networks on the 3 x 3 image: convolution, ReLU, Flatten, Linear; and
    three convolutions separated by ReLUs. *)
Definition conv_flatten_net : list Layer :=
  [Conv2d small_conv; ReLU; Flatten;
   Linear [[1; 0; 0; 0; 0; 0; 0; 0]; [0; 1; 0; 0; 0; 0; 0; 0]] [0; 0]].

Definition three_conv_net : list Layer :=
  [Conv2d small_conv; ReLU; Conv2d pointwise_conv; ReLU;
   Conv2d pointwise_conv; Linear [[1; 0; 0; 0]; [0; 1; 0; 0]] [0; 0]].

(** Imports whose [nn.Sequential] runs its transformers one after the
    other and has no trainable parameters (the relaxation and the
    convolution transformer hand their input on unchanged). *)
Definition running_imports : Imports := {|
  LeakyReLUTransformer_call := fun _ _ x => x;
  Conv2dTransformer_call := fun _ _ x => x;
  Conv2dTransformer_output_size := fun _ wh => wh;
  nn_Sequential := fun ts =>
    {| parameters := [];
       call := fun _ x =>
         fold_left (fun p t => apply Examples.plain_imports t p) ts x;
       sgd_step := fun _ ps _ => ps |};
  nn_Linear_bias := fun _ _ _ => 0
  |}.

(** Two classes with the same logit: the margin is zero. *)
Definition tied_net : list Layer := [Linear [[1]; [1]] [0; 0]].

End MoreExamples.

(* ===================================================================== *)
(** * Part II: properties                                                 *)
(* ===================================================================== *)

(** ** The margin layer *)

Section MarginLayer.

Lemma update_map_seq (f : nat -> Q) (v : Q) (t s n : nat) :
  update t v (map f (seq s n)) =
  map (fun k => if Nat.eqb k (s + t) then v else f k) (seq s n).
Proof.
  revert t s; induction n as [|n IH]; intros t s; simpl.
  - reflexivity.
  - destruct t as [|t]; simpl.
    + rewrite Nat.add_0_r, Nat.eqb_refl. f_equal.
      apply map_ext_in. intros k Hk. apply in_seq in Hk.
      destruct (Nat.eqb_spec k s); [lia | reflexivity].
    + destruct (Nat.eqb_spec s (s + S t)); [lia |].
      f_equal. rewrite IH. apply map_ext. intros k.
      replace (S s + t)%nat with (s + S t)%nat by lia. reflexivity.
Qed.

Lemma map2_map_map {A B C D} (f : B -> C -> D) (g : A -> B) (h : A -> C)
      (l : list A) :
  map2 f (map g l) (map h l) = map (fun a => f (g a) (h a)) l.
Proof. induction l; simpl; congruence. Qed.

Lemma margin_row (c t j : nat) :
  j <> t ->
  update t 1 (vneg (eye_row c j)) = vsub (eye_row c t) (eye_row c j).
Proof.
  intros Hj. unfold vneg, vsub, eye_row.
  rewrite map_map, update_map_seq, map2_map_map.
  apply map_ext. intros k. simpl.
  destruct (Nat.eqb_spec k t) as [->|Hk].
  - rewrite Nat.eqb_refl.
    destruct (Nat.eqb_spec j t); [contradiction | reflexivity].
  - destruct (Nat.eqb_spec t k); [congruence |].
    destruct (Nat.eqb_spec j k); reflexivity.
Qed.

Lemma filter_neq_seq (t s n : nat) :
  (s <= t < s + n)%nat ->
  filter (fun j => negb (Nat.eqb j t)) (seq s n) =
  seq s (t - s) ++ seq (S t) (s + n - S t).
Proof.
  intros H.
  replace n with ((t - s) + (1 + (s + n - S t)))%nat at 1 by lia.
  rewrite seq_app, filter_app. f_equal.
  - apply forallb_filter_id. apply forallb_forall. intros k Hk.
    apply in_seq in Hk. destruct (Nat.eqb_spec k t); [lia | reflexivity].
  - rewrite seq_app. replace (s + (t - s))%nat with t by lia. simpl.
    rewrite Nat.eqb_refl. simpl.
    replace (t + 1)%nat with (S t) by lia.
    apply forallb_filter_id. apply forallb_forall. intros k Hk.
    apply in_seq in Hk. destruct (Nat.eqb_spec k t); [lia | reflexivity].
Qed.

Lemma firstn_seq (t s n : nat) :
  (t <= n)%nat -> firstn t (seq s n) = seq s t.
Proof.
  intros H. replace n with (t + (n - t))%nat by lia.
  rewrite seq_app, firstn_app, length_seq, Nat.sub_diag. simpl.
  rewrite app_nil_r. apply firstn_all2. rewrite length_seq. lia.
Qed.

Lemma skipn_seq (t s n : nat) :
  (t <= n)%nat -> skipn t (seq s n) = seq (s + t) (n - t).
Proof.
  intros H. replace n with (t + (n - t))%nat at 1 by lia.
  rewrite seq_app, skipn_app, length_seq, Nat.sub_diag. simpl.
  rewrite skipn_all2 by (rewrite length_seq; lia). reflexivity.
Qed.

Lemma final_layer_rows (c t : nat) :
  (t < c)%nat ->
  final_layer c t = Return (Linear (Spec.margin_rows c t) (zeros (c - 1))).
Proof.
  intros H. unfold final_layer.
  destruct (Nat.eqb_spec c 0); [lia |].
  destruct (Nat.ltb_spec t c); [| lia].
  do 2 f_equal. unfold Spec.margin_rows, eye.
  rewrite filter_neq_seq by lia.
  rewrite !map_map, firstn_map, skipn_map.
  rewrite firstn_seq, skipn_seq by lia.
  rewrite !map_app, !map_map. rewrite Nat.sub_0_r. simpl.
  replace (c - (t + 1))%nat with (c - S t)%nat by lia.
  replace (t + 1)%nat with (S t) by lia.
  f_equal; apply map_ext_in; intros j Hj; apply in_seq in Hj;
    apply margin_row; lia.
Qed.

Lemma margin_rows_length (c t : nat) :
  (t < c)%nat -> length (Spec.margin_rows c t) = (c - 1)%nat.
Proof.
  intros H. unfold Spec.margin_rows.
  rewrite length_map, filter_neq_seq by lia.
  rewrite length_app, !length_seq. lia.
Qed.

End MarginLayer.

(** ** Construction of the transformer chain *)

Section Construction.

Variable E : Imports.

Lemma code_add_layers_app (l1 l2 : list Layer) (d : nat)
      (b : VerifierCode.Build) :
  VerifierCode.add_layers E d (l1 ++ l2) b =
  (b' <- VerifierCode.add_layers E d l1 b ;;
   VerifierCode.add_layers E (d + length l1) l2 b').
Proof.
  revert d b; induction l1 as [|l l1 IH]; intros d b; simpl.
  - rewrite Nat.add_0_r. reflexivity.
  - destruct (VerifierCode.add_layer E d l b); simpl; [| reflexivity].
    rewrite IH. replace (S d + length l1)%nat with (d + S (length l1))%nat
      by lia. reflexivity.
Qed.



Lemma src_add_layers_app (sizes : list (Z * Z)) (l1 l2 : list Layer)
      (b : VerifierSrc.Build) :
  VerifierSrc.add_layers E sizes (l1 ++ l2) b =
  (b' <- VerifierSrc.add_layers E sizes l1 b ;;
   VerifierSrc.add_layers E sizes l2 b').
Proof.
  revert b; induction l1 as [|l l1 IH]; intros b; simpl.
  - reflexivity.
  - destruct (VerifierSrc.add_layer E sizes l b); simpl;
      [apply IH | reflexivity].
Qed.

End Construction.

(** C5.  For [c] output classes and a true label [t < c], the synthetic
    last layer that [analyze] builds is a linear layer whose weight matrix
    has exactly [c - 1] rows, one per class [j] other than [t] and equal to
    (unit vector of [t]) - (unit vector of [j]), and whose bias is zero;
    and in both [verifier.py] files, whenever the construction of the
    chain succeeds, this layer is the last of [net_layers] and its
    [LinearTransformer] the last transformer of the chain. *)
Theorem margin_layer_construction (c t : nat) :
  (t < c)%nat ->
  final_layer c t = Return (Linear (Spec.margin_rows c t) (zeros (c - 1)))
  /\ nrows (Spec.margin_rows c t) = (c - 1)%nat
  /\ (forall E net inputs eps layers b,
        n_classes_of net = Return c ->
        VerifierCode.construct E net inputs eps t = Return (layers, b) ->
        layers = net ++ [Linear (Spec.margin_rows c t) (zeros (c - 1))]
        /\ exists ts,
            VerifierCode.transformer_layers b =
            ts ++ [LinearTransformer (Spec.margin_rows c t) (zeros (c - 1))])
  /\ (forall E net inputs eps layers b,
        n_classes_of net = Return c ->
        VerifierSrc.construct E net inputs eps t = Return (layers, b) ->
        layers = net ++ [Linear (Spec.margin_rows c t) (zeros (c - 1))]
        /\ exists ts,
            VerifierSrc.transformer_layers b =
            ts ++ [LinearTransformer (Spec.margin_rows c t) (zeros (c - 1))]).
Proof.
  intros Ht. pose proof (final_layer_rows c t Ht) as Hfinal.
  split; [exact Hfinal |].
  split; [apply margin_rows_length; exact Ht |].
  split.
  - intros E net inputs eps layers b Hc. unfold VerifierCode.construct.
    rewrite Hc. simpl. rewrite Hfinal. simpl.
    rewrite code_add_layers_app.
    destruct (VerifierCode.add_layers E 0 net _) as [b1|e]; simpl;
      [| discriminate].
    intros H; injection H as <- <-. split; [reflexivity |].
    eexists. reflexivity.
  - intros E net inputs eps layers b Hc. unfold VerifierSrc.construct.
    destruct (VerifierSrc.input_sizes net _) as [sizes|e]; simpl;
      [| discriminate].
    rewrite Hc. simpl. rewrite Hfinal. simpl.
    rewrite src_add_layers_app.
    destruct (VerifierSrc.add_layers E _ net _) as [b1|e]; simpl;
      [| discriminate].
    intros H; injection H as <- <-. split; [reflexivity |].
    eexists. reflexivity.
Qed.

Lemma margin_layer_construction_witness :
  (1 < 3)%nat
  /\ final_layer 3 1 = Return (Linear [[-1; 1; 0]; [0; 1; -1]] [0; 0]).
Proof.
  split; [lia |].
  rewrite (proj1 (margin_layer_construction 3 1 ltac:(lia))). reflexivity.
Defined.



(** ** The optimization loop *)

Section TrainLoop.

Import VerifierCode.

Variables (polygon_model : Sequential) (in_polygon : Polygon).

Local Abbreviation lower_bounds := (Spec.lower_bounds polygon_model in_polygon).
Local Abbreviation flag_of := (Spec.flag_of polygon_model in_polygon).

Lemma iteration_verified trainable maxlen es lrs st :
  all_positive (lower_bounds st) = true ->
  iteration polygon_model in_polygon trainable maxlen es lrs st
  = Returns true (epoch st) st.
Proof.
  intros H. unfold iteration. fold (lower_bounds st). rewrite H.
  reflexivity.
Qed.

Lemma iteration_not_trainable maxlen es lrs st :
  all_positive (lower_bounds st) = false ->
  iteration polygon_model in_polygon false maxlen es lrs st
  = Returns false (epoch st) st.
Proof.
  intros H. unfold iteration. fold (lower_bounds st). rewrite H.
  reflexivity.
Qed.

(** An iteration that returns reports the current epoch; one that goes
    on has advanced it by one. *)
Lemma iteration_epoch trainable maxlen es lrs st :
  match iteration polygon_model in_polygon trainable maxlen es lrs st with
  | Returns _ e _ => e = epoch st
  | Raises _ => True
  | Continues st' => epoch st' = (epoch st + 1)%Z
  end.
Proof.
  unfold iteration.
  destruct (all_positive _); [reflexivity |].
  destruct trainable; simpl; [| reflexivity].
  destruct (schedule_lr _ _ _); [| exact I].
  destruct (early_stop _ _); reflexivity.
Qed.

Lemma train_loop_epoch_le fuel trainable maxlen me es lrs st v e :
  train_loop fuel polygon_model in_polygon trainable maxlen me es lrs st
  = Some (Return (v, e)) ->
  (epoch st <= e)%Z.
Proof.
  revert st; induction fuel as [|fuel IH]; intros st; simpl.
  - destruct (loop_test me (epoch st)); [discriminate |].
    intros H; injection H as _ <-. lia.
  - destruct (loop_test me (epoch st)).
    + pose proof (iteration_epoch trainable maxlen es lrs st) as He.
      destruct (iteration _ _ _ _ _ _ st) as [v' e' fin|ex|st'].
      * intros H; injection H as _ <-. lia.
      * discriminate.
      * intros H. apply IH in H. lia.
    + intros H; injection H as _ <-. lia.
Qed.

Lemma continues_epoch trainable maxlen es lrs n st st' :
  Spec.continues polygon_model in_polygon trainable maxlen es lrs n st
  = Some st' ->
  epoch st' = (epoch st + Z.of_nat n)%Z.
Proof.
  revert st; induction n as [|n IH]; intros st; simpl.
  - intros H; injection H as <-. lia.
  - pose proof (iteration_epoch trainable maxlen es lrs st) as He.
    destruct (iteration _ _ _ _ _ _ st) as [v' e' fin|ex|st1];
      try discriminate.
    intros H. apply IH in H. lia.
Qed.

(** Iterations that all go on use up as much fuel and nothing else, as
    long as the loop test lets them start. *)
Lemma train_loop_continues trainable maxlen me es lrs n fuel st st' :
  Spec.continues polygon_model in_polygon trainable maxlen es lrs n st
  = Some st' ->
  (forall m, me = Some m -> (epoch st + Z.of_nat n - 1 <= m)%Z) ->
  train_loop (n + fuel) polygon_model in_polygon trainable maxlen me es lrs
             st
  = train_loop fuel polygon_model in_polygon trainable maxlen me es lrs st'.
Proof.
  revert st; induction n as [|n IH]; intros st; simpl.
  - intros H _; injection H as <-. reflexivity.
  - intros H Hme.
    assert (Htest : loop_test me (epoch st) = true).
    { destruct me as [m|]; simpl; [| reflexivity].
      apply Z.leb_le. specialize (Hme m eq_refl). lia. }
    rewrite Htest.
    pose proof (iteration_epoch trainable maxlen es lrs st) as He.
    destruct (iteration _ _ _ _ _ _ st) as [v' e' fin|ex|st1];
      try discriminate.
    apply IH; [exact H |].
    intros m Hm. specialize (Hme m Hm). lia.
Qed.

Lemma train_loop_past_cap fuel trainable maxlen m es lrs st :
  epoch st = (m + 1)%Z ->
  train_loop fuel polygon_model in_polygon trainable maxlen (Some m) es lrs st
  = Some (Return (false, (m + 1)%Z)).
Proof.
  intros H.
  destruct fuel; cbn [train_loop loop_test]; rewrite H;
    (destruct (Z.leb_spec (m + 1) m); [lia | reflexivity]).
Qed.

Lemma continues_snoc trainable maxlen es lrs n st :
  Spec.continues polygon_model in_polygon trainable maxlen es lrs (S n) st
  = match Spec.continues polygon_model in_polygon trainable maxlen es lrs
            n st with
    | Some st' =>
        match iteration polygon_model in_polygon trainable maxlen es lrs
                        st' with
        | Continues st'' => Some st''
        | _ => None
        end
    | None => None
    end.
Proof.
  revert st; induction n as [|n IH]; intros st.
  - simpl. destruct (iteration _ _ _ _ _ _ st); reflexivity.
  - change (Spec.continues polygon_model in_polygon trainable maxlen es lrs
              (S (S n)) st)
      with (match iteration polygon_model in_polygon trainable maxlen es
                    lrs st with
            | Continues st' =>
                Spec.continues polygon_model in_polygon trainable maxlen es
                  lrs (S n) st'
            | _ => None
            end).
    change (Spec.continues polygon_model in_polygon trainable maxlen es lrs
              (S n) st)
      with (match iteration polygon_model in_polygon trainable maxlen es
                    lrs st with
            | Continues st' =>
                Spec.continues polygon_model in_polygon trainable maxlen es
                  lrs n st'
            | _ => None
            end).
    destruct (iteration _ _ _ _ _ _ st) as [v' e' fin|ex|st1];
      try reflexivity.
    apply IH.
Qed.

Lemma flag_history_snoc trainable maxlen es lrs n st st' :
  Spec.continues polygon_model in_polygon trainable maxlen es lrs n st
  = Some st' ->
  Spec.flag_history polygon_model in_polygon trainable maxlen es lrs
                    (S n) st
  = Spec.flag_history polygon_model in_polygon trainable maxlen es lrs n st
    ++ [flag_of st'].
Proof.
  revert st; induction n as [|n IH]; intros st.
  - simpl. intros H; injection H as <-.
    destruct (iteration _ _ _ _ _ _ st); reflexivity.
  - intros H.
    change (Spec.flag_history polygon_model in_polygon trainable maxlen es
              lrs (S (S n)) st)
      with (flag_of st ::
            match iteration polygon_model in_polygon trainable maxlen es
                    lrs st with
            | Continues st1 =>
                Spec.flag_history polygon_model in_polygon trainable maxlen
                  es lrs (S n) st1
            | _ => []
            end).
    simpl in H. simpl Spec.flag_history at 2.
    destruct (iteration _ _ _ _ _ _ st) as [v' e' fin|ex|st1];
      try discriminate.
    rewrite (IH _ H). reflexivity.
Qed.

Lemma flag_history_length trainable maxlen es lrs n st st' :
  Spec.continues polygon_model in_polygon trainable maxlen es lrs n st
  = Some st' ->
  length (Spec.flag_history polygon_model in_polygon trainable maxlen es
            lrs n st) = n.
Proof.
  revert st; induction n as [|n IH]; intros st; simpl.
  - reflexivity.
  - destruct (iteration _ _ _ _ _ _ st) as [v' e' fin|ex|st1];
      try discriminate.
    intros H. rewrite (IH _ H). reflexivity.
Qed.

End TrainLoop.

Section TrainLoopSrc.

Import VerifierSrc.

Variables (polygon_model : Sequential) (in_polygon : Polygon).

Lemma src_iteration_epoch trainable es st :
  match iteration polygon_model in_polygon trainable es st with
  | Returns _ e => e = epoch st
  | Continues st' => epoch st' = (epoch st + 1)%Z
  end.
Proof.
  unfold iteration.
  destruct (all_positive _); [reflexivity |].
  destruct trainable; simpl; [| reflexivity].
  destruct (es && _); reflexivity.
Qed.

Lemma src_train_loop_epoch_le fuel trainable me es st v e :
  train_loop fuel polygon_model in_polygon trainable me es st = Some (v, e) ->
  (epoch st <= e)%Z.
Proof.
  revert st; induction fuel as [|fuel IH]; intros st; simpl.
  - destruct (loop_test me (epoch st)); [discriminate |].
    intros H; injection H as _ <-. lia.
  - destruct (loop_test me (epoch st)).
    + pose proof (src_iteration_epoch trainable es st) as He.
      destruct (iteration _ _ _ _ st) as [v' e'|st'].
      * intros H; injection H as _ <-. lia.
      * intros H. apply IH in H. lia.
    + intros H; injection H as _ <-. lia.
Qed.

Lemma src_continues_epoch trainable es n st st' :
  Spec.src_continues polygon_model in_polygon trainable es n st = Some st' ->
  epoch st' = (epoch st + Z.of_nat n)%Z.
Proof.
  revert st; induction n as [|n IH]; intros st; simpl.
  - intros H; injection H as <-. lia.
  - pose proof (src_iteration_epoch trainable es st) as He.
    destruct (iteration _ _ _ _ st) as [v' e'|st1]; try discriminate.
    intros H. apply IH in H. lia.
Qed.

Lemma src_train_loop_continues trainable me es n fuel st st' :
  Spec.src_continues polygon_model in_polygon trainable es n st = Some st' ->
  (forall m, me = Some m -> (epoch st + Z.of_nat n - 1 <= m)%Z) ->
  train_loop (n + fuel) polygon_model in_polygon trainable me es st
  = train_loop fuel polygon_model in_polygon trainable me es st'.
Proof.
  revert st; induction n as [|n IH]; intros st; simpl.
  - intros H _; injection H as <-. reflexivity.
  - intros H Hme.
    assert (Htest : loop_test me (epoch st) = true).
    { destruct me as [m|]; simpl; [| reflexivity].
      apply Z.leb_le. specialize (Hme m eq_refl). lia. }
    rewrite Htest.
    pose proof (src_iteration_epoch trainable es st) as He.
    destruct (iteration _ _ _ _ st) as [v' e'|st1]; try discriminate.
    apply IH; [exact H |].
    intros m Hm. specialize (Hme m Hm). lia.
Qed.

Lemma src_train_loop_past_cap fuel trainable m es st :
  epoch st = (m + 1)%Z ->
  train_loop fuel polygon_model in_polygon trainable (Some m) es st
  = Some (false, (m + 1)%Z).
Proof.
  intros H.
  destruct fuel; cbn [train_loop loop_test]; rewrite H;
    (destruct (Z.leb_spec (m + 1) m); [lia | reflexivity]).
Qed.

End TrainLoopSrc.

(** C6.  In both [verifier.py] files: an iteration whose forward pass
    gives only strictly positive lower bounds makes [train] return
    [(True, epoch)] at once, with the epoch of that iteration; and a model
    without trainable parameters whose first forward pass does not verify
    makes [train] return [(False, 1)], a value and not an exception,
    whatever the cap and the thresholds (for the deque to be created the
    thresholds must not both be negative). *)
Theorem stopping_on_resolution :
  (forall model in_polygon trainable maxlen me es lrs fuel st,
      all_positive (Spec.lower_bounds model in_polygon st) = true ->
      VerifierCode.iteration model in_polygon trainable maxlen es lrs st
      = VerifierCode.Returns true (VerifierCode.epoch st) st
      /\ (VerifierCode.loop_test me (VerifierCode.epoch st) = true ->
          VerifierCode.train_loop (S fuel) model in_polygon trainable maxlen
                                  me es lrs st
          = Some (Return (true, VerifierCode.epoch st))))
  /\ (forall model in_polygon me es lrs fuel,
        parameters model = [] ->
        (0 <= VerifierCode.history_size es lrs)%Z ->
        all_positive (fst (evaluate (call model [] in_polygon))) = false ->
        VerifierCode.train (S fuel) model in_polygon me es lrs
        = Some (Return (false, 1%Z)))
  /\ (forall model in_polygon trainable me es fuel st,
        all_positive
          (fst (evaluate (call model (VerifierSrc.params st) in_polygon)))
        = true ->
        VerifierSrc.iteration model in_polygon trainable es st
        = VerifierSrc.Returns true (VerifierSrc.epoch st)
        /\ (VerifierSrc.loop_test me (VerifierSrc.epoch st) = true ->
            VerifierSrc.train_loop (S fuel) model in_polygon trainable me es
                                   st
            = Some (true, VerifierSrc.epoch st)))
  /\ (forall model in_polygon me es fuel,
        parameters model = [] ->
        all_positive (fst (evaluate (call model [] in_polygon))) = false ->
        VerifierSrc.train (S fuel) model in_polygon me es
        = Some (false, 1%Z)).
Proof.
  repeat split.
  - apply iteration_verified; assumption.
  - intros Htest. simpl. rewrite Htest.
    rewrite iteration_verified by assumption. reflexivity.
  - intros model in_polygon me es lrs fuel Hp Hh Hlb.
    unfold VerifierCode.train.
    destruct (Z.ltb_spec (2 * VerifierCode.history_size es lrs) 0); [lia |].
    unfold VerifierCode.trainable_of, VerifierCode.initial_state.
    rewrite Hp. simpl.
    destruct (VerifierCode.loop_test me 1); [| reflexivity].
    rewrite iteration_not_trainable; [reflexivity |].
    exact Hlb.
  - unfold VerifierSrc.iteration. rewrite H. reflexivity.
  - intros Htest. simpl. rewrite Htest.
    unfold VerifierSrc.iteration. rewrite H. reflexivity.
  - intros model in_polygon me es fuel Hp Hlb.
    unfold VerifierSrc.train, VerifierSrc.trainable_of,
      VerifierSrc.initial_state.
    rewrite Hp.
    cbn [VerifierSrc.train_loop VerifierSrc.epoch length Nat.ltb Nat.leb].
    destruct (VerifierSrc.loop_test me 1); [| reflexivity].
    unfold VerifierSrc.iteration.
    cbn [VerifierSrc.params VerifierSrc.epoch]. rewrite Hlb. reflexivity.
Qed.

Lemma stopping_on_resolution_witness :
  VerifierCode.train 1 (Examples.fixed_margin (-1)) Examples.some_polygon
                     None (Some 3%Z) (Some 1%Z)
  = Some (Return (false, 1%Z))
  /\ VerifierSrc.train 1 (Examples.fixed_margin (-1)) Examples.some_polygon
                       (Some 100%Z) true
     = Some (false, 1%Z)
  /\ VerifierCode.train_loop 1 (Examples.fixed_margin 1)
       Examples.some_polygon false 0 None None None
       (VerifierCode.initial_state (Examples.fixed_margin 1))
     = Some (Return (true, 1%Z)).
Proof.
  destruct stopping_on_resolution as (Hv & Hn & _ & Hsn).
  split; [| split].
  - apply Hn; [reflexivity | vm_compute; discriminate | reflexivity].
  - apply Hsn; reflexivity.
  - apply (Hv (Examples.fixed_margin 1) Examples.some_polygon false 0%nat
              None None None 0%nat
              (VerifierCode.initial_state (Examples.fixed_margin 1)));
      reflexivity.
Defined.

(** C10.  With a cap [m >= 1] on the epochs, if the first [m] iterations
    all reach the end of the loop body (none verifies, none stops early),
    [train] returns [(False, m + 1)]; and whatever [train] returns, the
    epoch count is at least 1.  Both hold in both [verifier.py] files. *)
Theorem epoch_cap_exhausted (m : Z) :
  (1 <= m)%Z ->
  (forall model in_polygon es lrs fuel st,
      (0 <= VerifierCode.history_size es lrs)%Z ->
      Spec.continues model in_polygon (VerifierCode.trainable_of model)
        (Z.to_nat (2 * VerifierCode.history_size es lrs)) es lrs
        (Z.to_nat m) (VerifierCode.initial_state model) = Some st ->
      VerifierCode.train (Z.to_nat m + fuel) model in_polygon (Some m) es lrs
      = Some (Return (false, (m + 1)%Z)))
  /\ (forall model in_polygon es fuel st,
        Spec.src_continues model in_polygon (VerifierSrc.trainable_of model)
          es (Z.to_nat m) (VerifierSrc.initial_state model) = Some st ->
        VerifierSrc.train (Z.to_nat m + fuel) model in_polygon (Some m) es
        = Some (false, (m + 1)%Z))
  /\ (forall model in_polygon me es lrs fuel v e,
        VerifierCode.train fuel model in_polygon me es lrs
        = Some (Return (v, e)) ->
        (1 <= e)%Z)
  /\ (forall model in_polygon me es fuel v e,
        VerifierSrc.train fuel model in_polygon me es = Some (v, e) ->
        (1 <= e)%Z).
Proof.
  intros Hm. repeat split.
  - intros model in_polygon es lrs fuel st Hh Hc.
    unfold VerifierCode.train.
    destruct (Z.ltb_spec (2 * VerifierCode.history_size es lrs) 0); [lia |].
    rewrite (train_loop_continues _ _ _ _ _ _ _ _ _ _ _ Hc).
    + apply continues_epoch in Hc.
      change (VerifierCode.epoch (VerifierCode.initial_state model))
        with 1%Z in Hc.
      apply train_loop_past_cap. lia.
    + intros m' Hm'. injection Hm' as <-.
      change (VerifierCode.epoch (VerifierCode.initial_state model))
        with 1%Z. lia.
  - intros model in_polygon es fuel st Hc.
    unfold VerifierSrc.train.
    rewrite (src_train_loop_continues _ _ _ _ _ _ _ _ _ Hc).
    + apply src_continues_epoch in Hc.
      change (VerifierSrc.epoch (VerifierSrc.initial_state model))
        with 1%Z in Hc.
      apply src_train_loop_past_cap. lia.
    + intros m' Hm'. injection Hm' as <-.
      change (VerifierSrc.epoch (VerifierSrc.initial_state model))
        with 1%Z. lia.
  - intros model in_polygon me es lrs fuel v e. unfold VerifierCode.train.
    destruct (_ <? 0)%Z; [discriminate |].
    intros H. apply train_loop_epoch_le in H. simpl in H. exact H.
  - intros model in_polygon me es fuel v e. unfold VerifierSrc.train.
    intros H. apply src_train_loop_epoch_le in H. simpl in H. exact H.
Qed.

Lemma epoch_cap_exhausted_witness :
  VerifierCode.train 2 (Examples.scripted [3; 2; 1]) Examples.some_polygon
                     (Some 2%Z) (Some 1%Z) None
  = Some (Return (false, 3%Z))
  /\ VerifierSrc.train 2 (Examples.scripted [3; 2; 1]) Examples.some_polygon
                       (Some 2%Z) true
     = Some (false, 3%Z).
Proof.
  destruct (epoch_cap_exhausted 2 ltac:(lia)) as (Hc & Hs & _).
  split.
  - eapply (Hc (Examples.scripted [3; 2; 1]) Examples.some_polygon
               (Some 1%Z) None 0%nat).
    + vm_compute; discriminate.
    + vm_compute. reflexivity.
  - eapply (Hs (Examples.scripted [3; 2; 1]) Examples.some_polygon true
               0%nat).
    vm_compute. reflexivity.
Defined.

(** ** The sliding window of flags *)

Section Window.

Import VerifierCode.

Lemma deque_last_snoc (d : list bool) (x : bool) :
  deque_last (d ++ [x]) = Return x.
Proof. unfold deque_last. rewrite rev_app_distr. reflexivity. Qed.

Lemma deque_last_append (maxlen : nat) (d : list bool) (x : bool) :
  (0 < maxlen)%nat -> deque_last (deque_append maxlen d x) = Return x.
Proof.
  intros H. unfold deque_append.
  destruct (Nat.eqb_spec maxlen 0); [lia |].
  destruct (Nat.leb maxlen (length d)); apply deque_last_snoc.
Qed.

Lemma count_true_snoc (d : list bool) (x : bool) :
  Spec.count_true (d ++ [x]) =
  (Spec.count_true d + (if x then 1 else 0))%nat.
Proof.
  unfold Spec.count_true. rewrite filter_app, length_app.
  destruct x; reflexivity.
Qed.

Lemma count_true_tl (d : list bool) :
  (Spec.count_true (tl d) <= Spec.count_true d)%nat.
Proof.
  destruct d as [|[|] d]; unfold Spec.count_true; simpl; lia.
Qed.

Lemma count_true_append (maxlen : nat) (d : list bool) (x : bool) :
  (Spec.count_true (deque_append maxlen d x)
   <= Spec.count_true d + (if x then 1 else 0))%nat.
Proof.
  unfold deque_append.
  destruct (Nat.eqb maxlen 0); [lia |].
  destruct (Nat.leb maxlen (length d)); rewrite count_true_snoc.
  - pose proof (count_true_tl d). lia.
  - lia.
Qed.

Lemma number_of_rising_count (d : list bool) :
  number_of_rising d = Z.of_nat (Spec.count_true d).
Proof. reflexivity. Qed.

Lemma tl_skipn {A} (n : nat) (l : list A) :
  tl (skipn n l) = skipn (S n) l.
Proof.
  revert l; induction n as [|n IH]; intros [|a l]; try reflexivity.
  change (skipn (S n) (a :: l)) with (skipn n l).
  change (skipn (S (S n)) (a :: l)) with (skipn (S n) l).
  apply IH.
Qed.

(** Appending to the deque keeps it equal to the last [maxlen] entries of
    the history. *)
Lemma deque_append_lastn (maxlen : nat) (h : list bool) (x : bool) :
  deque_append maxlen (Spec.lastn maxlen h) x = Spec.lastn maxlen (h ++ [x]).
Proof.
  unfold deque_append, Spec.lastn.
  rewrite length_app, length_skipn. simpl.
  destruct (Nat.eqb_spec maxlen 0) as [->|Hn].
  - rewrite Nat.sub_0_r.
    replace (length h + 1 - 0)%nat with (length (h ++ [x]))
      by (rewrite length_app; simpl; lia).
    rewrite !skipn_all. reflexivity.
  - destruct (Nat.leb_spec maxlen (length h - (length h - maxlen))).
    + rewrite tl_skipn.
      replace (length h + 1 - maxlen)%nat with (S (length h - maxlen))
        by lia.
      rewrite skipn_app.
      replace (S (length h - maxlen) - length h)%nat with 0%nat by lia.
      reflexivity.
    + replace (length h - maxlen)%nat with 0%nat by lia.
      replace (length h + 1 - maxlen)%nat with 0%nat by lia.
      reflexivity.
Qed.

Variables (polygon_model : Sequential) (in_polygon : Polygon).

Local Abbreviation lower_bounds :=
  (Spec.lower_bounds polygon_model in_polygon).
Local Abbreviation flag_of := (Spec.flag_of polygon_model in_polygon).

(** The shape of an iteration that neither verifies nor lacks an
    optimizer, once the learning-rate update has gone through. *)
Lemma iteration_unfold maxlen es lrs st lr' :
  all_positive (lower_bounds st) = false ->
  schedule_lr lrs (deque_append maxlen (loss_rising st) (flag_of st)) (lr st)
  = Return lr' ->
  iteration polygon_model in_polygon true maxlen es lrs st
  = if early_stop es (deque_append maxlen (loss_rising st) (flag_of st))
    then Returns false (epoch st)
           (mkLoopState (epoch st) (previous_loss st)
              (deque_append maxlen (loss_rising st) (flag_of st)) lr'
              (params st))
    else Continues
           (mkLoopState (epoch st + 1) (Some (loss_of (lower_bounds st)))
              (deque_append maxlen (loss_rising st) (flag_of st)) lr'
              (sgd_step polygon_model lr' (params st) in_polygon)).
Proof.
  intros Hv Hs. unfold iteration.
  fold (lower_bounds st). rewrite Hv. cbn [negb].
  fold (flag_of st). rewrite Hs. reflexivity.
Qed.

Lemma schedule_lr_returns maxlen lrs d x lr0 :
  (0 < maxlen)%nat ->
  exists lr', schedule_lr lrs (deque_append maxlen d x) lr0 = Return lr'.
Proof.
  intros H. unfold schedule_lr. destruct lrs as [m|]; [| eexists; reflexivity].
  destruct (_ <=? _)%Z; [| eexists; reflexivity].
  rewrite deque_last_append by exact H. eexists; reflexivity.
Qed.

(** What is known of the state after an iteration that went on. *)
Lemma iteration_continues_inv trainable maxlen es lrs st st' :
  iteration polygon_model in_polygon trainable maxlen es lrs st
  = Continues st' ->
  loss_rising st' = deque_append maxlen (loss_rising st) (flag_of st)
  /\ early_stop es (loss_rising st') = false.
Proof.
  unfold iteration. fold (lower_bounds st).
  destruct (all_positive _); [discriminate |].
  destruct trainable; cbn [negb]; [| discriminate].
  fold (flag_of st).
  destruct (schedule_lr _ _ _) as [lr'|]; [| discriminate].
  destruct (early_stop _ _) eqn:Hes; [discriminate |].
  intros H; injection H as <-. cbn [loss_rising]. auto.
Qed.

(** Along a run with early-stopping threshold [k >= 1], the deque holds
    the last [maxlen] flags, fewer than [k] of which are set. *)
Lemma window_invariant trainable maxlen k lrs n st :
  (1 <= k)%Z ->
  Spec.continues polygon_model in_polygon trainable maxlen (Some k) lrs n
                 (initial_state polygon_model) = Some st ->
  loss_rising st
  = Spec.lastn maxlen
      (Spec.flag_history polygon_model in_polygon trainable maxlen (Some k)
         lrs n (initial_state polygon_model))
  /\ (Z.of_nat (Spec.count_true (loss_rising st)) < k)%Z.
Proof.
  intros Hk. revert st; induction n as [|n IH]; intros st.
  - simpl. intros H; injection H as <-. split; [reflexivity |].
    cbn. lia.
  - rewrite continues_snoc.
    destruct (Spec.continues _ _ _ _ _ _ n _) as [st1|] eqn:Hn;
      [| discriminate].
    destruct (iteration _ _ _ _ _ _ st1) as [? ? ?|?|st2] eqn:Hit;
      try discriminate.
    intros H; injection H as <-.
    destruct (IH st1 eq_refl) as [Hw _].
    destruct (iteration_continues_inv _ _ _ _ _ _ Hit) as [Hd Hes].
    split.
    + rewrite Hd, Hw, (flag_history_snoc _ _ _ _ _ _ _ _ _ Hn).
      apply deque_append_lastn.
    + unfold early_stop in Hes. rewrite number_of_rising_count in Hes.
      apply Z.leb_gt in Hes. exact Hes.
Qed.

End Window.

Lemma py_max_Qmax (a b : Q) : py_max a b == Qmax a b.
Proof.
  unfold py_max. destruct (Qle_bool b a) eqn:H.
  - apply Qle_bool_iff in H. symmetry. apply Q.max_l. exact H.
  - assert (Hlt : ~ b <= a)
      by (intros Hle; apply Qle_bool_iff in Hle; congruence).
    symmetry. apply Q.max_r. apply Qlt_le_weak, Qnot_le_lt. exact Hlt.
Qed.

(** C8.  With a scheduling threshold [m] configured, in every iteration
    that gets past the two early returns, if at least [m] flags of the
    window are set and the loss of this iteration did not improve, the
    learning rate of the optimizer becomes [max(lr / 2, 1e-4)], which is
    at least the positive floor [1e-4]; this happens whatever the
    early-stopping threshold, also in an iteration that then stops early.
    (The window is the deque after the flag of this iteration has been
    appended; its capacity [2 * max(k or 0, m or 0)] is positive as soon
    as [m >= 1].) *)
Theorem lr_scheduling_halves
    (polygon_model : Sequential) (in_polygon : Polygon) (maxlen : nat)
    (early_stopping : option Z) (m : Z) (st : VerifierCode.LoopState) :
  (0 < maxlen)%nat ->
  all_positive (Spec.lower_bounds polygon_model in_polygon st) = false ->
  (m <= VerifierCode.number_of_rising
          (VerifierCode.deque_append maxlen (VerifierCode.loss_rising st)
             (Spec.flag_of polygon_model in_polygon st)))%Z ->
  Spec.flag_of polygon_model in_polygon st = true ->
  (exists st',
      (VerifierCode.iteration polygon_model in_polygon true maxlen
         early_stopping (Some m) st = VerifierCode.Continues st'
       \/ VerifierCode.iteration polygon_model in_polygon true maxlen
            early_stopping (Some m) st
          = VerifierCode.Returns false (VerifierCode.epoch st) st')
      /\ VerifierCode.lr st' = py_max (VerifierCode.lr st / 2) (1 # 10000)
      /\ VerifierCode.lr st' == Qmax (VerifierCode.lr st / 2) (1 # 10000)
      /\ 1 # 10000 <= VerifierCode.lr st')
  /\ 0 < 1 # 10000
  /\ ((1 <= m)%Z ->
      (0 < Z.to_nat (2 * VerifierCode.history_size early_stopping (Some m)))
        %nat).
Proof.
  intros Hmax Hv Hm Hflag.
  assert (Hs : VerifierCode.schedule_lr (Some m)
                 (VerifierCode.deque_append maxlen
                    (VerifierCode.loss_rising st)
                    (Spec.flag_of polygon_model in_polygon st))
                 (VerifierCode.lr st)
               = Return (py_max (VerifierCode.lr st / 2) (1 # 10000))).
  { unfold VerifierCode.schedule_lr.
    destruct (Z.leb_spec m
                (VerifierCode.number_of_rising
                   (VerifierCode.deque_append maxlen
                      (VerifierCode.loss_rising st)
                      (Spec.flag_of polygon_model in_polygon st))));
      [| lia].
    rewrite deque_last_append by exact Hmax. rewrite Hflag. reflexivity. }
  split; [| split].
  - rewrite (iteration_unfold _ _ _ _ _ _ _ Hv Hs).
    destruct (VerifierCode.early_stop _ _);
      eexists; (split; [(right; reflexivity) || (left; reflexivity) |]);
      cbn [VerifierCode.lr];
      (split; [reflexivity |]); (split; [apply py_max_Qmax |]);
      rewrite py_max_Qmax; apply Q.le_max_r.
  - reflexivity.
  - intros H1. unfold VerifierCode.history_size. cbn [VerifierCode.or_0].
    lia.
Qed.

Lemma lr_scheduling_halves_witness :
  exists st',
    VerifierCode.iteration (Examples.scripted [1; 2]) Examples.some_polygon
      true 2 None (Some 1%Z)
      (VerifierCode.mkLoopState 2 (Some 1) [false] 5 [[0]])
    = VerifierCode.Continues st'
    /\ VerifierCode.lr st' = py_max (5 / 2) (1 # 10000).
Proof.
  destruct (lr_scheduling_halves (Examples.scripted [1; 2])
              Examples.some_polygon 2 None 1
              (VerifierCode.mkLoopState 2 (Some 1) [false] 5 [[0]])
              ltac:(lia) eq_refl ltac:(vm_compute; discriminate) eq_refl)
    as [(st' & [Hit | Hit] & Hlr & _) _].
  - exists st'. split; [exact Hit | exact Hlr].
  - vm_compute in Hit. discriminate Hit.
Defined.

(** C7, as the code has it.  With an early-stopping threshold [k >= 1]
    the deque holds the flags of the last [2 * max(k, m)] iterations, [m]
    being the learning-rate threshold (0 if there is none), hence of the
    last [2k] iterations unless a larger learning-rate threshold is
    configured; an iteration that does not verify stops with not-verified
    exactly when at least [k] flags of that window are set, and then the
    loss of this latest iteration did not improve; and when the loss does
    not improve for [k] iterations in a row after the first, [train]
    returns not-verified at epoch [k + 1]. *)
Theorem early_stopping_window
    (polygon_model : Sequential) (in_polygon : Polygon)
    (k : Z) (lr_scheduling : option Z) :
  (1 <= k)%Z ->
  let maxlen :=
    Z.to_nat (2 * VerifierCode.history_size (Some k) lr_scheduling) in
  let init := VerifierCode.initial_state polygon_model in
  let run :=
    Spec.continues polygon_model in_polygon true maxlen (Some k)
                   lr_scheduling in
  let flags := fun n =>
    Spec.flag_history polygon_model in_polygon true maxlen (Some k)
                      lr_scheduling n init in
  maxlen = (2 * Z.to_nat (Z.max k (VerifierCode.or_0 lr_scheduling)))%nat
  /\ (forall n st,
        run n init = Some st ->
        VerifierCode.loss_rising st = Spec.lastn maxlen (flags n)
        /\ VerifierCode.deque_append maxlen (VerifierCode.loss_rising st)
             (Spec.flag_of polygon_model in_polygon st)
           = Spec.lastn maxlen (flags (S n))
        /\ (all_positive (Spec.lower_bounds polygon_model in_polygon st)
            = false ->
            ((exists final,
                 VerifierCode.iteration polygon_model in_polygon true maxlen
                   (Some k) lr_scheduling st
                 = VerifierCode.Returns false (VerifierCode.epoch st) final)
             <-> (Z.to_nat k
                  <= Spec.count_true (Spec.lastn maxlen (flags (S n))))%nat)
            /\ ((Z.to_nat k
                 <= Spec.count_true (Spec.lastn maxlen (flags (S n))))%nat ->
                Spec.flag_of polygon_model in_polygon st = true)))
  /\ (parameters polygon_model <> [] ->
      (forall n st,
          (n <= Z.to_nat k)%nat ->
          run n init = Some st ->
          all_positive (Spec.lower_bounds polygon_model in_polygon st) = false
          /\ ((1 <= n)%nat ->
              Spec.flag_of polygon_model in_polygon st = true)) ->
      forall max_epochs fuel,
        (forall cap, max_epochs = Some cap -> (k + 1 <= cap)%Z) ->
        VerifierCode.train (Z.to_nat k + (1 + fuel)) polygon_model in_polygon
                           max_epochs (Some k) lr_scheduling
        = Some (Return (false, (k + 1)%Z))).
Proof.
  intros Hk maxlen init run flags.
  assert (Hmaxlen : (2 * Z.to_nat k <= maxlen)%nat).
  { unfold maxlen, VerifierCode.history_size. cbn [VerifierCode.or_0]. lia. }
  split; [| split].
  - unfold maxlen, VerifierCode.history_size. cbn [VerifierCode.or_0]. lia.
  - intros n st Hrun.
    destruct (window_invariant _ _ _ _ _ _ _ _ Hk Hrun) as [Hw Hc].
    assert (Hd : VerifierCode.deque_append maxlen
                   (VerifierCode.loss_rising st)
                   (Spec.flag_of polygon_model in_polygon st)
                 = Spec.lastn maxlen (flags (S n))).
    { unfold flags. rewrite (flag_history_snoc _ _ _ _ _ _ _ _ _ Hrun).
      rewrite Hw. apply deque_append_lastn. }
    split; [exact Hw |]. split; [exact Hd |].
    intros Hv.
    destruct (schedule_lr_returns maxlen lr_scheduling
                (VerifierCode.loss_rising st)
                (Spec.flag_of polygon_model in_polygon st)
                (VerifierCode.lr st) ltac:(lia)) as [lr' Hs].
    rewrite (iteration_unfold _ _ _ _ _ _ _ Hv Hs).
    unfold VerifierCode.early_stop. rewrite number_of_rising_count.
    rewrite Hd.
    split.
    + destruct (Z.leb_spec k
                  (Z.of_nat (Spec.count_true
                               (Spec.lastn maxlen (flags (S n)))))).
      * split; [intros _; lia | intros _; eexists; reflexivity].
      * split; [intros [final Hf]; discriminate | intros; lia].
    + intros Hge. rewrite <- Hd in Hge.
      pose proof (count_true_append maxlen (VerifierCode.loss_rising st)
                    (Spec.flag_of polygon_model in_polygon st)) as Hle.
      destruct (Spec.flag_of polygon_model in_polygon st);
        [reflexivity | lia].
  - intros Hp Hrise max_epochs fuel Hcap.
    assert (Htr : VerifierCode.trainable_of polygon_model = true).
    { unfold VerifierCode.trainable_of.
      destruct (parameters polygon_model); [congruence | reflexivity]. }
    (* the first k iterations go on, and n - 1 of the n flags are set *)
    assert (Hprefix : forall n, (n <= Z.to_nat k)%nat ->
              exists st, run n init = Some st
                /\ length (VerifierCode.loss_rising st) = n
                /\ Spec.count_true (VerifierCode.loss_rising st)
                   = (n - 1)%nat
                /\ (n = 0%nat -> VerifierCode.previous_loss st = None)).
    { induction n as [|n IH]; intros Hn.
      - exists init. repeat split.
      - destruct (IH ltac:(lia)) as (st & Hrun & Hlen & Hcount & Hprev).
        destruct (Hrise n st ltac:(lia) Hrun) as [Hv Hflag].
        destruct (schedule_lr_returns maxlen lr_scheduling
                    (VerifierCode.loss_rising st)
                    (Spec.flag_of polygon_model in_polygon st)
                    (VerifierCode.lr st) ltac:(lia)) as [lr' Hs].
        assert (Happ : VerifierCode.deque_append maxlen
                         (VerifierCode.loss_rising st)
                         (Spec.flag_of polygon_model in_polygon st)
                       = VerifierCode.loss_rising st
                         ++ [Spec.flag_of polygon_model in_polygon st]).
        { unfold VerifierCode.deque_append.
          destruct (Nat.eqb_spec maxlen 0); [lia |].
          destruct (Nat.leb_spec maxlen
                      (length (VerifierCode.loss_rising st)));
            [lia | reflexivity]. }
        assert (Hcount' : Spec.count_true
                            (VerifierCode.loss_rising st
                             ++ [Spec.flag_of polygon_model in_polygon st])
                          = n).
        { rewrite count_true_snoc, Hcount.
          destruct n as [|n'].
          - unfold Spec.flag_of. rewrite (Hprev eq_refl). reflexivity.
          - rewrite (Hflag ltac:(lia)). lia. }
        unfold run. rewrite continues_snoc. fold run. rewrite Hrun.
        rewrite (iteration_unfold _ _ _ _ _ _ _ Hv Hs).
        unfold VerifierCode.early_stop. rewrite number_of_rising_count.
        rewrite Happ, Hcount'.
        destruct (Z.leb_spec k (Z.of_nat n)); [lia |].
        eexists. split; [reflexivity |]. cbn [VerifierCode.loss_rising].
        rewrite length_app, Hlen, Hcount'. simpl.
        repeat split; lia. }
    destruct (Hprefix (Z.to_nat k) ltac:(lia))
      as (st & Hrun & Hlen & Hcount & Hprev).
    destruct (Hrise (Z.to_nat k) st ltac:(lia) Hrun) as [Hv Hflag].
    unfold VerifierCode.train. fold maxlen.
    destruct (Z.ltb_spec
                (2 * VerifierCode.history_size (Some k) lr_scheduling) 0).
    { unfold VerifierCode.history_size in *. cbn [VerifierCode.or_0] in *.
      lia. }
    rewrite Htr. fold init.
    pose proof (continues_epoch _ _ _ _ _ _ _ _ _ Hrun) as Hep.
    change (VerifierCode.epoch init) with 1%Z in Hep.
    rewrite (train_loop_continues _ _ _ _ _ _ _ _ _ _ _ Hrun).
    2:{ intros cap Hc. specialize (Hcap cap Hc).
        change (VerifierCode.epoch init) with 1%Z. lia. }
    cbn [VerifierCode.train_loop Nat.add].
    assert (Htest : VerifierCode.loop_test max_epochs (VerifierCode.epoch st)
                    = true).
    { destruct max_epochs as [cap|]; [| reflexivity].
      specialize (Hcap cap eq_refl). apply Z.leb_le. lia. }
    rewrite Htest.
    destruct (schedule_lr_returns maxlen lr_scheduling
                (VerifierCode.loss_rising st)
                (Spec.flag_of polygon_model in_polygon st)
                (VerifierCode.lr st) ltac:(lia)) as [lr' Hs].
    rewrite (iteration_unfold _ _ _ _ _ _ _ Hv Hs).
    unfold VerifierCode.early_stop. rewrite number_of_rising_count.
    assert (Happ : VerifierCode.deque_append maxlen
                     (VerifierCode.loss_rising st)
                     (Spec.flag_of polygon_model in_polygon st)
                   = VerifierCode.loss_rising st
                     ++ [Spec.flag_of polygon_model in_polygon st]).
    { unfold VerifierCode.deque_append.
      destruct (Nat.eqb_spec maxlen 0); [lia |].
      destruct (Nat.leb_spec maxlen (length (VerifierCode.loss_rising st)));
        [lia | reflexivity]. }
    rewrite Happ, count_true_snoc, Hcount, (Hflag ltac:(lia)).
    destruct (Z.leb_spec k (Z.of_nat (Z.to_nat k - 1 + 1))); [| lia].
    rewrite Hep. do 3 f_equal. lia.
Qed.

Lemma early_stopping_window_witness :
  VerifierCode.train 4 (Examples.scripted [1; 2; 3; 4]) Examples.some_polygon
                     None (Some 3%Z) (Some 1%Z)
  = Some (Return (false, 4%Z)).
Proof.
  destruct (early_stopping_window (Examples.scripted [1; 2; 3; 4])
              Examples.some_polygon 3 (Some 1%Z) ltac:(lia))
    as (_ & _ & Hrise).
  apply (Hrise ltac:(discriminate)).
  - intros n st Hn.
    destruct n as [|[|[|[|n]]]]; try (exfalso; vm_compute in Hn; lia);
      vm_compute; intros H; injection H as <-; split;
        (reflexivity || (intros; reflexivity) || (intros; lia)).
  - discriminate.
Defined.

(** C7 as stated fails: with [early_stopping = 2] and [lr_scheduling = 3]
    the deque holds six flags, and on the losses 5, 6, 5, 4, 3, 2, 3 the
    loop stops at epoch 7, where only one of the flags of the last four
    iterations is set. *)
Lemma early_stopping_2k_window_counterexample :
  VerifierCode.train 7 (Examples.scripted [5; 6; 5; 4; 3; 2; 3])
                     Examples.some_polygon None (Some 2%Z) (Some 3%Z)
  = Some (Return (false, 7%Z))
  /\ Spec.flag_history (Examples.scripted [5; 6; 5; 4; 3; 2; 3])
       Examples.some_polygon true 6 (Some 2%Z) (Some 3%Z) 7
       (VerifierCode.initial_state (Examples.scripted [5; 6; 5; 4; 3; 2; 3]))
     = [false; true; false; false; false; false; true]
  /\ Spec.claimed_early_stop 2
       [false; true; false; false; false; false; true] = false.
Proof. vm_compute. repeat split. Qed.

(** ** Back-substitution *)

Section BackSubstitution.

(** Induction along the parent chain. *)
Lemma Polygon_chain_ind (P : Polygon -> Prop) :
  (forall lc uc lb ub lo up, P (Build_Polygon lc uc lb ub lo up None)) ->
  (forall lc uc lb ub lo up p,
      P p -> P (Build_Polygon lc uc lb ub lo up (Some p))) ->
  forall p, P p.
Proof.
  intros Hroot Hstep. fix IH 1.
  intros [lc uc lb ub lo up [p|]].
  - apply Hstep. apply IH.
  - apply Hroot.
Qed.

Lemma back_substitution_step_substitute lc uc lb ub p :
  back_substitution_step lc uc lb ub p =
  (let s := Spec.substitute (Spec.mkSymBounds lc uc lb ub) p in
   (Spec.lower_coefs s, Spec.upper_coefs s, Spec.lower_bias s,
    Spec.upper_bias s)).
Proof. reflexivity. Qed.

Lemma back_substitution_fold p :
  forall lc uc lb ub,
    back_substitution p lc uc lb ub =
    (let s := fold_left Spec.substitute (Spec.chain p)
                        (Spec.mkSymBounds lc uc lb ub) in
     (Spec.lower_bias s, Spec.upper_bias s)).
Proof.
  induction p as [plc puc plb pub plo pup | plc puc plb pub plo pup p IH]
    using Polygon_chain_ind; intros lc uc lb ub.
  - reflexivity.
  - cbn [back_substitution Spec.chain fold_left].
    rewrite back_substitution_step_substitute. cbv beta iota zeta.
    rewrite IH. reflexivity.
Qed.

Lemma matmul_zero_width (a b : Matrix) :
  Spec.zero_width b -> Spec.zero_width (matmul a b).
Proof.
  intros H. unfold Spec.zero_width, matmul. apply Forall_map.
  apply Forall_forall. intros r _.
  destruct H as [|r0 b' Hr0 _]; [reflexivity |].
  simpl. rewrite Hr0. reflexivity.
Qed.

Lemma madd_zero_width (a b : Matrix) :
  Spec.zero_width a -> Spec.zero_width (madd a b).
Proof.
  unfold Spec.zero_width, madd. intros H; revert b.
  induction H as [|r a Hr _ IH]; intros [|r' b]; simpl; constructor.
  - rewrite Hr. reflexivity.
  - apply IH.
Qed.

Lemma substitute_zero_width s p :
  Spec.zero_width (l_coefs p) -> Spec.zero_width (u_coefs p) ->
  Spec.zero_width (Spec.lower_coefs (Spec.substitute s p))
  /\ Spec.zero_width (Spec.upper_coefs (Spec.substitute s p)).
Proof.
  intros Hl Hu. split; simpl; apply madd_zero_width, matmul_zero_width;
    assumption.
Qed.

End BackSubstitution.

(** C2.  The concrete bounds that [Polygon.__init__] stores are the bias
    vectors obtained by repeating the substitution step of the
    specification at every ancestor, from the parent to the root: new
    lower coefficients = (non-negative part of the lower coefficients) x
    (ancestor's lower coefficients) + (non-positive part) x (ancestor's
    upper coefficients), symmetrically for the upper ones, and the biases
    updated by the same split applied to the ancestor's bias vectors.
    Without a parent the bounds are the bias vectors themselves; and
    when the root has zero-width coefficient matrices, so have the
    substituted bounds after the last step: nothing symbolic is left. *)
Theorem back_substitution_concretizes
    (lc uc : Matrix) (lb ub : Vector) (parent : option Polygon) :
  let p := Polygon_init lc uc lb ub parent in
  let s := Spec.substituted lc uc lb ub parent in
  l_bound p = Spec.lower_bias s
  /\ u_bound p = Spec.upper_bias s
  /\ (parent = None -> l_bound p = lb /\ u_bound p = ub)
  /\ (forall above root,
        Spec.ancestors parent = above ++ [root] ->
        Spec.zero_width (l_coefs root) ->
        Spec.zero_width (u_coefs root) ->
        Spec.zero_width (Spec.lower_coefs s)
        /\ Spec.zero_width (Spec.upper_coefs s)).
Proof.
  intros p s. unfold p, s, Polygon_init, Spec.substituted.
  cbn [l_bound u_bound].
  repeat split.
  - destruct parent as [q|]; [| reflexivity].
    rewrite back_substitution_fold. reflexivity.
  - destruct parent as [q|]; [| reflexivity].
    rewrite back_substitution_fold. reflexivity.
  - subst parent. reflexivity.
  - subst parent. reflexivity.
  - rewrite H, fold_left_app. cbn [fold_left].
    exact (proj1 (substitute_zero_width _ root H0 H1)).
  - rewrite H, fold_left_app. cbn [fold_left].
    exact (proj2 (substitute_zero_width _ root H0 H1)).
Qed.

Lemma back_substitution_concretizes_witness :
  l_bound (Polygon_init [[1; -1]] [[1; -1]] [0] [0]
             (Some (create_from_input [1 # 2; 1 # 2] (1 # 4))))
  = Spec.lower_bias
      (Spec.substituted [[1; -1]] [[1; -1]] [0] [0]
         (Some (create_from_input [1 # 2; 1 # 2] (1 # 4))))
  /\ Spec.zero_width
       (Spec.lower_coefs
          (Spec.substituted [[1; -1]] [[1; -1]] [0] [0]
             (Some (create_from_input [1 # 2; 1 # 2] (1 # 4))))).
Proof.
  destruct (back_substitution_concretizes [[1; -1]] [[1; -1]] [0] [0]
              (Some (create_from_input [1 # 2; 1 # 2] (1 # 4))))
    as (Hl & _ & _ & Hz).
  split; [exact Hl |].
  apply (Hz [] (create_from_input [1 # 2; 1 # 2] (1 # 4)));
    [vm_compute; reflexivity | repeat constructor ..].
Defined.

(** ** Linear algebra on lists *)

Section TensorAlgebra.

Lemma Qle_bool_false (x y : Q) : Qle_bool x y = false -> y < x.
Proof.
  intros H. apply Qnot_le_lt. intros Hle. apply Qle_bool_iff in Hle.
  congruence.
Qed.

Lemma map2_nil_r {A B C} (f : A -> B -> C) (a : list A) : map2 f a [] = [].
Proof. destruct a; reflexivity. Qed.

Lemma map2_length {A B C} (f : A -> B -> C) (a : list A) (b : list B) :
  length (map2 f a b) = Nat.min (length a) (length b).
Proof.
  revert b; induction a as [|x a IH]; intros [|y b]; simpl; auto.
Qed.


Lemma dot_cons (x y : Q) (a b : Vector) :
  dot (x :: a) (y :: b) = x * y + dot a b.
Proof. reflexivity. Qed.


Lemma dot_vadd_r (c x y : Vector) :
  length x = length y ->
  dot c (vadd x y) == dot c x + dot c y.
Proof.
  revert x y; induction c as [|c0 c IH]; intros [|x0 x] [|y0 y] H;
    try discriminate; try (cbn; lra).
  injection H as H. change (vadd (x0 :: x) (y0 :: y))
    with ((x0 + y0) :: vadd x y).
  rewrite !dot_cons, IH by exact H. ring.
Qed.



Lemma map_nth_seq (r : Vector) :
  map (fun j => nth j r 0) (seq 0 (length r)) = r.
Proof.
  apply (nth_ext _ _ 0 0).
  - rewrite length_map, length_seq. reflexivity.
  - intros i Hi. rewrite length_map, length_seq in Hi.
    rewrite (nth_indep _ 0 (nth 0 r 0)) by (rewrite length_map, length_seq; exact Hi).
    rewrite (map_nth (fun j => nth j r 0)), seq_nth by exact Hi. reflexivity.
Qed.




End TensorAlgebra.

(** ** Soundness of back-substitution *)

Section BackSubstitutionSound.





Variables (ql qu : Matrix) (qlb qub : Vector) (b' b : Vector).
Hypothesis Hql : Forall (fun r => length r = length b') ql.
Hypothesis Hqu : Forall (fun r => length r = length b') qu.
Hypothesis Hqlb : length ql = length qlb.
Hypothesis Hqub : length qu = length qub.
Hypothesis Hlo : Spec.vle (affine ql qlb b') b.
Hypothesis Hhi : Spec.vle b (affine qu qub b').






End BackSubstitutionSound.

Section ChainSound.










Lemma Flatten_sound (p : Polygon) (acts : list Vector) :
  Spec.sound_chain (Some p) acts ->
  Spec.sound_chain (Some (FlattenTransformer_forward p)) acts.
Proof. intros H; exact H. Qed.


End ChainSound.

(** ** The ReLU transformer *)

Section StoreSteps.

(** The primitives on a store with (at most) two vectors and two
    matrices, as [ReLUTransformer.forward] uses it. *)
Lemma new_mat_0 m vs : new_mat m (mkHeap vs []) = (0%nat, mkHeap vs [m]).
Proof. reflexivity. Qed.
Lemma new_mat_1 m m0 vs :
  new_mat m (mkHeap vs [m0]) = (1%nat, mkHeap vs [m0; m]).
Proof. reflexivity. Qed.
Lemma new_vec_0 v ms : new_vec v (mkHeap [] ms) = (0%nat, mkHeap [v] ms).
Proof. reflexivity. Qed.
Lemma new_vec_1 v v0 ms :
  new_vec v (mkHeap [v0] ms) = (1%nat, mkHeap [v0; v] ms).
Proof. reflexivity. Qed.

Lemma get_mat_0 vs m0 ms :
  get_mat 0%nat (mkHeap vs (m0 :: ms)) = (m0, mkHeap vs (m0 :: ms)).
Proof. reflexivity. Qed.
Lemma get_mat_1 vs m0 m1 ms :
  get_mat 1%nat (mkHeap vs (m0 :: m1 :: ms)) = (m1, mkHeap vs (m0 :: m1 :: ms)).
Proof. reflexivity. Qed.
Lemma get_vec_0 v0 vs ms :
  get_vec 0%nat (mkHeap (v0 :: vs) ms) = (v0, mkHeap (v0 :: vs) ms).
Proof. reflexivity. Qed.
Lemma get_vec_1 v0 v1 vs ms :
  get_vec 1%nat (mkHeap (v0 :: v1 :: vs) ms) = (v1, mkHeap (v0 :: v1 :: vs) ms).
Proof. reflexivity. Qed.

Lemma fill_mat_0 mask c vs m0 ms :
  fill_mat 0%nat mask c (mkHeap vs (m0 :: ms))
  = (tt, mkHeap vs (index_fill_mat mask m0 c :: ms)).
Proof. reflexivity. Qed.
Lemma fill_mat_1 mask c vs m0 m1 ms :
  fill_mat 1%nat mask c (mkHeap vs (m0 :: m1 :: ms))
  = (tt, mkHeap vs (m0 :: index_fill_mat mask m1 c :: ms)).
Proof. reflexivity. Qed.
Lemma fill_vec_0 mask c v0 vs ms :
  fill_vec 0%nat mask c (mkHeap (v0 :: vs) ms)
  = (tt, mkHeap (index_fill_vec mask v0 c :: vs) ms).
Proof. reflexivity. Qed.
Lemma fill_vec_1 mask c v0 v1 vs ms :
  fill_vec 1%nat mask c (mkHeap (v0 :: v1 :: vs) ms)
  = (tt, mkHeap (v0 :: index_fill_vec mask v1 c :: vs) ms).
Proof. reflexivity. Qed.

Lemma put_mat_0 mask vals vs m0 ms :
  put_mat 0%nat mask vals (mkHeap vs (m0 :: ms))
  = (tt, mkHeap vs (index_put mask m0 vals :: ms)).
Proof. reflexivity. Qed.
Lemma put_mat_1 mask vals vs m0 m1 ms :
  put_mat 1%nat mask vals (mkHeap vs (m0 :: m1 :: ms))
  = (tt, mkHeap vs (m0 :: index_put mask m1 vals :: ms)).
Proof. reflexivity. Qed.
Lemma put_vec_0 mask vals v0 vs ms :
  put_vec 0%nat mask vals (mkHeap (v0 :: vs) ms)
  = (tt, mkHeap (index_put mask v0 vals :: vs) ms).
Proof. reflexivity. Qed.
Lemma put_vec_1 mask vals v0 v1 vs ms :
  put_vec 1%nat mask vals (mkHeap (v0 :: v1 :: vs) ms)
  = (tt, mkHeap (v0 :: index_put mask v1 vals :: vs) ms).
Proof. reflexivity. Qed.

Lemma bind_run {A B} (m : M A) (k : A -> M B) (h : Heap) (a : A) (h' : Heap) :
  m h = (a, h') -> bind m k h = k a h'.
Proof. intros H. unfold bind. rewrite H. reflexivity. Qed.

Lemma bind_assoc {A B C} (m : M A) (k1 : A -> M B) (k2 : B -> M C)
      (h : Heap) :
  bind (bind m k1) k2 h = bind m (fun a => bind (k1 a) k2) h.
Proof. unfold bind. destruct (m h). reflexivity. Qed.

Lemma bind_ret {A B} (a : A) (k : A -> M B) (h : Heap) :
  bind (ret a) k h = k a h.
Proof. reflexivity. Qed.

End StoreSteps.

(** One step of symbolic execution of a store program whose store is
    given explicitly. *)
Ltac store_step :=
  lazymatch goal with
  | |- bind (bind ?m ?k1) ?k2 ?h = _ => refine (eq_trans (bind_assoc m k1 k2 h) _)
  | |- bind (ret ?a) ?k ?h = _ => refine (eq_trans (bind_ret a k h) _)
  | |- bind (new_mat ?m) ?k (mkHeap ?vs []) = _ =>
      refine (eq_trans (bind_run _ k _ _ _ (new_mat_0 m vs)) _)
  | |- bind (new_mat ?m) ?k (mkHeap ?vs [?m0]) = _ =>
      refine (eq_trans (bind_run _ k _ _ _ (new_mat_1 m m0 vs)) _)
  | |- bind (new_vec ?v) ?k (mkHeap [] ?ms) = _ =>
      refine (eq_trans (bind_run _ k _ _ _ (new_vec_0 v ms)) _)
  | |- bind (new_vec ?v) ?k (mkHeap [?v0] ?ms) = _ =>
      refine (eq_trans (bind_run _ k _ _ _ (new_vec_1 v v0 ms)) _)
  | |- bind (get_mat 0%nat) ?k (mkHeap ?vs (?m0 :: ?ms)) = _ =>
      refine (eq_trans (bind_run _ k _ _ _ (get_mat_0 vs m0 ms)) _)
  | |- bind (get_mat 1%nat) ?k (mkHeap ?vs (?m0 :: ?m1 :: ?ms)) = _ =>
      refine (eq_trans (bind_run _ k _ _ _ (get_mat_1 vs m0 m1 ms)) _)
  | |- bind (get_vec 0%nat) ?k (mkHeap (?v0 :: ?vs) ?ms) = _ =>
      refine (eq_trans (bind_run _ k _ _ _ (get_vec_0 v0 vs ms)) _)
  | |- bind (get_vec 1%nat) ?k (mkHeap (?v0 :: ?v1 :: ?vs) ?ms) = _ =>
      refine (eq_trans (bind_run _ k _ _ _ (get_vec_1 v0 v1 vs ms)) _)
  | |- bind (fill_mat 0%nat ?mask ?c) ?k (mkHeap ?vs (?m0 :: ?ms)) = _ =>
      refine (eq_trans (bind_run _ k _ _ _ (fill_mat_0 mask c vs m0 ms)) _)
  | |- bind (fill_mat 1%nat ?mask ?c) ?k (mkHeap ?vs (?m0 :: ?m1 :: ?ms))
       = _ =>
      refine (eq_trans (bind_run _ k _ _ _ (fill_mat_1 mask c vs m0 m1 ms)) _)
  | |- bind (fill_vec 0%nat ?mask ?c) ?k (mkHeap (?v0 :: ?vs) ?ms) = _ =>
      refine (eq_trans (bind_run _ k _ _ _ (fill_vec_0 mask c v0 vs ms)) _)
  | |- bind (fill_vec 1%nat ?mask ?c) ?k (mkHeap (?v0 :: ?v1 :: ?vs) ?ms)
       = _ =>
      refine (eq_trans (bind_run _ k _ _ _ (fill_vec_1 mask c v0 v1 vs ms)) _)
  | |- bind (put_mat 0%nat ?mask ?vals) ?k (mkHeap ?vs (?m0 :: ?ms)) = _ =>
      refine (eq_trans (bind_run _ k _ _ _ (put_mat_0 mask vals vs m0 ms)) _)
  | |- bind (put_mat 1%nat ?mask ?vals) ?k
            (mkHeap ?vs (?m0 :: ?m1 :: ?ms)) = _ =>
      refine (eq_trans (bind_run _ k _ _ _ (put_mat_1 mask vals vs m0 m1 ms)) _)
  | |- bind (put_vec 0%nat ?mask ?vals) ?k (mkHeap (?v0 :: ?vs) ?ms) = _ =>
      refine (eq_trans (bind_run _ k _ _ _ (put_vec_0 mask vals v0 vs ms)) _)
  | |- bind (put_vec 1%nat ?mask ?vals) ?k
            (mkHeap (?v0 :: ?v1 :: ?vs) ?ms) = _ =>
      refine (eq_trans (bind_run _ k _ _ _ (put_vec_1 mask vals v0 v1 vs ms)) _)
  end;
  cbv beta iota zeta.

Section Tabulate.

(** Tensors given by a formula over an index list: the masked
    operations act entry by entry. *)
Variable l : list nat.

Lemma repeat_map_seq {A} (a : A) (s n : nat) :
  repeat a n = map (fun _ => a) (seq s n).
Proof. revert s; induction n; intros s; simpl; [| rewrite <- IHn]; auto. Qed.

Lemma index_fill_vec_tab (g : nat -> bool) (f : nat -> Q) (c : Q) :
  index_fill_vec (map g l) (map f l) c
  = map (fun i => if g i then c else f i) l.
Proof. unfold index_fill_vec. apply map2_map_map. Qed.

Lemma index_fill_mat_tab (g : nat -> bool) (f : nat -> Vector) (c : Q) :
  index_fill_mat (map g l) (map f l) c
  = map (fun i => if g i then map (fun _ => c) (f i) else f i) l.
Proof. unfold index_fill_mat. apply map2_map_map. Qed.

Lemma select_tab {A} (g : nat -> bool) (a : nat -> A) :
  select (map g l) (map a l) = map a (filter g l).
Proof.
  induction l as [|i l' IH]; simpl; [reflexivity |].
  destruct (g i); simpl; rewrite IH; reflexivity.
Qed.

Lemma index_put_tab {A} (g : nat -> bool) (f s : nat -> A) :
  index_put (map g l) (map f l) (map s (filter g l))
  = map (fun i => if g i then s i else f i) l.
Proof.
  induction l as [|i l' IH]; simpl; [reflexivity |].
  destruct (g i); simpl; rewrite IH; reflexivity.
Qed.

Lemma is_always_negative_tab (U : nat -> Q) :
  is_always_negative (map U l) = map (fun i => Qle_bool (U i) 0) l.
Proof. unfold is_always_negative. apply map_map. Qed.

Lemma is_always_positive_tab (L : nat -> Q) :
  is_always_positive (map L l) = map (fun i => Qle_bool 0 (L i)) l.
Proof. unfold is_always_positive. apply map_map. Qed.

Lemma is_crossing_tab (L U : nat -> Q) :
  is_crossing (map L l) (map U l)
  = map (fun i => Spec.crossing (L i) (U i)) l.
Proof.
  unfold is_crossing.
  rewrite is_always_negative_tab, is_always_positive_tab, map2_map_map,
    map_map.
  reflexivity.
Qed.

Lemma area_test_tab (L U : nat -> Q) :
  area_test (map L l) (map U l) = map (fun i => Qle_bool (U i) (- L i)) l.
Proof.
  unfold area_test.
  apply (map2_map_map (fun u l0 => Qle_bool u (- l0)) U L).
Qed.

Lemma crossing_slope_tab (L U : nat -> Q) (g : nat -> bool) :
  crossing_slope (map L l) (map U l) (map g l)
  = map (fun i => Spec.relu_slope (L i) (U i)) (filter g l).
Proof.
  unfold crossing_slope, vdiv, vsub.
  rewrite !select_tab, !map2_map_map. reflexivity.
Qed.

End Tabulate.

Section ReLUClosedForm.

Lemma map_const_zeros (n : nat) : map (fun _ : Q => 0) (zeros n) = zeros n.
Proof. unfold zeros. rewrite map_repeat. reflexivity. Qed.

Lemma eye_row_length (n i : nat) : length (eye_row n i) = n.
Proof. unfold eye_row. rewrite length_map, length_seq. reflexivity. Qed.

Lemma zeros_length (n : nat) : length (zeros n) = n.
Proof. apply repeat_length. Qed.

Lemma relu_l_row_length (n : nat) (lo up : Q) (i : nat) :
  length (Spec.relu_l_row n lo up i) = n.
Proof.
  unfold Spec.relu_l_row.
  destruct (Spec.crossing lo up), (Qle_bool 0 lo);
    auto using eye_row_length, zeros_length.
Qed.

Lemma relu_u_row_length (n : nat) (lo up : Q) (i : nat) :
  length (Spec.relu_u_row n lo up i) = n.
Proof.
  unfold Spec.relu_u_row.
  destruct (Spec.crossing lo up), (Qle_bool 0 lo);
    rewrite ?length_map; auto using eye_row_length, zeros_length.
Qed.

Lemma where_vec_same (cond : list bool) (a : Vector) :
  (length a <= length cond)%nat -> where_vec cond a a = a.
Proof.
  unfold where_vec. revert cond; induction a as [|x a IH];
    intros [|c cond] H; simpl in *; try reflexivity; try lia.
  rewrite IH by lia. destruct c; reflexivity.
Qed.

Lemma where_mat_same (cond : list bool) (a : Matrix) :
  Forall (fun r => (length r <= length cond)%nat) a ->
  where_mat cond a a = a.
Proof.
  unfold where_mat. induction 1 as [|r a Hr _ IH]; simpl; [reflexivity |].
  rewrite IH, where_vec_same by exact Hr. reflexivity.
Qed.

Variables (lc uc : Matrix) (lb ub : Vector) (L U : nat -> Q)
          (par : option Polygon).

Let n := length lc.
Let x := Build_Polygon lc uc lb ub (map L (seq 0 n)) (map U (seq 0 n)) par.

(** The store after the calls of [relu_I] and [relu_II]: both return the
    same four references, and the tensors behind them hold, row by row,
    the relaxation of [Spec.relu_l_row], [Spec.relu_u_row] and
    [Spec.relu_u_bias]. *)
Lemma relu_candidates_tab :
  relu_candidates x Store.empty
  = (((0, 0, 1, 1), (0, 0, 1, 1))%nat,
     mkHeap
       [map (fun _ => 0) (seq 0 n);
        map (fun i => Spec.relu_u_bias (L i) (U i)) (seq 0 n)]
       [map (fun i => Spec.relu_l_row n (L i) (U i) i) (seq 0 n);
        map (fun i => Spec.relu_u_row n (L i) (U i) i) (seq 0 n)]).
Proof.
  unfold relu_candidates, relu_I, relu_II, evaluate, Store.empty.
  cbv beta iota zeta. cbn [l_coefs l_bound u_bound x].
  change (nrows lc) with n.
  repeat store_step.
  unfold ret, zeros_mat, zeros.
  rewrite !(repeat_map_seq _ 0 n).
  rewrite !is_always_negative_tab, !is_always_positive_tab, !is_crossing_tab.
  rewrite !crossing_slope_tab.
  rewrite !index_fill_vec_tab, !index_fill_mat_tab.
  unfold eye. rewrite !select_tab, !index_put_tab.
  rewrite ?index_fill_mat_tab, ?index_fill_vec_tab.
  unfold nrows. rewrite ?length_map, ?length_seq.
  rewrite ?select_tab, ?index_put_tab.
  unfold scaled_eye_rows, eye, vmul, vneg.
  rewrite ?select_tab, ?map_map, ?map2_map_map, ?index_put_tab.
  unfold Spec.relu_l_row, Spec.relu_u_row, Spec.relu_u_bias, zeros.
  rewrite !(repeat_map_seq 0 0 n).
  f_equal. f_equal.
  - f_equal; [| f_equal]; apply map_ext; intros i;
      destruct (Spec.crossing (L i) (U i)), (Qle_bool 0 (L i)),
        (Qle_bool (U i) 0); reflexivity.
  - f_equal; [| f_equal]; apply map_ext; intros i;
      destruct (Spec.crossing (L i) (U i)), (Qle_bool 0 (L i)),
        (Qle_bool (U i) 0); reflexivity.
Qed.

End ReLUClosedForm.

Section ReLUForward.

Lemma area_test_length (l u : Vector) :
  length l = length u -> length (area_test l u) = length u.
Proof.
  intros H. unfold area_test. rewrite map2_length.
  unfold Vector in *. lia.
Qed.

(** [ReLUTransformer.forward] in closed form, on a polygon whose bounds
    are given by formulas. *)
Lemma ReLU_forward_tab (lc uc : Matrix) (lb ub : Vector) (L U : nat -> Q)
      (par : option Polygon) :
  let n := length lc in
  let x :=
    Build_Polygon lc uc lb ub (map L (seq 0 n)) (map U (seq 0 n)) par in
  ReLUTransformer_forward_M x Store.empty
  = (Polygon_init
       (map (fun i => Spec.relu_l_row n (L i) (U i) i) (seq 0 n))
       (map (fun i => Spec.relu_u_row n (L i) (U i) i) (seq 0 n))
       (map (fun _ => 0) (seq 0 n))
       (map (fun i => Spec.relu_u_bias (L i) (U i)) (seq 0 n))
       (Some x),
     mkHeap
       [map (fun _ => 0) (seq 0 n);
        map (fun i => Spec.relu_u_bias (L i) (U i)) (seq 0 n)]
       [map (fun i => Spec.relu_l_row n (L i) (U i) i) (seq 0 n);
        map (fun i => Spec.relu_u_row n (L i) (U i) i) (seq 0 n)]).
Proof.
  intros n x. unfold ReLUTransformer_forward_M, evaluate.
  cbv beta iota zeta.
  refine (eq_trans (bind_run _ _ _ _ _ (relu_candidates_tab lc uc lb ub L U
                                          par)) _).
  cbv beta iota zeta.
  repeat store_step.
  unfold ret. f_equal.
  assert (Hcond : length (area_test (l_bound x) (u_bound x)) = n).
  { rewrite area_test_length; cbn [l_bound u_bound x];
      rewrite !length_map, length_seq; reflexivity. }
  rewrite !where_mat_same, !where_vec_same; try reflexivity;
    rewrite Hcond.
  - rewrite length_map, length_seq. lia.
  - rewrite length_map, length_seq. lia.
  - apply Forall_map, Forall_forall. intros i _.
    rewrite relu_u_row_length. lia.
  - apply Forall_map, Forall_forall. intros i _.
    rewrite relu_l_row_length. lia.
Qed.

Lemma tabulated_polygon (x : Polygon) :
  length (l_bound x) = nrows (l_coefs x) ->
  length (u_bound x) = nrows (l_coefs x) ->
  x = Build_Polygon (l_coefs x) (u_coefs x) (l_bias x) (u_bias x)
        (map (fun i => nth i (l_bound x) 0) (seq 0 (length (l_coefs x))))
        (map (fun i => nth i (u_bound x) 0) (seq 0 (length (l_coefs x))))
        (parent x).
Proof.
  intros Hl Hu. unfold nrows in *. rewrite <- Hl at 1. rewrite <- Hu.
  rewrite !map_nth_seq. destruct x; reflexivity.
Qed.

(** [ReLUTransformer.forward] in closed form. *)
Lemma ReLU_forward_closed (x : Polygon) :
  let n := nrows (l_coefs x) in
  length (l_bound x) = n ->
  length (u_bound x) = n ->
  ReLUTransformer_forward x
  = Polygon_init (Spec.relu_l_coefs n (l_bound x) (u_bound x))
                 (Spec.relu_u_coefs n (l_bound x) (u_bound x))
                 (Spec.relu_l_bias_vec n)
                 (Spec.relu_u_bias_vec n (l_bound x) (u_bound x))
                 (Some x).
Proof.
  intros n Hl Hu. unfold ReLUTransformer_forward, Store.run.
  rewrite (tabulated_polygon x Hl Hu) at 1.
  rewrite ReLU_forward_tab. cbn [fst].
  rewrite <- (tabulated_polygon x Hl Hu). reflexivity.
Qed.

(** Both candidates as the final loop reads them, in closed form: they
    are the same tensors. *)
Lemma read_candidates_closed (x : Polygon) :
  let n := nrows (l_coefs x) in
  length (l_bound x) = n ->
  length (u_bound x) = n ->
  let t := (Spec.relu_l_coefs n (l_bound x) (u_bound x),
            Spec.relu_l_bias_vec n,
            Spec.relu_u_coefs n (l_bound x) (u_bound x),
            Spec.relu_u_bias_vec n (l_bound x) (u_bound x)) in
  Spec.read_candidates x = (t, t).
Proof.
  intros n Hl Hu t. unfold Spec.read_candidates, Store.run.
  rewrite (tabulated_polygon x Hl Hu) at 1.
  match goal with
  | |- fst (?prog ?h) = _ =>
      assert (H : prog h
                  = ((t, t),
                     mkHeap
                       [Spec.relu_l_bias_vec n;
                        Spec.relu_u_bias_vec n (l_bound x) (u_bound x)]
                       [Spec.relu_l_coefs n (l_bound x) (u_bound x);
                        Spec.relu_u_coefs n (l_bound x) (u_bound x)]));
      [| rewrite H; reflexivity]
  end.
  refine (eq_trans (bind_run _ _ _ _ _ (relu_candidates_tab _ _ _ _ _ _ _))
                   _).
  cbv beta iota zeta.
  repeat store_step.
  reflexivity.
Qed.

End ReLUForward.

Section ReLUSound.
















End ReLUSound.

(** ** The main statements about the transformers *)






Lemma nth_map_seq {A} (f : nat -> A) (n i : nat) (d : A) :
  (i < n)%nat -> nth i (map f (seq 0 n)) d = f i.
Proof.
  intros H. rewrite (nth_indep _ d (f 0%nat))
    by (rewrite length_map, length_seq; exact H).
  rewrite (map_nth f), seq_nth by exact H. reflexivity.
Qed.

Lemma vscale_0_eye_row (n i : nat) : vscale 0 (eye_row n i) = zeros n.
Proof.
  unfold vscale, eye_row, zeros. rewrite map_map, (repeat_map_seq 0 0 n).
  apply map_ext. intros j. destruct (Nat.eqb i j); reflexivity.
Qed.

(** C3, what the code does.  For every crossing neuron the lower
    coefficient row of the polygon that [ReLUTransformer.forward] returns
    is the identity row (Variant B), whether or not [u <= -l]: [relu_I] and
    [relu_II] assign into the same four tensors and return them, so the
    final [torch.where] chooses between two references to the tensors as
    [relu_II] left them.  The candidate [poly_I] itself, as that loop
    reads it, has the identity row. *)
Theorem relu_tie_break_not_applied (x : Polygon) (i : nat) :
  let n := nrows (l_coefs x) in
  let l := nth i (l_bound x) 0 in
  let u := nth i (u_bound x) 0 in
  length (l_bound x) = n ->
  length (u_bound x) = n ->
  (i < n)%nat ->
  l < 0 -> 0 < u ->
  nth i (l_coefs (ReLUTransformer_forward x)) [] = eye_row n i
  /\ fst (Spec.read_candidates x) = snd (Spec.read_candidates x)
  /\ nth i (fst (fst (fst (fst (Spec.read_candidates x))))) [] = eye_row n i.
Proof.
  intros n l u Hl Hu Hi Hl0 Hu0.
  assert (Hc : Spec.crossing l u = true).
  { unfold Spec.crossing.
    destruct (Qle_bool u 0) eqn:E1; [apply Qle_bool_iff in E1; lra |].
    destruct (Qle_bool 0 l) eqn:E2; [apply Qle_bool_iff in E2; lra |].
    reflexivity. }
  rewrite ReLU_forward_closed, read_candidates_closed by assumption.
  cbn [Polygon_init l_coefs fst snd].
  unfold Spec.relu_l_coefs. rewrite nth_map_seq by exact Hi.
  fold n l u. unfold Spec.relu_l_row. rewrite Hc. auto.
Qed.

Lemma relu_tie_break_not_applied_witness :
  area_test (l_bound Examples.interval_m3_1)
            (u_bound Examples.interval_m3_1) = [true]
  /\ nth 0 (l_coefs (ReLUTransformer_forward Examples.interval_m3_1)) []
     = eye_row (nrows (l_coefs Examples.interval_m3_1)) 0.
Proof.
  split; [vm_compute; reflexivity |].
  exact (proj1 (relu_tie_break_not_applied Examples.interval_m3_1 0
                  ltac:(vm_compute; reflexivity)
                  ltac:(vm_compute; reflexivity)
                  ltac:(vm_compute; lia)
                  ltac:(vm_compute; reflexivity)
                  ltac:(vm_compute; reflexivity))).
Defined.

(** C4, as the code has it.  For neuron [i] with input interval [l, u]:
    if [l >= 0] (also when [l = u = 0]) both coefficient rows are the
    identity row and both biases zero; if [u <= 0] and [l < 0] both rows
    are [s] times the identity row with [s = 0], that is zero, and both
    biases zero; if [l < 0 < u] the upper row is the identity row scaled
    by [slope_u = u / (u - l) = (u - s l) / (u - l)] and the upper bias is
    [- slope_u * l], in the returned polygon and in both candidates as the
    final loop reads them. *)
Theorem relu_case_analysis (x : Polygon) (i : nat) :
  let n := nrows (l_coefs x) in
  let l := nth i (l_bound x) 0 in
  let u := nth i (u_bound x) 0 in
  let out := ReLUTransformer_forward x in
  let slope_u := u / (u - l) in
  length (l_bound x) = n ->
  length (u_bound x) = n ->
  (i < n)%nat ->
  (0 <= l ->
   nth i (l_coefs out) [] = eye_row n i
   /\ nth i (u_coefs out) [] = eye_row n i
   /\ nth i (l_bias out) 0 = 0 /\ nth i (u_bias out) 0 = 0)
  /\ (u <= 0 -> l < 0 ->
      nth i (l_coefs out) [] = vscale 0 (eye_row n i)
      /\ nth i (u_coefs out) [] = vscale 0 (eye_row n i)
      /\ nth i (l_bias out) 0 = 0 /\ nth i (u_bias out) 0 = 0)
  /\ (l < 0 -> 0 < u ->
      nth i (u_coefs out) [] = map (fun e => e * slope_u) (eye_row n i)
      /\ nth i (u_bias out) 0 = - slope_u * l
      /\ slope_u == (u - 0 * l) / (u - l)
      /\ (forall c,
             c = fst (Spec.read_candidates x)
             \/ c = snd (Spec.read_candidates x) ->
             nth i (snd (fst c)) []
             = map (fun e => e * slope_u) (eye_row n i)
             /\ nth i (snd c) 0 = - slope_u * l)).
Proof.
  intros n l u out slope_u Hl Hu Hi. unfold out.
  rewrite ReLU_forward_closed, read_candidates_closed by assumption.
  cbn [Polygon_init l_coefs u_coefs l_bias u_bias fst snd].
  unfold Spec.relu_l_coefs, Spec.relu_u_coefs, Spec.relu_l_bias_vec,
    Spec.relu_u_bias_vec.
  rewrite !nth_map_seq by exact Hi. fold n l u.
  unfold Spec.relu_l_row, Spec.relu_u_row, Spec.relu_u_bias, Spec.crossing,
    Spec.relu_slope.
  fold slope_u. rewrite vscale_0_eye_row.
  split; [| split].
  - intros H. apply Qle_bool_iff in H. rewrite H, orb_true_r. cbn [negb].
    auto.
  - intros H1 H2. apply Qle_bool_iff in H1. rewrite H1. cbn [orb negb].
    destruct (Qle_bool 0 l) eqn:E; [apply Qle_bool_iff in E; lra | auto].
  - intros H1 H2.
    destruct (Qle_bool u 0) eqn:E1; [apply Qle_bool_iff in E1; lra |].
    destruct (Qle_bool 0 l) eqn:E2; [apply Qle_bool_iff in E2; lra |].
    cbn [orb negb]. repeat split.
    + unfold slope_u. field. lra.
    + destruct H as [-> | ->]; cbn [fst snd];
        rewrite nth_map_seq by exact Hi; fold l u;
        unfold Spec.relu_u_row, Spec.crossing; rewrite E1, E2; reflexivity.
    + destruct H as [-> | ->]; cbn [fst snd];
        rewrite nth_map_seq by exact Hi; fold l u;
        unfold Spec.relu_u_bias, Spec.crossing; rewrite E1, E2; reflexivity.
Qed.

Lemma relu_case_analysis_witness :
  nth 0 (u_coefs (ReLUTransformer_forward Examples.interval_m1_3)) []
  = map (fun e => e
                  * (nth 0 (u_bound Examples.interval_m1_3) 0
                     / (nth 0 (u_bound Examples.interval_m1_3) 0
                        - nth 0 (l_bound Examples.interval_m1_3) 0)))
        (eye_row (nrows (l_coefs Examples.interval_m1_3)) 0)
  /\ nth 0 (l_coefs (ReLUTransformer_forward Examples.interval_0_0)) []
     = eye_row (nrows (l_coefs Examples.interval_0_0)) 0.
Proof.
  destruct (relu_case_analysis Examples.interval_m1_3 0
              ltac:(vm_compute; reflexivity) ltac:(vm_compute; reflexivity)
              ltac:(vm_compute; lia)) as (_ & _ & Hcross).
  destruct (relu_case_analysis Examples.interval_0_0 0
              ltac:(vm_compute; reflexivity) ltac:(vm_compute; reflexivity)
              ltac:(vm_compute; lia)) as (Hpos & _).
  assert (Hl : nth 0 (l_bound Examples.interval_m1_3) 0 < 0)
    by (vm_compute; reflexivity).
  assert (Hu : 0 < nth 0 (u_bound Examples.interval_m1_3) 0)
    by (vm_compute; reflexivity).
  assert (H0 : 0 <= nth 0 (l_bound Examples.interval_0_0) 0)
    by (vm_compute; discriminate).
  split.
  - exact (proj1 (Hcross Hl Hu)).
  - exact (proj1 (Hpos H0)).
Defined.

(** C4 as stated fails on the interval [0, 0], where [u <= 0] holds: the
    rows of the returned polygon are the identity row, not [s] times the
    identity row (zero for [s = 0]). *)
Lemma relu_case_analysis_counterexample :
  nth 0 (u_bound Examples.interval_0_0) 0 <= 0
  /\ nth 0 (l_coefs (ReLUTransformer_forward Examples.interval_0_0)) []
     = [1]
  /\ nth 0 (u_coefs (ReLUTransformer_forward Examples.interval_0_0)) []
     = [1]
  /\ vscale 0 (eye_row 1 0) = [0]
  /\ [1] <> [0].
Proof.
  repeat split; vm_compute; discriminate.
Qed.

(* --------------------------------------------------------------------- *)
(** ** Convolutions as dense linear layers *)

Section ConvGeometry.

Import VerifierSrc.

Lemma encode_loc_cons (t s : Z) (tup shape : list Z) :
  length tup = length shape ->
  encode_loc (t :: tup) (s :: shape)
  = (encode_loc tup shape + prod shape * t)%Z.
Proof.
  intros Hlen. unfold encode_loc. cbn [combine rev].
  rewrite fold_left_app. cbn [fold_left].
  set (f := fun acc ts : Z * Z => let '(r, c) := acc in let '(t0, s0) := ts in
                ((r + c * t0)%Z, (c * s0)%Z)).
  assert (Hsnd : forall tup shape, length tup = length shape ->
            snd (fold_left f (rev (combine tup shape)) (0%Z, 1%Z))
            = prod shape).
  { clear. induction tup as [|t tup IH]; intros [|s shape] Hl;
      try discriminate; [reflexivity |].
    cbn [combine rev]. rewrite fold_left_app. cbn [fold_left].
    injection Hl as Hl. specialize (IH shape Hl).
    destruct (fold_left f (rev (combine tup shape)) (0%Z, 1%Z)) as [r c].
    cbn [snd] in *. subst c. unfold prod. cbn [f fold_right snd]. lia. }
  specialize (Hsnd tup shape Hlen).
  destruct (fold_left f (rev (combine tup shape)) (0%Z, 1%Z)) as [r c].
  cbn [snd fst] in *. subst c. reflexivity.
Qed.

Lemma encode_loc_nil : encode_loc [] [] = 0%Z.
Proof. reflexivity. Qed.

Lemma encode_loc_range (tup shape : list Z) :
  Forall2 (fun t s => (0 <= t < s)%Z) tup shape ->
  (0 <= encode_loc tup shape < prod shape)%Z.
Proof.
  induction 1 as [|t s tup shape Hts Hall IH].
  - cbn. lia.
  - rewrite encode_loc_cons by (eapply Forall2_length; exact Hall).
    cbn [prod fold_right]. fold (prod shape). nia.
Qed.

Lemma encode_loc_inj (tup1 tup2 shape : list Z) :
  Forall2 (fun t s => (0 <= t < s)%Z) tup1 shape ->
  Forall2 (fun t s => (0 <= t < s)%Z) tup2 shape ->
  encode_loc tup1 shape = encode_loc tup2 shape ->
  tup1 = tup2.
Proof.
  intros H1. revert tup2.
  induction H1 as [|t1 s tup1 shape Hts1 Hall1 IH]; intros tup2 H2 He.
  - inversion H2. reflexivity.
  - inversion H2 as [|t2 s' tup2' shape' Hts2 Hall2]; subst.
    rewrite !encode_loc_cons in He
      by (eapply Forall2_length; eassumption).
    pose proof (encode_loc_range _ _ Hall1) as R1.
    pose proof (encode_loc_range _ _ Hall2) as R2.
    assert (t1 = t2) by nia. subst t2.
    f_equal. apply IH; [exact Hall2 | lia].
Qed.

End ConvGeometry.

Section Folds.

Context {A B : Type} (f : A -> B -> A).

Lemma fold_left_inv (P : A -> Prop) (l : list B) (a : A) :
  P a ->
  (forall a b, In b l -> P a -> P (f a b)) ->
  P (fold_left f l a).
Proof.
  revert a; induction l as [|b l IH]; intros a Ha Hstep; cbn [fold_left].
  - exact Ha.
  - apply IH.
    + apply Hstep; [left; reflexivity | exact Ha].
    + intros a' b' Hin. apply Hstep. right. exact Hin.
Qed.

(** A property [R] that every step keeps, and that the step at [b0]
    establishes from any state satisfying the invariant [P], holds at the
    end of a loop that passes [b0]. *)
Lemma fold_left_reach (P R : A -> Prop) (l : list B) (b0 : B) (a : A) :
  In b0 l ->
  P a ->
  (forall a b, In b l -> P a -> P (f a b)) ->
  (forall a b, In b l -> R a -> R (f a b)) ->
  (forall a, P a -> R (f a b0)) ->
  R (fold_left f l a).
Proof.
  revert a; induction l as [|b l IH]; intros a Hin Ha HP HR H0;
    cbn [fold_left].
  - destruct Hin.
  - destruct Hin as [-> | Hin].
    + apply fold_left_inv.
      * apply H0. exact Ha.
      * intros a' b' Hin'. apply HR. right. exact Hin'.
    + apply IH.
      * exact Hin.
      * apply HP; [left; reflexivity | exact Ha].
      * intros a' b' Hin'. apply HP. right. exact Hin'.
      * intros a' b' Hin'. apply HR. right. exact Hin'.
      * exact H0.
Qed.

End Folds.

Section UpdateFacts.

Lemma update_length {A} (i : nat) (x : A) (l : list A) :
  length (update i x l) = length l.
Proof.
  revert i; induction l as [|y l IH]; intros [|i]; cbn; auto.
Qed.

Lemma nth_update_same {A} (j : nat) (x d : A) (l : list A) :
  (j < length l)%nat -> nth j (update j x l) d = x.
Proof.
  revert j; induction l as [|y l IH]; intros [|j] Hj; cbn in *;
    try lia; [reflexivity |].
  apply IH. lia.
Qed.

Lemma nth_update_other {A} (i j : nat) (x d : A) (l : list A) :
  i <> j -> nth i (update j x l) d = nth i l d.
Proof.
  revert i j; induction l as [|y l IH]; intros [|i] [|j] Hij; cbn;
    try reflexivity; try congruence.
  apply IH. congruence.
Qed.

Lemma update_Forall {A} (P : A -> Prop) (i : nat) (x : A) (l : list A) :
  P x -> Forall P l -> Forall P (update i x l).
Proof.
  intros Hx H. revert i; induction H as [|y l Hy Hl IH]; intros [|i]; cbn;
    constructor; auto.
Qed.

Lemma update2_length (i j : nat) (v : Q) (m : Matrix) :
  length (VerifierSrc.update2 i j v m) = length m.
Proof. apply update_length. Qed.

Lemma update2_rows (n i j : nat) (v : Q) (m : Matrix) :
  Forall (fun r => length r = n) m ->
  Forall (fun r => length r = n) (VerifierSrc.update2 i j v m).
Proof.
  intros H. unfold VerifierSrc.update2.
  destruct (Nat.lt_ge_cases i (length m)) as [Hi | Hi].
  - apply update_Forall; [| exact H].
    rewrite update_length.
    rewrite Forall_forall in H. apply H. apply nth_In. exact Hi.
  - replace (update i _ m) with m; [exact H |].
    clear H. revert i Hi. induction m as [|r m IH]; intros [|i] Hi; cbn in *;
      try reflexivity; try lia.
    f_equal. apply IH. lia.
Qed.

Lemma entry_update2_same (i j : nat) (v : Q) (m : Matrix) :
  (i < length m)%nat -> (j < length (nth i m []))%nat ->
  entry i j (VerifierSrc.update2 i j v m) = v.
Proof.
  intros Hi Hj. unfold entry, VerifierSrc.update2.
  rewrite nth_update_same by exact Hi.
  apply nth_update_same. exact Hj.
Qed.

Lemma entry_update2_other (r c i j : nat) (v : Q) (m : Matrix) :
  r <> i \/ c <> j ->
  entry r c (VerifierSrc.update2 i j v m) = entry r c m.
Proof.
  intros H. unfold entry, VerifierSrc.update2.
  destruct (Nat.eq_dec r i) as [-> | Hr].
  - destruct H as [H | H]; [congruence |].
    destruct (Nat.lt_ge_cases i (length m)) as [Hi | Hi].
    + rewrite nth_update_same by exact Hi.
      apply nth_update_other. exact H.
    + rewrite (nth_overflow (update _ _ _)) by (rewrite update_length; lia).
      rewrite (nth_overflow m) by lia. reflexivity.
  - rewrite nth_update_other by exact Hr. reflexivity.
Qed.

Lemma update_overflow {A} (i : nat) (x : A) (l : list A) :
  (length l <= i)%nat -> update i x l = l.
Proof.
  revert i; induction l as [|y l IH]; intros [|i] Hi; cbn in *;
    try reflexivity; try lia.
  f_equal. apply IH. lia.
Qed.

Lemma update_nth_self {A} (i : nat) (d : A) (l : list A) :
  update i (nth i l d) l = l.
Proof.
  revert i; induction l as [|y l IH]; intros [|i]; cbn;
    try reflexivity.
  f_equal. apply IH.
Qed.

Lemma entry_update2_cases (r c i j : nat) (v : Q) (m : Matrix) :
  (r = i /\ c = j /\ entry r c (VerifierSrc.update2 i j v m) = v)
  \/ entry r c (VerifierSrc.update2 i j v m) = entry r c m.
Proof.
  destruct (Nat.eq_dec r i) as [-> | Hr];
    [destruct (Nat.eq_dec c j) as [-> | Hc] |].
  - destruct (Nat.lt_ge_cases i (length m)) as [Hi | Hi];
      [destruct (Nat.lt_ge_cases j (length (nth i m []))) as [Hj | Hj] |].
    + left. repeat split. apply entry_update2_same; assumption.
    + right. unfold VerifierSrc.update2.
      rewrite (update_overflow j) by exact Hj.
      rewrite update_nth_self. reflexivity.
    + right. unfold VerifierSrc.update2.
      rewrite (update_overflow i) by exact Hi. reflexivity.
  - right. apply entry_update2_other. right. exact Hc.
  - right. apply entry_update2_other. left. exact Hr.
Qed.

Lemma In_zrange (x n : Z) : In x (zrange n) <-> (0 <= x < n)%Z.
Proof.
  unfold zrange. rewrite in_map_iff. split.
  - intros (k & <- & Hk). apply in_seq in Hk. lia.
  - intros H. exists (Z.to_nat x). split; [lia |].
    apply in_seq. lia.
Qed.

Lemma entry_zeros_mat (r c n m : nat) : entry r c (zeros_mat n m) = 0.
Proof.
  unfold entry, zeros_mat, zeros.
  destruct (Nat.lt_ge_cases r n) as [Hr | Hr].
  - rewrite nth_repeat_lt by exact Hr.
    destruct (Nat.lt_ge_cases c m) as [Hc | Hc].
    + apply nth_repeat_lt. exact Hc.
    + apply nth_overflow. rewrite repeat_length. exact Hc.
  - rewrite (nth_overflow (repeat _ _)) by (rewrite repeat_length; exact Hr).
    destruct c; reflexivity.
Qed.

End UpdateFacts.

Section ConvLinear.

Import VerifierSrc.

Lemma floordiv_pos (a b q : Z) :
  (0 < b)%Z -> floordiv a b = Return q ->
  forall x, (x <= q <-> b * x <= a)%Z.
Proof.
  intros Hb. unfold floordiv.
  destruct (Z.eqb_spec b 0); [lia |].
  intros H; injection H as <-. intros x. split; intros Hx.
  - pose proof (Z.mul_div_le a b Hb). nia.
  - apply Z.div_le_lower_bound; [exact Hb | exact Hx].
Qed.

Lemma zero_Linear_shape (E : Imports) (i o : Z) (fc : Matrix * Vector) :
  zero_Linear E i o = Return fc ->
  fc_shape (Z.to_nat o) (Z.to_nat i) fc
  /\ (forall r c, entry r c (fst fc) = 0).
Proof.
  unfold zero_Linear. destruct (_ || _)%bool; [discriminate |].
  intros H; injection H as <-. unfold fc_shape. cbn [fst snd]. split.
  - split; [| split].
    + apply repeat_length.
    + apply Forall_forall. intros r Hr. apply repeat_spec in Hr. subst r.
      apply repeat_length.
    + rewrite length_map, length_seq. reflexivity.
  - intros r c. apply entry_zeros_mat.
Qed.

Lemma fc_shape_bias rows cols i v fc :
  fc_shape rows cols fc -> fc_shape rows cols (fst fc, update i v (snd fc)).
Proof.
  intros (H1 & H2 & H3). repeat split; cbn [fst snd]; auto.
  rewrite update_length. exact H3.
Qed.

Lemma fc_shape_weight rows cols i j v fc :
  fc_shape rows cols fc ->
  fc_shape rows cols (update2 i j v (fst fc), snd fc).
Proof.
  intros (H1 & H2 & H3). repeat split; cbn [fst snd]; auto.
  - rewrite update2_length. exact H1.
  - apply update2_rows. exact H2.
Qed.

End ConvLinear.

(** Walks the six nested loops of [conv_linear] with an invariant: the
    invariant is kept by the assignment to [fc.bias] ([bias_step]) and by
    the assignment to [fc.weight] ([weight_step]). *)
Ltac conv_loops P bias_step weight_step :=
  repeat (cbv zeta; apply (fold_left_inv _ P); cbv beta;
          [first [assumption | apply bias_step; assumption] | intros]);
  match goal with
  | |- context [if ?g then _ else _] =>
      let Hg := fresh "Hg" in
      assert (Hg : g = true \/ g = false) by (destruct g; auto);
      destruct Hg as [Hg | Hg]; rewrite Hg;
      [apply weight_step; assumption | assumption]
  end.

(** One loop of [conv_linear] that passes the index [b0]: the property [R],
    which every assignment keeps, is reached in the iteration at [b0]; what
    is left to show is that the body of that iteration reaches it from a
    state [fc] of the right shape. *)
Ltac conv_reach P R b0 Hin bias_step weight_step :=
  cbv zeta;
  apply (fold_left_reach _ P R _ b0);
  [ exact Hin
  | assumption
  | intros; conv_loops P fc_shape_bias fc_shape_weight
  | intros; conv_loops R bias_step weight_step
  | let fc := fresh "fc" in
    let Hfc := fresh "Hshape" in
    intros fc Hfc ].

(** [conv_linear] returned: what is left is the loops over the fresh
    layer [fc0], of the shape [Hshape] and with a zero matrix [Hzero]. *)
Ltac conv_linear_returned Hconv Hout fc0 Hshape Hzero :=
  unfold VerifierSrc.conv_linear in Hconv; rewrite Hout in Hconv;
  cbn [rbind fst snd] in Hconv;
  let Hfc := fresh "Hfc" in
  destruct (VerifierSrc.zero_Linear _ _ _) as [fc0|] eqn:Hfc;
  cbn [rbind] in Hconv; [| discriminate Hconv];
  injection Hconv as Hconv;
  apply zero_Linear_shape in Hfc; destruct Hfc as [Hshape Hzero].

Section ConvLinearEntries.

Import VerifierSrc.

Variables (conv : Conv2d_attrs) (w h o0 o1 : Z).

Local Abbreviation in_shape := [in_channels conv; w; h].
Local Abbreviation out_shape := [out_channels conv; o0; o1].
Local Abbreviation rows := (Z.to_nat (prod out_shape)).
Local Abbreviation cols := (Z.to_nat (prod in_shape)).

Lemma out_loc_range (c1 x_0 y_0 : Z) :
  In c1 (zrange (out_channels conv)) ->
  In x_0 (zrange o0) -> In y_0 (zrange o1) ->
  Forall2 (fun t s => (0 <= t < s)%Z) [c1; x_0; y_0] out_shape.
Proof.
  rewrite !In_zrange. intros. repeat constructor; lia.
Qed.

Lemma in_loc_range (c2 x y : Z) :
  In c2 (zrange (in_channels conv)) ->
  ((0 <=? x) && (x <? w) && (0 <=? y) && (y <? h))%Z%bool = true ->
  Forall2 (fun t s => (0 <= t < s)%Z) [c2; x; y] in_shape.
Proof.
  rewrite In_zrange. intros Hc Hg.
  apply andb_prop in Hg as [Hg Hy2]. apply andb_prop in Hg as [Hg Hy1].
  apply andb_prop in Hg as [Hx1 Hx2].
  repeat constructor; lia.
Qed.

Lemma loc_nat_lt (tup shape : list Z) :
  Forall2 (fun t s => (0 <= t < s)%Z) tup shape ->
  (Z.to_nat (encode_loc tup shape) < Z.to_nat (prod shape))%nat.
Proof. intros H. apply encode_loc_range in H. lia. Qed.

Lemma loc_nat_inj (tup1 tup2 shape : list Z) :
  Forall2 (fun t s => (0 <= t < s)%Z) tup1 shape ->
  Forall2 (fun t s => (0 <= t < s)%Z) tup2 shape ->
  Z.to_nat (encode_loc tup1 shape) = Z.to_nat (encode_loc tup2 shape) ->
  tup1 = tup2.
Proof.
  intros H1 H2 He. apply (encode_loc_inj _ _ _ H1 H2).
  apply encode_loc_range in H1, H2. lia.
Qed.

Section Bias.

Variables (c1 x_0 y_0 : Z).
Hypothesis Hc1 : In c1 (zrange (out_channels conv)).
Hypothesis Hx0 : In x_0 (zrange o0).
Hypothesis Hy0 : In y_0 (zrange o1).

Local Abbreviation bias_set fc :=
  (fc_shape rows cols fc
   /\ nth (Z.to_nat (encode_loc [c1; x_0; y_0] out_shape)) (snd fc) 0
      = nth (Z.to_nat c1) (conv_bias conv) 0).

Lemma bias_set_first (fc : Matrix * Vector) :
  fc_shape rows cols fc ->
  bias_set (fst fc,
            update (Z.to_nat (encode_loc [c1; x_0; y_0] out_shape))
                   (nth (Z.to_nat c1) (conv_bias conv) 0) (snd fc)).
Proof.
  intros Hs. split; [apply fc_shape_bias; exact Hs |]. cbn [snd].
  apply nth_update_same. destruct Hs as (_ & _ & ->).
  apply loc_nat_lt, out_loc_range; assumption.
Qed.

Lemma bias_set_bias (fc : Matrix * Vector) (c1' x_0' y_0' : Z) :
  In c1' (zrange (out_channels conv)) ->
  In x_0' (zrange o0) -> In y_0' (zrange o1) ->
  bias_set fc ->
  bias_set (fst fc,
            update (Z.to_nat (encode_loc [c1'; x_0'; y_0'] out_shape))
                   (nth (Z.to_nat c1') (conv_bias conv) 0) (snd fc)).
Proof.
  intros H1 H2 H3 [Hs Hb]. split; [apply fc_shape_bias; exact Hs |].
  cbn [snd].
  destruct (Nat.eq_dec (Z.to_nat (encode_loc [c1; x_0; y_0] out_shape))
                       (Z.to_nat (encode_loc [c1'; x_0'; y_0'] out_shape)))
    as [He | He].
  - pose proof He as He'.
    apply loc_nat_inj in He'; try (apply out_loc_range; assumption).
    injection He' as <- <- <-.
    apply nth_update_same. destruct Hs as (_ & _ & ->).
    apply loc_nat_lt, out_loc_range; assumption.
  - rewrite nth_update_other by exact He. exact Hb.
Qed.

Lemma bias_set_weight (fc : Matrix * Vector) (i j : nat) (v : Q) :
  bias_set fc -> bias_set (update2 i j v (fst fc), snd fc).
Proof.
  intros [Hs Hb]. split; [apply fc_shape_weight; exact Hs | exact Hb].
Qed.

Lemma conv_bias_reached (E : Imports) (weight : Matrix) (bias : Vector) :
  conv_linear E conv (w, h) = Return (weight, bias) ->
  output_size conv (w, h) = Return (o0, o1) ->
  (0 < fst (kernel_size conv))%Z -> (0 < snd (kernel_size conv))%Z ->
  bias_set (weight, bias).
Proof.
  intros Hconv Hout Hk0 Hk1.
  conv_linear_returned Hconv Hout fc0 Hshape Hzero.
  assert (Hxd : In 0%Z (zrange (fst (kernel_size conv))))
    by (apply In_zrange; lia).
  assert (Hyd : In 0%Z (zrange (snd (kernel_size conv))))
    by (apply In_zrange; lia).
  rewrite <- Hconv.
  pose (P := fc_shape rows cols).
  pose (R := fun fc : Matrix * Vector => bias_set fc).
  conv_reach P R x_0 Hx0 bias_set_bias bias_set_weight.
  conv_reach P R y_0 Hy0 bias_set_bias bias_set_weight.
  conv_reach P R 0%Z Hxd bias_set_bias bias_set_weight.
  conv_reach P R 0%Z Hyd bias_set_bias bias_set_weight.
  conv_reach P R c1 Hc1 bias_set_bias bias_set_weight.
  cbv zeta. apply (fold_left_inv _ R).
  - apply bias_set_first. assumption.
  - intros a b Hb Ha.
    destruct (_ && _)%bool; [apply bias_set_weight |]; exact Ha.
Qed.

End Bias.

End ConvLinearEntries.

Section ConvLinearWeights.

Import VerifierSrc.

Variables (conv : Conv2d_attrs) (w h o0 o1 : Z).

Local Abbreviation in_shape := [in_channels conv; w; h].
Local Abbreviation out_shape := [out_channels conv; o0; o1].
Local Abbreviation rows := (Z.to_nat (prod out_shape)).
Local Abbreviation cols := (Z.to_nat (prod in_shape)).
Local Abbreviation x_00 x_0 := (fst (stride conv) * x_0 - fst (padding conv))%Z.
Local Abbreviation y_00 y_0 := (snd (stride conv) * y_0 - snd (padding conv))%Z.
Local Abbreviation in_image x y :=
  ((0 <=? x) && (x <? w) && (0 <=? y) && (y <? h))%Z%bool.
Local Abbreviation kernel_weight c1 c2 xd yd :=
  (nth (Z.to_nat yd)
       (nth (Z.to_nat xd)
            (nth (Z.to_nat c2) (nth (Z.to_nat c1) (conv_weight conv) []) [])
            [])
       0).
Local Abbreviation row_of c1 x_0 y_0 :=
  (Z.to_nat (encode_loc [c1; x_0; y_0] out_shape)).
Local Abbreviation col_of c2 x y :=
  (Z.to_nat (encode_loc [c2; x; y] in_shape)).

Lemma entry_in_range (fc : Matrix * Vector) (r c : nat) (v : Q) :
  fc_shape rows cols fc -> (r < rows)%nat -> (c < cols)%nat ->
  entry r c (update2 r c v (fst fc)) = v.
Proof.
  intros (H1 & H2 & _) Hr Hc. apply entry_update2_same.
  - rewrite H1. exact Hr.
  - rewrite Forall_forall in H2. rewrite H2; [exact Hc |].
    apply nth_In. rewrite H1. exact Hr.
Qed.

Section Entry.

Variables (c1 c2 x_0 y_0 xd yd : Z).
Hypothesis Hc1 : In c1 (zrange (out_channels conv)).
Hypothesis Hc2 : In c2 (zrange (in_channels conv)).
Hypothesis Hx0 : In x_0 (zrange o0).
Hypothesis Hy0 : In y_0 (zrange o1).
Hypothesis Hxd : In xd (zrange (fst (kernel_size conv))).
Hypothesis Hyd : In yd (zrange (snd (kernel_size conv))).
Hypothesis Himg : in_image (x_00 x_0 + xd)%Z (y_00 y_0 + yd)%Z = true.

Local Abbreviation weight_set fc :=
  (fc_shape rows cols fc
   /\ entry (row_of c1 x_0 y_0)
            (col_of c2 (x_00 x_0 + xd)%Z (y_00 y_0 + yd)%Z) (fst fc)
      = kernel_weight c1 c2 xd yd).

Lemma weight_set_first (fc : Matrix * Vector) :
  fc_shape rows cols fc ->
  weight_set
    (update2 (row_of c1 x_0 y_0)
             (col_of c2 (x_00 x_0 + xd)%Z (y_00 y_0 + yd)%Z)
             (kernel_weight c1 c2 xd yd) (fst fc),
     snd fc).
Proof.
  intros Hs. split; [apply fc_shape_weight; exact Hs |]. cbn [fst].
  apply entry_in_range; [exact Hs | |].
  - apply loc_nat_lt, out_loc_range; assumption.
  - apply loc_nat_lt, in_loc_range; assumption.
Qed.

Lemma weight_set_bias (fc : Matrix * Vector) (i : nat) (v : Q) :
  weight_set fc -> weight_set (fst fc, update i v (snd fc)).
Proof.
  intros [Hs He]. split; [apply fc_shape_bias; exact Hs | exact He].
Qed.

Lemma weight_set_weight (fc : Matrix * Vector) (c1' c2' x_0' y_0' xd' yd' : Z) :
  In c1' (zrange (out_channels conv)) ->
  In c2' (zrange (in_channels conv)) ->
  In x_0' (zrange o0) -> In y_0' (zrange o1) ->
  in_image (x_00 x_0' + xd')%Z (y_00 y_0' + yd')%Z = true ->
  weight_set fc ->
  weight_set
    (update2 (row_of c1' x_0' y_0')
             (col_of c2' (x_00 x_0' + xd')%Z (y_00 y_0' + yd')%Z)
             (kernel_weight c1' c2' xd' yd') (fst fc),
     snd fc).
Proof.
  intros H1 H2 H3 H4 Hg [Hs He].
  split; [apply fc_shape_weight; exact Hs |]. cbn [fst].
  destruct (Nat.eq_dec (row_of c1 x_0 y_0) (row_of c1' x_0' y_0'))
    as [Er | Er];
  [destruct (Nat.eq_dec
               (col_of c2 (x_00 x_0 + xd)%Z (y_00 y_0 + yd)%Z)
               (col_of c2' (x_00 x_0' + xd')%Z (y_00 y_0' + yd')%Z))
     as [Ec | Ec] |].
  - pose proof Er as Er'. pose proof Ec as Ec'.
    apply loc_nat_inj in Er'; try (apply out_loc_range; assumption).
    apply loc_nat_inj in Ec'; try (apply in_loc_range; assumption).
    injection Er' as <- <- <-. injection Ec' as <- Ex Ey.
    assert (xd' = xd) by lia. assert (yd' = yd) by lia. subst xd' yd'.
    apply entry_in_range; [exact Hs | |].
    + apply loc_nat_lt, out_loc_range; assumption.
    + apply loc_nat_lt, in_loc_range; assumption.
  - rewrite entry_update2_other by (right; exact Ec). exact He.
  - rewrite entry_update2_other by (left; exact Er). exact He.
Qed.

Lemma conv_weight_reached (E : Imports) (weight : Matrix) (bias : Vector) :
  conv_linear E conv (w, h) = Return (weight, bias) ->
  output_size conv (w, h) = Return (o0, o1) ->
  weight_set (weight, bias).
Proof.
  intros Hconv Hout.
  conv_linear_returned Hconv Hout fc0 Hshape Hzero.
  rewrite <- Hconv.
  pose (P := fc_shape rows cols).
  pose (R := fun fc : Matrix * Vector => weight_set fc).
  conv_reach P R x_0 Hx0 weight_set_bias weight_set_weight.
  conv_reach P R y_0 Hy0 weight_set_bias weight_set_weight.
  conv_reach P R xd Hxd weight_set_bias weight_set_weight.
  conv_reach P R yd Hyd weight_set_bias weight_set_weight.
  conv_reach P R c1 Hc1 weight_set_bias weight_set_weight.
  cbv zeta.
  apply (fold_left_reach _ P R _ c2);
    [ exact Hc2
    | apply fc_shape_bias; assumption
    | intros; conv_loops P fc_shape_bias fc_shape_weight
    | intros; conv_loops R weight_set_bias weight_set_weight
    | intros fc' Hfc' ].
  rewrite Himg. apply weight_set_first. exact Hfc'.
Qed.

End Entry.

Local Abbreviation sparse fc := (conv_sparse conv w h o0 o1 (fst fc)).

Lemma sparse_bias (fc : Matrix * Vector) (i : nat) (v : Q) :
  sparse fc -> sparse (fst fc, update i v (snd fc)).
Proof. intros H. exact H. Qed.

Lemma sparse_weight (fc : Matrix * Vector) (c1 c2 x_0 y_0 xd yd : Z) :
  In c1 (zrange (out_channels conv)) ->
  In c2 (zrange (in_channels conv)) ->
  In x_0 (zrange o0) -> In y_0 (zrange o1) ->
  In xd (zrange (fst (kernel_size conv))) ->
  In yd (zrange (snd (kernel_size conv))) ->
  in_image (x_00 x_0 + xd)%Z (y_00 y_0 + yd)%Z = true ->
  sparse fc ->
  sparse
    (update2 (row_of c1 x_0 y_0)
             (col_of c2 (x_00 x_0 + xd)%Z (y_00 y_0 + yd)%Z)
             (kernel_weight c1 c2 xd yd) (fst fc),
     snd fc).
Proof.
  rewrite !In_zrange. intros H1 H2 H3 H4 H5 H6 Hg Hs r c. cbn [fst].
  destruct (entry_update2_cases r c (row_of c1 x_0 y_0)
              (col_of c2 (x_00 x_0 + xd)%Z (y_00 y_0 + yd)%Z)
              (kernel_weight c1 c2 xd yd) (fst fc)) as [(-> & -> & He) | He].
  - right. exists c1, c2, x_0, y_0, xd, yd. cbv zeta.
    apply andb_prop in Hg as [Hg Hy2]. apply andb_prop in Hg as [Hg Hy1].
    apply andb_prop in Hg as [Hx1 Hx2].
    repeat split; try assumption; try lia.
  - rewrite He. exact (Hs r c).
Qed.

Lemma conv_sparse_invariant (E : Imports) (weight : Matrix) (bias : Vector) :
  conv_linear E conv (w, h) = Return (weight, bias) ->
  output_size conv (w, h) = Return (o0, o1) ->
  conv_sparse conv w h o0 o1 weight.
Proof.
  intros Hconv Hout.
  conv_linear_returned Hconv Hout fc0 Hshape Hzero.
  assert (H0 : sparse fc0) by (intros r c; left; apply Hzero).
  change (sparse (weight, bias)).
  rewrite <- Hconv. clear Hconv Hzero.
  conv_loops (fun fc : Matrix * Vector => sparse fc)
             sparse_bias sparse_weight.
Qed.

End ConvLinearWeights.

(** X1.  [encode_loc] is the row-major offset: for an index tuple as long
    as the shape, the first index counts blocks of the size of the
    remaining shape, and the remaining indices are encoded in the
    remaining shape. *)
Theorem encode_loc_row_major (t s : Z) (tup shape : list Z) :
  length tup = length shape ->
  VerifierSrc.encode_loc (t :: tup) (s :: shape)
  = (t * VerifierSrc.prod shape + VerifierSrc.encode_loc tup shape)%Z.
Proof.
  intros H. rewrite (encode_loc_cons t s tup shape H). lia.
Qed.

Lemma encode_loc_row_major_witness :
  VerifierSrc.encode_loc [1; 2; 3]%Z [2; 3; 4]%Z
  = (1 * VerifierSrc.prod [3; 4]%Z
     + VerifierSrc.encode_loc [2; 3]%Z [3; 4]%Z)%Z.
Proof.
  apply (encode_loc_row_major 1 2 [2; 3]%Z [3; 4]%Z). reflexivity.
Defined.

(** X2.  For indices that lie within the shape, [encode_loc] lies within
    [range(prod(shape))]: the assignments of [conv_linear] never index out
    of the tensors. *)
Theorem encode_loc_in_range (tup shape : list Z) :
  Forall2 (fun t s => (0 <= t < s)%Z) tup shape ->
  (0 <= VerifierSrc.encode_loc tup shape < VerifierSrc.prod shape)%Z.
Proof. apply encode_loc_range. Qed.

Lemma encode_loc_in_range_witness :
  (0 <= VerifierSrc.encode_loc [1; 2; 3]%Z [2; 3; 4]%Z
   < VerifierSrc.prod [2; 3; 4]%Z)%Z.
Proof.
  apply (encode_loc_in_range [1; 2; 3]%Z [2; 3; 4]%Z).
  repeat constructor; lia.
Defined.

(** X3.  Different index tuples within the shape have different
    offsets. *)
Theorem encode_loc_injective (tup1 tup2 shape : list Z) :
  Forall2 (fun t s => (0 <= t < s)%Z) tup1 shape ->
  Forall2 (fun t s => (0 <= t < s)%Z) tup2 shape ->
  tup1 <> tup2 ->
  VerifierSrc.encode_loc tup1 shape <> VerifierSrc.encode_loc tup2 shape.
Proof.
  intros H1 H2 Hne He. apply Hne. exact (encode_loc_inj _ _ _ H1 H2 He).
Qed.

Lemma encode_loc_injective_witness :
  VerifierSrc.encode_loc [0; 1; 2]%Z [2; 3; 4]%Z
  <> VerifierSrc.encode_loc [1; 0; 2]%Z [2; 3; 4]%Z.
Proof.
  apply (encode_loc_injective [0; 1; 2]%Z [1; 0; 2]%Z [2; 3; 4]%Z).
  - repeat constructor; lia.
  - repeat constructor; lia.
  - discriminate.
Defined.

(** X4.  With positive strides, [output_size] counts the kernel windows
    that fit into the padded image: position [x_0] is below the output
    width exactly when the window that starts at [stride * x_0] ends
    within [w + 2 * padding], and likewise for the height. *)
Theorem output_size_counts_windows (conv : Conv2d_attrs) (w h o0 o1 : Z) :
  (0 < fst (stride conv))%Z -> (0 < snd (stride conv))%Z ->
  VerifierSrc.output_size conv (w, h) = Return (o0, o1) ->
  forall x_0 y_0 : Z,
    (x_0 < o0 <->
     fst (stride conv) * x_0 + fst (kernel_size conv)
     <= w + 2 * fst (padding conv))%Z
    /\ (y_0 < o1 <->
        snd (stride conv) * y_0 + snd (kernel_size conv)
        <= h + 2 * snd (padding conv))%Z.
Proof.
  intros Hs0 Hs1. unfold VerifierSrc.output_size. cbn [fst snd].
  destruct (VerifierSrc.floordiv _ (fst (stride conv))) as [q0|] eqn:E0;
    cbn [rbind]; [| discriminate].
  destruct (VerifierSrc.floordiv _ (snd (stride conv))) as [q1|] eqn:E1;
    cbn [rbind]; [| discriminate].
  intros H; injection H as <- <-. intros x_0 y_0.
  pose proof (floordiv_pos _ _ _ Hs0 E0 x_0).
  pose proof (floordiv_pos _ _ _ Hs1 E1 y_0).
  lia.
Qed.

Lemma output_size_counts_windows_witness :
  (1 < 2 <-> 2 * 1 + 2 <= 3 + 2 * 1)%Z
  /\ (2 < 2 <-> 2 * 2 + 2 <= 3 + 2 * 1)%Z.
Proof.
  exact (output_size_counts_windows MoreExamples.small_conv 3 3 2 2
           ltac:(reflexivity) ltac:(reflexivity) eq_refl 1%Z 2%Z).
Defined.

(** X5.  The dense layer of [conv_linear] has one row and one bias entry
    per output location, [out_channels * o0 * o1] of them, and one column
    per input location, [in_channels * w * h]. *)
Theorem conv_linear_shape (E : Imports) (conv : Conv2d_attrs) (w h : Z)
    (weight : Matrix) (bias : Vector) :
  VerifierSrc.conv_linear E conv (w, h) = Return (weight, bias) ->
  exists o0 o1,
    VerifierSrc.output_size conv (w, h) = Return (o0, o1)
    /\ length weight = Z.to_nat (out_channels conv * o0 * o1)
    /\ length bias = Z.to_nat (out_channels conv * o0 * o1)
    /\ Forall (fun r => length r = Z.to_nat (in_channels conv * w * h))
              weight.
Proof.
  intros Hconv.
  destruct (VerifierSrc.output_size conv (w, h)) as [[o0 o1]|] eqn:Hout;
    [| unfold VerifierSrc.conv_linear in Hconv; rewrite Hout in Hconv;
       discriminate Hconv].
  conv_linear_returned Hconv Hout fc0 Hshape Hzero.
  exists o0, o1. split; [reflexivity |].
  replace (out_channels conv * o0 * o1)%Z
    with (VerifierSrc.prod [out_channels conv; o0; o1])
    by (cbn; lia).
  replace (in_channels conv * w * h)%Z
    with (VerifierSrc.prod [in_channels conv; w; h])
    by (cbn; lia).
  pose (P := fc_shape
               (Z.to_nat (VerifierSrc.prod [out_channels conv; o0; o1]))
               (Z.to_nat (VerifierSrc.prod [in_channels conv; w; h]))).
  enough (P (weight, bias)) as (H1 & H2 & H3) by auto.
  rewrite <- Hconv.
  conv_loops P fc_shape_bias fc_shape_weight.
Qed.

Lemma conv_linear_shape_witness :
  exists o0 o1,
    VerifierSrc.output_size MoreExamples.small_conv (3, 3)%Z = Return (o0, o1)
    /\ length (fst MoreExamples.small_fc) = Z.to_nat (2 * o0 * o1)
    /\ length (snd MoreExamples.small_fc) = Z.to_nat (2 * o0 * o1)
    /\ Forall (fun r => length r = Z.to_nat (1 * 3 * 3))
              (fst MoreExamples.small_fc).
Proof.
  apply (conv_linear_shape Examples.plain_imports MoreExamples.small_conv
                           3 3 (fst MoreExamples.small_fc)
                           (snd MoreExamples.small_fc)).
  vm_compute. reflexivity.
Defined.

(** X6.  When the kernel is not empty, the bias entry of the output
    location [(c1, x_0, y_0)] is the bias of the convolution for channel
    [c1]. *)
Theorem conv_linear_bias (E : Imports) (conv : Conv2d_attrs)
    (w h o0 o1 : Z) (weight : Matrix) (bias : Vector) (c1 x_0 y_0 : Z) :
  VerifierSrc.conv_linear E conv (w, h) = Return (weight, bias) ->
  VerifierSrc.output_size conv (w, h) = Return (o0, o1) ->
  (0 < fst (kernel_size conv))%Z -> (0 < snd (kernel_size conv))%Z ->
  (0 <= c1 < out_channels conv)%Z ->
  (0 <= x_0 < o0)%Z -> (0 <= y_0 < o1)%Z ->
  nth (Z.to_nat (VerifierSrc.encode_loc [c1; x_0; y_0]
                   [out_channels conv; o0; o1]))
      bias 0
  = nth (Z.to_nat c1) (conv_bias conv) 0.
Proof.
  intros Hconv Hout Hk0 Hk1 Hc1 Hx0 Hy0.
  apply In_zrange in Hc1, Hx0, Hy0.
  exact (proj2 (conv_bias_reached conv w h o0 o1 c1 x_0 y_0 Hc1 Hx0 Hy0
                  E weight bias Hconv Hout Hk0 Hk1)).
Qed.

Lemma conv_linear_bias_witness :
  nth (Z.to_nat (VerifierSrc.encode_loc [1; 0; 1]%Z [2; 2; 2]%Z))
      (snd MoreExamples.small_fc) 0
  = nth (Z.to_nat 1) (conv_bias MoreExamples.small_conv) 0.
Proof.
  apply (conv_linear_bias Examples.plain_imports MoreExamples.small_conv
           3 3 2 2 (fst MoreExamples.small_fc) (snd MoreExamples.small_fc)
           1 0 1);
    first [lia | vm_compute; reflexivity | cbn; lia].
Defined.

(** X7.  For an output location [(c1, x_0, y_0)], an input channel [c2]
    and a kernel offset [(xd, yd)] whose position
    [(stride * x_0 - padding + xd, stride * y_0 - padding + yd)] lies
    inside the image, the entry of the matrix at the row of the output
    location and the column of that input position is the kernel weight
    [conv.weight[c1, c2, xd, yd]]. *)
Theorem conv_linear_weight (E : Imports) (conv : Conv2d_attrs)
    (w h o0 o1 : Z) (weight : Matrix) (bias : Vector)
    (c1 c2 x_0 y_0 xd yd : Z) :
  let x := (fst (stride conv) * x_0 - fst (padding conv) + xd)%Z in
  let y := (snd (stride conv) * y_0 - snd (padding conv) + yd)%Z in
  VerifierSrc.conv_linear E conv (w, h) = Return (weight, bias) ->
  VerifierSrc.output_size conv (w, h) = Return (o0, o1) ->
  (0 <= c1 < out_channels conv)%Z -> (0 <= c2 < in_channels conv)%Z ->
  (0 <= x_0 < o0)%Z -> (0 <= y_0 < o1)%Z ->
  (0 <= xd < fst (kernel_size conv))%Z ->
  (0 <= yd < snd (kernel_size conv))%Z ->
  (0 <= x < w)%Z -> (0 <= y < h)%Z ->
  entry (Z.to_nat (VerifierSrc.encode_loc [c1; x_0; y_0]
                     [out_channels conv; o0; o1]))
        (Z.to_nat (VerifierSrc.encode_loc [c2; x; y]
                     [in_channels conv; w; h]))
        weight
  = nth (Z.to_nat yd)
        (nth (Z.to_nat xd)
             (nth (Z.to_nat c2) (nth (Z.to_nat c1) (conv_weight conv) []) [])
             [])
        0.
Proof.
  intros x y Hconv Hout Hc1 Hc2 Hx0 Hy0 Hxd Hyd Hx Hy.
  apply In_zrange in Hc1, Hc2, Hx0, Hy0, Hxd, Hyd.
  assert (Himg : ((0 <=? x) && (x <? w) && (0 <=? y) && (y <? h))%Z%bool
                 = true).
  { destruct (Z.leb_spec 0 x), (Z.ltb_spec x w), (Z.leb_spec 0 y),
      (Z.ltb_spec y h); lia || reflexivity. }
  exact (proj2 (conv_weight_reached conv w h o0 o1 c1 c2 x_0 y_0 xd yd
                  Hc1 Hc2 Hx0 Hy0 Hxd Hyd Himg E weight bias Hconv Hout)).
Qed.

Lemma conv_linear_weight_witness :
  entry (Z.to_nat (VerifierSrc.encode_loc [1; 1; 0]%Z [2; 2; 2]%Z))
        (Z.to_nat (VerifierSrc.encode_loc
                     [0; 2 * 1 - 1 + 1; 2 * 0 - 1 + 1]%Z [1; 3; 3]%Z))
        (fst MoreExamples.small_fc)
  = 8.
Proof.
  apply (conv_linear_weight Examples.plain_imports MoreExamples.small_conv
           3 3 2 2 (fst MoreExamples.small_fc) (snd MoreExamples.small_fc)
           1 0 1 0 1 1);
    first [lia | vm_compute; reflexivity | cbn; lia].
Defined.

(** X8.  Every other entry of the matrix is zero: an entry is zero or the
    kernel weight of a window position inside the image (positions in the
    padding contribute nothing). *)
Theorem conv_linear_sparse (E : Imports) (conv : Conv2d_attrs)
    (w h o0 o1 : Z) (weight : Matrix) (bias : Vector) (r c : nat) :
  VerifierSrc.conv_linear E conv (w, h) = Return (weight, bias) ->
  VerifierSrc.output_size conv (w, h) = Return (o0, o1) ->
  entry r c weight = 0
  \/ kernel_entry conv w h o0 o1 r c (entry r c weight).
Proof.
  intros Hconv Hout.
  exact (conv_sparse_invariant conv w h o0 o1 E weight bias Hconv Hout r c).
Qed.

Lemma conv_linear_sparse_witness :
  entry 0 1 (fst MoreExamples.small_fc) = 0
  \/ kernel_entry MoreExamples.small_conv 3 3 2 2 0 1
                  (entry 0 1 (fst MoreExamples.small_fc)).
Proof.
  apply (conv_linear_sparse Examples.plain_imports MoreExamples.small_conv
           3 3 2 2 (fst MoreExamples.small_fc) (snd MoreExamples.small_fc)
           0 1);
    vm_compute; reflexivity.
Defined.

(* --------------------------------------------------------------------- *)
(** ** More on the construction of the chain *)

Section SrcConstruction.

Variables (E : Imports) (sizes : list (Z * Z)).

Lemma src_add_layer_state (l : Layer) (b b' : VerifierSrc.Build) :
  VerifierSrc.add_layer E sizes l b = Return b' ->
  VerifierSrc.location b'
  = (VerifierSrc.location b + (if is_conv l then 1 else 0))%nat
  /\ VerifierSrc.flattened b'
     = (VerifierSrc.flattened b || is_conv l)%bool.
Proof.
  destruct l as [| weight bias | | s | conv | name o];
    cbn [VerifierSrc.add_layer is_conv].
  - destruct (VerifierSrc.flattened b) eqn:Hf; cbn [negb]; [discriminate |].
    intros H; injection H as <-. cbn. rewrite Hf. split; [lia | reflexivity].
  - intros H; injection H as <-. cbn. rewrite orb_false_r.
    split; [lia | reflexivity].
  - intros H; injection H as <-. cbn. rewrite orb_false_r.
    split; [lia | reflexivity].
  - intros H; injection H as <-. cbn. rewrite orb_false_r.
    split; [lia | reflexivity].
  - destruct (nth_error sizes _) as [wh|]; [| discriminate].
    destruct (VerifierSrc.conv_linear E conv wh) as [fc|]; cbn [rbind];
      [| discriminate].
    intros H; injection H as <-.
    destruct (VerifierSrc.flattened b); cbn; split; lia || reflexivity.
  - discriminate.
Qed.

Lemma src_add_layers_state (ls : list Layer) (b b' : VerifierSrc.Build) :
  VerifierSrc.add_layers E sizes ls b = Return b' ->
  VerifierSrc.location b' = (VerifierSrc.location b + count_conv ls)%nat
  /\ VerifierSrc.flattened b'
     = (VerifierSrc.flattened b || existsb is_conv ls)%bool.
Proof.
  revert b; induction ls as [|l ls IH]; intros b; cbn [VerifierSrc.add_layers].
  - intros H; injection H as <-. cbn. rewrite orb_false_r.
    split; [lia | reflexivity].
  - destruct (VerifierSrc.add_layer E sizes l b) as [b1|] eqn:H1;
      cbn [rbind]; [| discriminate].
    intros H. apply src_add_layer_state in H1. destruct H1 as [Hl Hf].
    apply IH in H. destruct H as [Hl' Hf'].
    rewrite Hl', Hf', Hl, Hf. unfold count_conv. cbn [filter existsb].
    destruct (is_conv l); cbn [length]; split; try lia;
      rewrite <- ?orb_assoc; reflexivity.
Qed.

End SrcConstruction.

Lemma input_sizes_length (net : list Layer) (wh : Z * Z)
      (sizes : list (Z * Z)) :
  VerifierSrc.input_sizes net wh = Return sizes ->
  length sizes = S (leading_convs net).
Proof.
  revert wh sizes; induction net as [|l net IH]; intros wh sizes;
    cbn [VerifierSrc.input_sizes leading_convs].
  - intros H; injection H as <-. reflexivity.
  - destruct l; try (intros H; injection H as <-; reflexivity).
    destruct (VerifierSrc.output_size conv wh) as [wh'|]; cbn [rbind];
      [| discriminate].
    destruct (VerifierSrc.input_sizes net wh') as [s|] eqn:Hs; cbn [rbind];
      [| discriminate].
    intros H; injection H as <-. cbn [length]. f_equal. eapply IH. exact Hs.
Qed.

(** X9.  In [src/src/verifier.py] a [Flatten] layer that comes after a
    [Conv2d] layer is rejected: the convolution has set [flattened], the
    test [isinstance(layer, Flatten) and not flattened] fails, and the
    layer falls through to the last branch, which raises
    "Unknown layer type Flatten". *)
Theorem src_flatten_after_conv
    (E : Imports) (pre post : list Layer) (inputs : Inputs) (eps : Q)
    (t c fuel : nat) (input_size : list (Z * Z)) (b : VerifierSrc.Build)
    (early_stopping : bool) :
  let net := pre ++ Flatten :: post in
  existsb is_conv pre = true ->
  n_classes_of net = Return c ->
  (t < c)%nat ->
  VerifierSrc.input_sizes net (shape_m2 inputs, shape_m1 inputs)
  = Return input_size ->
  VerifierSrc.add_layers E input_size pre
    (VerifierSrc.mkBuild [] (create_from_input (data inputs) eps) false 0)
  = Return b ->
  VerifierSrc.analyze fuel E net inputs eps t early_stopping
  = Some (Raise (Exception "Unknown layer type Flatten")).
Proof.
  intros net Hconv Hc Ht Hsizes Hpre.
  pose proof (final_layer_rows c t Ht) as Hfinal.
  unfold VerifierSrc.analyze, VerifierSrc.construct.
  rewrite Hsizes. cbn [rbind]. rewrite Hc. cbn [rbind].
  rewrite Hfinal. cbn [rbind].
  unfold net. rewrite <- app_assoc, src_add_layers_app.
  rewrite Hpre. cbn [rbind].
  apply src_add_layers_state in Hpre. destruct Hpre as [_ Hf].
  rewrite Hconv in Hf. cbn in Hf.
  cbn [app VerifierSrc.add_layers VerifierSrc.add_layer].
  rewrite Hf. reflexivity.
Qed.

Lemma src_flatten_after_conv_witness :
  VerifierSrc.analyze 0 Examples.plain_imports MoreExamples.conv_flatten_net
                      MoreExamples.image_3x3 (1 # 10) 0 false
  = Some (Raise (Exception "Unknown layer type Flatten")).
Proof.
  eapply (src_flatten_after_conv Examples.plain_imports
            [Conv2d MoreExamples.small_conv; ReLU]
            [Linear [[1; 0; 0; 0; 0; 0; 0; 0]; [0; 1; 0; 0; 0; 0; 0; 0]]
                    [0; 0]]
            MoreExamples.image_3x3 (1 # 10) 0 2 0).
  - reflexivity.
  - reflexivity.
  - lia.
  - vm_compute. reflexivity.
  - vm_compute. reflexivity.
Defined.

(** X10.  In [src/src/verifier.py] the list [input_size] has one entry
    more than the network has [Conv2d] layers at its front, and every
    [Conv2d] layer reads the entry at the number of [Conv2d] layers before
    it: a [Conv2d] layer with more [Conv2d] layers before it than there
    are at the front of the network raises [IndexError]. *)
Theorem src_conv_index_error
    (E : Imports) (pre post : list Layer) (conv : Conv2d_attrs)
    (inputs : Inputs) (eps : Q)
    (t c fuel : nat) (input_size : list (Z * Z)) (b : VerifierSrc.Build)
    (early_stopping : bool) :
  let net := pre ++ Conv2d conv :: post in
  (leading_convs net < count_conv pre)%nat ->
  n_classes_of net = Return c ->
  (t < c)%nat ->
  VerifierSrc.input_sizes net (shape_m2 inputs, shape_m1 inputs)
  = Return input_size ->
  VerifierSrc.add_layers E input_size pre
    (VerifierSrc.mkBuild [] (create_from_input (data inputs) eps) false 0)
  = Return b ->
  VerifierSrc.analyze fuel E net inputs eps t early_stopping
  = Some (Raise IndexError).
Proof.
  intros net Hcount Hc Ht Hsizes Hpre.
  pose proof (final_layer_rows c t Ht) as Hfinal.
  unfold VerifierSrc.analyze, VerifierSrc.construct.
  rewrite Hsizes. cbn [rbind]. rewrite Hc. cbn [rbind].
  rewrite Hfinal. cbn [rbind].
  unfold net. rewrite <- app_assoc, src_add_layers_app.
  rewrite Hpre. cbn [rbind].
  apply src_add_layers_state in Hpre. destruct Hpre as [Hl _].
  cbn [VerifierSrc.location] in Hl.
  apply input_sizes_length in Hsizes.
  cbn [app VerifierSrc.add_layers VerifierSrc.add_layer].
  assert (Hn : nth_error input_size (VerifierSrc.location b) = None).
  { apply nth_error_None. fold net in Hsizes. lia. }
  rewrite Hn. reflexivity.
Qed.

Lemma src_conv_index_error_witness :
  VerifierSrc.analyze 0 Examples.plain_imports MoreExamples.three_conv_net
                      MoreExamples.image_3x3 (1 # 10) 0 false
  = Some (Raise IndexError).
Proof.
  eapply (src_conv_index_error Examples.plain_imports
            [Conv2d MoreExamples.small_conv; ReLU;
             Conv2d MoreExamples.pointwise_conv; ReLU]
            [Linear [[1; 0; 0; 0]; [0; 1; 0; 0]] [0; 0]]
            MoreExamples.pointwise_conv
            MoreExamples.image_3x3 (1 # 10) 0 2 0).
  - vm_compute. lia.
  - reflexivity.
  - lia.
  - vm_compute. reflexivity.
  - vm_compute. reflexivity.
Defined.

Section Chain.

Variable E : Imports.

Lemma code_add_layers_returns (ls : list Layer) (d : nat)
      (b b' : VerifierCode.Build) :
  VerifierCode.add_layers E d ls b = Return b' -> Forall is_recognized ls.
Proof.
  revert d b; induction ls as [|l ls IH]; intros d b;
    cbn [VerifierCode.add_layers]; [constructor |].
  destruct (VerifierCode.add_layer E d l b) as [b1|] eqn:H1; cbn [rbind];
    [| discriminate].
  intros H. constructor; [| eapply IH; exact H].
  destruct l; try exact I. discriminate.
Qed.

Lemma src_add_layers_returns (sizes : list (Z * Z)) (ls : list Layer)
      (b b' : VerifierSrc.Build) :
  VerifierSrc.add_layers E sizes ls b = Return b' -> Forall is_recognized ls.
Proof.
  revert b; induction ls as [|l ls IH]; intros b;
    cbn [VerifierSrc.add_layers]; [constructor |].
  destruct (VerifierSrc.add_layer E sizes l b) as [b1|] eqn:H1; cbn [rbind];
    [| discriminate].
  intros H. constructor; [| eapply IH; exact H].
  destruct l; try exact I. discriminate.
Qed.

Lemma final_layer_returns (c t : nat) (l : Layer) :
  final_layer c t = Return l -> (t < c)%nat.
Proof.
  unfold final_layer. destruct (Nat.eqb c 0); [discriminate |].
  destruct (Nat.ltb_spec t c); [auto | discriminate].
Qed.

(** The kinds that the loop adds for the layers [ls], the first of which
    is at position [d]. *)
Lemma code_add_layers_kinds (ls : list Layer) (d : nat)
      (b b' : VerifierCode.Build) :
  VerifierCode.add_layers E d ls b = Return b' ->
  map kind_of (VerifierCode.transformer_layers b')
  = map kind_of (VerifierCode.transformer_layers b)
    ++ match d, ls with
       | O, Conv2d _ :: _ => [KFlatten]
       | _, _ => []
       end
    ++ flat_map kind_for ls.
Proof.
  revert d b; induction ls as [|l ls IH]; intros d b;
    cbn [VerifierCode.add_layers].
  - intros H; injection H as <-. destruct d; cbn; rewrite app_nil_r;
      reflexivity.
  - destruct (VerifierCode.add_layer E d l b) as [b1|] eqn:H1; cbn [rbind];
      [| discriminate].
    intros H. apply IH in H. rewrite H. clear H IH.
    cbn [flat_map].
    assert (Hb1 : map kind_of (VerifierCode.transformer_layers b1)
                  = map kind_of (VerifierCode.transformer_layers b)
                    ++ match d, l with
                       | O, Conv2d _ => [KFlatten]
                       | _, _ => []
                       end ++ kind_for l).
    { destruct l; cbn [VerifierCode.add_layer] in H1; try discriminate;
        injection H1 as <-; destruct d; cbn; rewrite ?map_app; cbn;
        rewrite <- ?app_assoc; reflexivity. }
    rewrite Hb1. rewrite <- !app_assoc. reflexivity.
Qed.

End Chain.

(** X11.  The construction of the chain can only succeed, in either
    [verifier.py], for a network that is not empty, whose last layer has
    an [out_features] attribute [c] with [true_label < c], and whose
    layers are all of the five known classes; for every other input
    [analyze] raises before the optimization starts. *)
Theorem construction_requirements
    (E : Imports) (net : list Layer) (inputs : Inputs) (eps : Q) (t : nat) :
  ((exists r, VerifierCode.construct E net inputs eps t = Return r)
   \/ (exists r, VerifierSrc.construct E net inputs eps t = Return r)) ->
  exists c,
    n_classes_of net = Return c /\ (t < c)%nat /\ Forall is_recognized net.
Proof.
  intros [[r H] | [r H]].
  - unfold VerifierCode.construct in H.
    destruct (n_classes_of net) as [c|]; cbn [rbind] in H; [| discriminate].
    destruct (final_layer c t) as [l|] eqn:Hf; cbn [rbind] in H;
      [| discriminate].
    destruct (VerifierCode.add_layers _ _ _ _) as [b|] eqn:Ha;
      cbn [rbind] in H; [| discriminate].
    exists c. split; [reflexivity |].
    split; [eapply final_layer_returns; exact Hf |].
    apply code_add_layers_returns in Ha.
    apply Forall_app in Ha. tauto.
  - unfold VerifierSrc.construct in H.
    destruct (VerifierSrc.input_sizes _ _) as [sizes|]; cbn [rbind] in H;
      [| discriminate].
    destruct (n_classes_of net) as [c|]; cbn [rbind] in H; [| discriminate].
    destruct (final_layer c t) as [l|] eqn:Hf; cbn [rbind] in H;
      [| discriminate].
    destruct (VerifierSrc.add_layers _ _ _ _) as [b|] eqn:Ha;
      cbn [rbind] in H; [| discriminate].
    exists c. split; [reflexivity |].
    split; [eapply final_layer_returns; exact Hf |].
    apply src_add_layers_returns in Ha.
    apply Forall_app in Ha. tauto.
Qed.

Lemma construction_requirements_witness :
  exists c,
    n_classes_of MoreExamples.tied_net = Return c /\ (0 < c)%nat
    /\ Forall is_recognized MoreExamples.tied_net.
Proof.
  apply (construction_requirements MoreExamples.running_imports
           MoreExamples.tied_net Examples.one_pixel (1 # 10) 0).
  left. eexists. vm_compute. reflexivity.
Defined.

(** X12.  In [src/code/verifier.py] the chain has exactly one
    transformer per layer of the network, of the class that belongs to the
    layer and in the order of the layers, followed by the
    [LinearTransformer] of the margin layer, and preceded by one
    [FlattenTransformer] when the first layer is a [Conv2d]. *)
Theorem code_chain_kinds
    (E : Imports) (net : list Layer) (inputs : Inputs) (eps : Q) (t : nat)
    (layers : list Layer) (b : VerifierCode.Build) :
  VerifierCode.construct E net inputs eps t = Return (layers, b) ->
  map kind_of (VerifierCode.transformer_layers b)
  = match net with
    | Conv2d _ :: _ => [KFlatten]
    | _ => []
    end ++ flat_map kind_for net ++ [KLinear]
  /\ length (flat_map kind_for net) = length net.
Proof.
  intros H. unfold VerifierCode.construct in H.
  destruct (n_classes_of net) as [c|] eqn:Hc; cbn [rbind] in H;
    [| discriminate].
  destruct (final_layer c t) as [l|] eqn:Hf; cbn [rbind] in H;
    [| discriminate].
  destruct (VerifierCode.add_layers _ _ _ _) as [b1|] eqn:Ha;
    cbn [rbind] in H; [| discriminate].
  injection H as <- <-.
  pose proof (code_add_layers_returns _ _ _ _ _ Ha) as Hrec.
  apply code_add_layers_kinds in Ha.
  cbn [VerifierCode.transformer_layers map app] in Ha.
  assert (Hl : kind_for l = [KLinear]).
  { pose proof (final_layer_returns _ _ _ Hf) as Ht.
    rewrite (final_layer_rows c t Ht) in Hf. injection Hf as <-.
    reflexivity. }
  split.
  - rewrite Ha, flat_map_app. cbn [flat_map]. rewrite Hl, app_nil_r.
    f_equal. destruct net as [|[] net]; try reflexivity.
    discriminate Hc.
  - apply Forall_app in Hrec. destruct Hrec as [Hrec _].
    clear -Hrec. induction Hrec as [|x ls Hx _ IH]; [reflexivity |].
    cbn [flat_map]. rewrite length_app, IH.
    destruct x; try reflexivity. contradiction.
Qed.

Lemma code_chain_kinds_witness :
  exists b,
    VerifierCode.construct Examples.plain_imports
      [Conv2d MoreExamples.small_conv; ReLU; Flatten; Linear [[1]; [1]] [0; 0]]
      MoreExamples.image_3x3 (1 # 10) 0
    = Return ([Conv2d MoreExamples.small_conv; ReLU; Flatten;
               Linear [[1]; [1]] [0; 0]; Linear [[1; -1]] [0]], b)
    /\ map kind_of (VerifierCode.transformer_layers b)
       = [KFlatten; KConv2d; KLeakyReLU; KFlatten; KLinear; KLinear].
Proof.
  eexists. split; [vm_compute; reflexivity |].
  refine (proj1 (code_chain_kinds Examples.plain_imports
            [Conv2d MoreExamples.small_conv; ReLU; Flatten;
             Linear [[1]; [1]] [0; 0]]
            MoreExamples.image_3x3 (1 # 10) 0 _ _ _)).
  vm_compute. reflexivity.
Defined.

Section Agreement.

Variables (E : Imports) (sizes : list (Z * Z)).

Lemma add_layer_agree (l : Layer) (d : nat)
      (bc : VerifierCode.Build) (bs : VerifierSrc.Build) :
  is_conv l = false ->
  VerifierSrc.flattened bs = false ->
  VerifierCode.transformer_layers bc = VerifierSrc.transformer_layers bs ->
  VerifierCode.x bc = VerifierSrc.x bs ->
  match VerifierCode.add_layer E d l bc, VerifierSrc.add_layer E sizes l bs
  with
  | Return bc', Return bs' =>
      VerifierCode.transformer_layers bc'
      = VerifierSrc.transformer_layers bs'
      /\ VerifierCode.x bc' = VerifierSrc.x bs'
      /\ VerifierSrc.flattened bs' = false
  | Raise e1, Raise e2 => e1 = e2
  | _, _ => False
  end.
Proof.
  intros Hl Hf Ht Hx.
  destruct l; try discriminate Hl;
    cbn [VerifierCode.add_layer VerifierSrc.add_layer];
    rewrite ?Hf; cbn [negb];
    unfold VerifierCode.add_transformer, VerifierSrc.add_transformer;
    cbn [VerifierCode.transformer_layers VerifierSrc.transformer_layers
         VerifierCode.x VerifierSrc.x VerifierSrc.flattened];
    rewrite ?Ht, ?Hx; auto.
Qed.

Lemma add_layers_agree (ls : list Layer) :
  forall (d : nat) (bc : VerifierCode.Build) (bs : VerifierSrc.Build),
    existsb is_conv ls = false ->
    VerifierSrc.flattened bs = false ->
    VerifierCode.transformer_layers bc = VerifierSrc.transformer_layers bs ->
    VerifierCode.x bc = VerifierSrc.x bs ->
    match VerifierCode.add_layers E d ls bc,
          VerifierSrc.add_layers E sizes ls bs
    with
    | Return bc', Return bs' =>
        VerifierCode.transformer_layers bc'
        = VerifierSrc.transformer_layers bs'
        /\ VerifierCode.x bc' = VerifierSrc.x bs'
    | Raise e1, Raise e2 => e1 = e2
    | _, _ => False
    end.
Proof.
  induction ls as [|l ls IH]; intros d bc bs Hc Hf Ht Hx;
    cbn [VerifierCode.add_layers VerifierSrc.add_layers].
  - auto.
  - cbn [existsb] in Hc. apply orb_false_iff in Hc. destruct Hc as [Hl Hls].
    pose proof (add_layer_agree l d bc bs Hl Hf Ht Hx) as H.
    destruct (VerifierCode.add_layer E d l bc) as [bc1|e1],
             (VerifierSrc.add_layer E sizes l bs) as [bs1|e2];
      cbn [rbind]; try contradiction; [| exact H].
    destruct H as (Ht1 & Hx1 & Hf1). apply IH; assumption.
Qed.

End Agreement.

Lemma input_sizes_without_conv (net : list Layer) (wh : Z * Z) :
  existsb is_conv net = false ->
  VerifierSrc.input_sizes net wh = Return [wh].
Proof.
  destruct net as [|l net]; [reflexivity |].
  destruct l; try reflexivity. discriminate.
Qed.

(** X13.  On a network without [Conv2d] layers the two [verifier.py]
    files, given the same imported transformer classes, build the same
    chain: the same layers with the margin layer appended, the same
    transformers and the same output polygon, or the same exception. *)
Theorem constructions_agree_without_conv
    (E : Imports) (net : list Layer) (inputs : Inputs) (eps : Q) (t : nat) :
  existsb is_conv net = false ->
  match VerifierCode.construct E net inputs eps t,
        VerifierSrc.construct E net inputs eps t
  with
  | Return (layers1, b1), Return (layers2, b2) =>
      layers1 = layers2
      /\ VerifierCode.transformer_layers b1
         = VerifierSrc.transformer_layers b2
      /\ VerifierCode.x b1 = VerifierSrc.x b2
  | Raise e1, Raise e2 => e1 = e2
  | _, _ => False
  end.
Proof.
  intros Hc. unfold VerifierCode.construct, VerifierSrc.construct.
  rewrite (input_sizes_without_conv net _ Hc). cbn [rbind].
  destruct (n_classes_of net) as [c|e]; cbn [rbind]; [| reflexivity].
  destruct (final_layer c t) as [final|e] eqn:Hf; cbn [rbind];
    [| reflexivity].
  assert (Hfinal : is_conv final = false).
  { unfold final_layer in Hf. destruct (Nat.eqb c 0); [discriminate |].
    destruct (Nat.ltb t c); [| discriminate].
    injection Hf as <-. reflexivity. }
  pose proof (add_layers_agree E
                [(shape_m2 inputs, shape_m1 inputs)] (net ++ [final]) 0
                (VerifierCode.mkBuild [] (create_from_input (data inputs) eps)
                   (shape_m2 inputs, shape_m1 inputs))
                (VerifierSrc.mkBuild [] (create_from_input (data inputs) eps)
                   false 0)) as H.
  rewrite existsb_app in H. cbn [existsb] in H. rewrite Hc, Hfinal in H.
  specialize (H eq_refl eq_refl eq_refl eq_refl).
  destruct (VerifierCode.add_layers _ _ _ _) as [b1|e1],
           (VerifierSrc.add_layers _ _ _ _) as [b2|e2];
    cbn [rbind]; try contradiction; [| exact H].
  destruct H as [Ht Hx]. auto.
Qed.

Lemma constructions_agree_without_conv_witness :
  match VerifierCode.construct Examples.plain_imports
          MoreExamples.tied_net Examples.one_pixel (1 # 10) 0,
        VerifierSrc.construct Examples.plain_imports
          MoreExamples.tied_net Examples.one_pixel (1 # 10) 0
  with
  | Return (layers1, b1), Return (layers2, b2) =>
      layers1 = layers2
      /\ VerifierCode.transformer_layers b1
         = VerifierSrc.transformer_layers b2
      /\ VerifierCode.x b1 = VerifierSrc.x b2
  | Raise e1, Raise e2 => e1 = e2
  | _, _ => False
  end.
Proof.
  apply constructions_agree_without_conv. reflexivity.
Defined.

(* --------------------------------------------------------------------- *)
(** ** More on the optimization loop *)

Section Termination.

Variables (polygon_model : Sequential) (in_polygon : Polygon).

Lemma src_train_loop_returns fuel trainable m es st :
  (Z.to_nat (m + 1 - VerifierSrc.epoch st) <= fuel)%nat ->
  exists v e,
    VerifierSrc.train_loop fuel polygon_model in_polygon trainable (Some m)
                           es st = Some (v, e)
    /\ (e <= Z.max (VerifierSrc.epoch st) (m + 1))%Z.
Proof.
  revert st; induction fuel as [|fuel IH]; intros st Hf;
    cbn [VerifierSrc.train_loop VerifierSrc.loop_test].
  - destruct (Z.leb_spec (VerifierSrc.epoch st) m); [lia |].
    eexists _, _. split; [reflexivity | lia].
  - destruct (Z.leb_spec (VerifierSrc.epoch st) m).
    + pose proof (src_iteration_epoch polygon_model in_polygon trainable es
                    st) as He.
      destruct (VerifierSrc.iteration _ _ _ _ st) as [v' e'|st'].
      * eexists _, _. split; [reflexivity | lia].
      * destruct (IH st') as (v & e & Ht & Hle); [lia |].
        exists v, e. split; [exact Ht | lia].
    + eexists _, _. split; [reflexivity | lia].
Qed.

Lemma code_train_loop_returns fuel trainable maxlen m es lrs st :
  (Z.to_nat (m + 1 - VerifierCode.epoch st) <= fuel)%nat ->
  exists r,
    VerifierCode.train_loop fuel polygon_model in_polygon trainable maxlen
                            (Some m) es lrs st = Some r.
Proof.
  revert st; induction fuel as [|fuel IH]; intros st Hf;
    cbn [VerifierCode.train_loop VerifierCode.loop_test].
  - destruct (Z.leb_spec (VerifierCode.epoch st) m); [lia |].
    eexists. reflexivity.
  - destruct (Z.leb_spec (VerifierCode.epoch st) m).
    + pose proof (iteration_epoch polygon_model in_polygon trainable maxlen
                    es lrs st) as He.
      destruct (VerifierCode.iteration _ _ _ _ _ _ st) as [v' e' f|ex|st'].
      * eexists. reflexivity.
      * eexists. reflexivity.
      * apply IH. lia.
    + eexists. reflexivity.
Qed.

End Termination.

(** X14.  With a cap [m] on the epochs, [train] returns after at most
    [m] forward passes, in both [verifier.py] files; in
    [src/src/verifier.py] the epoch it reports lies between 1 and
    [m + 1]. *)
Theorem train_with_cap_returns (m : Z) (fuel : nat) :
  (Z.to_nat m <= fuel)%nat ->
  (forall polygon_model in_polygon early_stopping,
     exists v e,
       VerifierSrc.train fuel polygon_model in_polygon (Some m)
                         early_stopping = Some (v, e)
       /\ (1 <= e <= Z.max 1 (m + 1))%Z)
  /\ (forall polygon_model in_polygon early_stopping lr_scheduling,
        exists r,
          VerifierCode.train fuel polygon_model in_polygon (Some m)
                             early_stopping lr_scheduling = Some r).
Proof.
  intros Hf. split.
  - intros model p es. unfold VerifierSrc.train.
    destruct (src_train_loop_returns model p fuel
                (VerifierSrc.trainable_of model) m es
                (VerifierSrc.initial_state model)) as (v & e & Ht & Hle).
    { cbn [VerifierSrc.initial_state VerifierSrc.epoch]. lia. }
    exists v, e. split; [exact Ht |].
    apply src_train_loop_epoch_le in Ht.
    cbn [VerifierSrc.initial_state VerifierSrc.epoch] in *. lia.
  - intros model p es lrs. unfold VerifierCode.train.
    destruct (_ <? 0)%Z; [eexists; reflexivity |].
    apply code_train_loop_returns.
    cbn [VerifierCode.initial_state VerifierCode.epoch]. lia.
Qed.

Lemma train_with_cap_returns_witness :
  exists v e,
    VerifierSrc.train 3 (Examples.scripted [4; 3; 2; 1])
                      Examples.some_polygon (Some 3%Z) true
    = Some (v, e)
    /\ (1 <= e <= Z.max 1 (3 + 1))%Z.
Proof.
  destruct (train_with_cap_returns 3 3 ltac:(lia)) as [H _].
  apply H.
Defined.

(** X15.  [analyze] of [src/src/verifier.py] always returns: its [train]
    runs under the cap of 100 epochs, so 100 forward passes are enough for
    every network, input and label (the outcome may be an exception of the
    construction). *)
Theorem src_analyze_returns
    (fuel : nat) (E : Imports) (net : list Layer) (inputs : Inputs)
    (eps : Q) (true_label : nat) (early_stopping : bool) :
  (100 <= fuel)%nat ->
  exists r,
    VerifierSrc.analyze fuel E net inputs eps true_label early_stopping
    = Some r.
Proof.
  intros Hf. unfold VerifierSrc.analyze.
  destruct (VerifierSrc.construct _ _ _ _ _) as [[layers b]|];
    [| eexists; reflexivity].
  unfold VerifierSrc.train.
  destruct (src_train_loop_returns
              (nn_Sequential E (VerifierSrc.transformer_layers b))
              (create_from_input (data inputs) eps) fuel
              (VerifierSrc.trainable_of
                 (nn_Sequential E (VerifierSrc.transformer_layers b)))
              100 early_stopping
              (VerifierSrc.initial_state
                 (nn_Sequential E (VerifierSrc.transformer_layers b))))
    as (v & e & Ht & _).
  { cbn [VerifierSrc.initial_state VerifierSrc.epoch]. lia. }
  rewrite Ht. eexists. reflexivity.
Qed.

Lemma src_analyze_returns_witness :
  exists r,
    VerifierSrc.analyze 100 MoreExamples.running_imports
                        MoreExamples.tied_net Examples.one_pixel (1 # 10) 0
                        false
    = Some r.
Proof.
  apply src_analyze_returns. lia.
Defined.

Section SrcEarlyStopping.

Import VerifierSrc.

Variables (polygon_model : Sequential) (in_polygon : Polygon).

Local Abbreviation loss st :=
  (loss_of (fst (evaluate (call polygon_model (params st) in_polygon)))).

Lemma src_iteration_continues trainable st st' :
  iteration polygon_model in_polygon trainable true st = Continues st' ->
  trainable = true
  /\ epoch st' = (epoch st + 1)%Z
  /\ previous_loss st' = Some (loss st)
  /\ forall p, previous_loss st = Some p -> loss st < p.
Proof.
  unfold iteration.
  destruct (all_positive _); [discriminate |].
  destruct trainable; cbn [negb]; [| discriminate].
  cbn [andb].
  destruct (is_rising (previous_loss st) _) eqn:Hr; [discriminate |].
  intros H; injection H as <-. cbn [epoch previous_loss].
  repeat split. intros p Hp. rewrite Hp in Hr. cbn [is_rising] in Hr.
  apply Qle_bool_false. exact Hr.
Qed.

End SrcEarlyStopping.

(** X16.  With early stopping switched on in [src/src/verifier.py], the
    loop goes on only while the loss strictly decreases: after an
    iteration that went on, the next one goes on only with a smaller
    loss, and returns not-verified if it does not verify and its loss is
    not smaller. *)
Theorem src_early_stopping_decreasing
    (polygon_model : Sequential) (in_polygon : Polygon) (trainable : bool)
    (st st' : VerifierSrc.LoopState) :
  let loss := fun s =>
    loss_of (fst (evaluate (call polygon_model (VerifierSrc.params s)
                                 in_polygon))) in
  VerifierSrc.iteration polygon_model in_polygon trainable true st
  = VerifierSrc.Continues st' ->
  (forall st'',
      VerifierSrc.iteration polygon_model in_polygon trainable true st'
      = VerifierSrc.Continues st'' ->
      loss st' < loss st)
  /\ (all_positive
        (fst (evaluate (call polygon_model (VerifierSrc.params st')
                             in_polygon))) = false ->
      loss st <= loss st' ->
      VerifierSrc.iteration polygon_model in_polygon trainable true st'
      = VerifierSrc.Returns false (VerifierSrc.epoch st + 1)).
Proof.
  intros loss H1.
  destruct (src_iteration_continues _ _ _ _ _ H1) as (-> & He & Hp & _).
  split.
  - intros st'' H2.
    destruct (src_iteration_continues _ _ _ _ _ H2) as (_ & _ & _ & Hlt).
    apply Hlt. exact Hp.
  - intros Hv Hle. unfold VerifierSrc.iteration. rewrite Hv.
    cbn [negb andb]. rewrite Hp. cbn [is_rising].
    apply Qle_bool_iff in Hle. fold (loss st). fold (loss st').
    rewrite Hle, He. reflexivity.
Qed.

Lemma src_early_stopping_decreasing_witness :
  VerifierSrc.iteration (Examples.scripted [2; 3]) Examples.some_polygon
    true true (VerifierSrc.mkLoopState 2 (Some 2) [[0]])
  = VerifierSrc.Returns false (1 + 1).
Proof.
  destruct (src_early_stopping_decreasing (Examples.scripted [2; 3])
              Examples.some_polygon true
              (VerifierSrc.initial_state (Examples.scripted [2; 3]))
              (VerifierSrc.mkLoopState 2 (Some 2) [[0]])
              ltac:(vm_compute; reflexivity)) as [_ H].
  apply H.
  - vm_compute. reflexivity.
  - vm_compute. discriminate.
Defined.

Section TrainFaults.

Import VerifierCode.

Variables (polygon_model : Sequential) (in_polygon : Polygon).

Local Abbreviation lower_bounds :=
  (Spec.lower_bounds polygon_model in_polygon).
Local Abbreviation flag_of := (Spec.flag_of polygon_model in_polygon).





(** The first iteration of a trainable model that does not verify. *)
Lemma first_iteration maxlen es lrs :
  all_positive
    (fst (evaluate (call polygon_model (parameters polygon_model)
                         in_polygon))) = false ->
  iteration polygon_model in_polygon true maxlen es lrs
            (initial_state polygon_model)
  = match schedule_lr lrs (deque_append maxlen [] false) 5 with
    | Raise e => Raises e
    | Return lr' =>
        if early_stop es (deque_append maxlen [] false) then
          Returns false 1
            (mkLoopState 1 None (deque_append maxlen [] false) lr'
                         (parameters polygon_model))
        else
          Continues
            (mkLoopState (1 + 1) 
               (Some (loss_of
                        (fst (evaluate (call polygon_model
                                          (parameters polygon_model)
                                          in_polygon)))))
               (deque_append maxlen [] false) lr'
               (sgd_step polygon_model lr' (parameters polygon_model)
                         in_polygon))
    end.
Proof.
  intros Hv. unfold iteration, initial_state.
  cbn [params epoch previous_loss loss_rising lr is_rising].
  rewrite Hv. reflexivity.
Qed.

Lemma trainable_of_true :
  parameters polygon_model <> [] -> trainable_of polygon_model = true.
Proof.
  unfold trainable_of. destruct (parameters polygon_model); [congruence |].
  reflexivity.
Qed.

End TrainFaults.

(** X17.  When both thresholds are negative numbers, [train] raises
    [ValueError] (the [deque] refuses the negative [maxlen]) before the
    first forward pass, whatever the model. *)
Theorem train_negative_thresholds
    (fuel : nat) (polygon_model : Sequential) (in_polygon : Polygon)
    (max_epochs : option Z) (k m : Z) :
  (k < 0)%Z -> (m < 0)%Z ->
  VerifierCode.train fuel polygon_model in_polygon max_epochs
                     (Some k) (Some m)
  = Some (Raise ValueError).
Proof.
  intros Hk Hm. unfold VerifierCode.train, VerifierCode.history_size.
  cbn [VerifierCode.or_0].
  destruct (Z.ltb_spec (2 * Z.max k m) 0); [reflexivity | lia].
Qed.

Lemma train_negative_thresholds_witness :
  VerifierCode.train 0 (Examples.fixed_margin 1) Examples.some_polygon None
                     (Some (-1)%Z) (Some (-2)%Z)
  = Some (Raise ValueError).
Proof.
  apply train_negative_thresholds; lia.
Defined.



(** X19.  With a learning-rate threshold [m] and a window of capacity
    zero ([max(early_stopping or 0, m) = 0], for instance
    [lr_scheduling = 0] without early stopping), the first iteration of a
    trainable model that does not verify raises [IndexError]: the test
    [number_of_rising >= lr_scheduling] holds and [loss_rising[-1]] reads
    an empty deque. *)
Theorem train_empty_window_index_error
    (fuel : nat) (polygon_model : Sequential) (in_polygon : Polygon)
    (max_epochs early_stopping : option Z) (m : Z) :
  VerifierCode.history_size early_stopping (Some m) = 0%Z ->
  parameters polygon_model <> [] ->
  all_positive
    (fst (evaluate (call polygon_model (parameters polygon_model)
                         in_polygon))) = false ->
  VerifierCode.loop_test max_epochs 1 = true ->
  VerifierCode.train (S fuel) polygon_model in_polygon max_epochs
                     early_stopping (Some m)
  = Some (Raise IndexError).
Proof.
  intros Hh Hp Hv Ht. unfold VerifierCode.train. rewrite Hh.
  cbn [Z.mul Z.ltb Z.compare Z.to_nat].
  rewrite (trainable_of_true _ Hp).
  cbn [VerifierCode.train_loop].
  change (VerifierCode.epoch (VerifierCode.initial_state polygon_model))
    with 1%Z.
  rewrite Ht, (first_iteration _ _ _ _ _ Hv).
  cbn [VerifierCode.deque_append Nat.eqb VerifierCode.schedule_lr
       VerifierCode.number_of_rising filter length Z.of_nat].
  assert (Hm : (m <= 0)%Z).
  { unfold VerifierCode.history_size in Hh. cbn [VerifierCode.or_0] in Hh.
    lia. }
  destruct (Z.leb_spec m 0); [| lia]. reflexivity.
Qed.

Lemma train_empty_window_index_error_witness :
  VerifierCode.train 1 (Examples.scripted [1]) Examples.some_polygon None
                     None (Some 0%Z)
  = Some (Raise IndexError).
Proof.
  apply (train_empty_window_index_error 0 (Examples.scripted [1])
           Examples.some_polygon None None 0).
  - reflexivity.
  - discriminate.
  - reflexivity.
  - reflexivity.
Defined.

(** X20.  With an early-stopping threshold that is not positive (and a
    learning-rate threshold of at least 1, or none), a trainable model
    that does not verify on the first forward pass is given up at once:
    [train] returns [(False, 1)] and the optimizer never steps. *)
Theorem train_nonpositive_early_stopping
    (fuel : nat) (polygon_model : Sequential) (in_polygon : Polygon)
    (max_epochs lr_scheduling : option Z) (k : Z) :
  (k <= 0)%Z ->
  (forall m, lr_scheduling = Some m -> (1 <= m)%Z) ->
  parameters polygon_model <> [] ->
  all_positive
    (fst (evaluate (call polygon_model (parameters polygon_model)
                         in_polygon))) = false ->
  VerifierCode.loop_test max_epochs 1 = true ->
  VerifierCode.train (S fuel) polygon_model in_polygon max_epochs
                     (Some k) lr_scheduling
  = Some (Return (false, 1%Z)).
Proof.
  intros Hk Hm Hp Hv Ht. unfold VerifierCode.train.
  assert (Hh : (0 <= VerifierCode.history_size (Some k) lr_scheduling)%Z).
  { unfold VerifierCode.history_size. cbn [VerifierCode.or_0].
    destruct lr_scheduling as [m|]; cbn [VerifierCode.or_0];
      [specialize (Hm m eq_refl) |]; lia. }
  destruct (Z.ltb_spec
              (2 * VerifierCode.history_size (Some k) lr_scheduling) 0);
    [lia |].
  rewrite (trainable_of_true _ Hp).
  cbn [VerifierCode.train_loop].
  change (VerifierCode.epoch (VerifierCode.initial_state polygon_model))
    with 1%Z.
  rewrite Ht, (first_iteration _ _ _ _ _ Hv).
  set (maxlen := Z.to_nat _).
  assert (Hn : VerifierCode.number_of_rising
                 (VerifierCode.deque_append maxlen [] false) = 0%Z).
  { unfold VerifierCode.deque_append.
    destruct (Nat.eqb maxlen 0); [reflexivity |].
    destruct (Nat.leb maxlen (length (@nil bool))); reflexivity. }
  assert (Hs : VerifierCode.schedule_lr lr_scheduling
                 (VerifierCode.deque_append maxlen [] false) 5 = Return 5).
  { unfold VerifierCode.schedule_lr. destruct lr_scheduling as [m|];
      [| reflexivity].
    rewrite Hn. specialize (Hm m eq_refl).
    destruct (Z.leb_spec m 0); [lia | reflexivity]. }
  rewrite Hs. unfold VerifierCode.early_stop. rewrite Hn.
  destruct (Z.leb_spec k 0); [reflexivity | lia].
Qed.

Lemma train_nonpositive_early_stopping_witness :
  VerifierCode.train 1 (Examples.scripted [1; 0]) Examples.some_polygon None
                     (Some 0%Z) (Some 1%Z)
  = Some (Return (false, 1%Z)).
Proof.
  apply (train_nonpositive_early_stopping 0 (Examples.scripted [1; 0])
           Examples.some_polygon None (Some 1%Z) 0).
  - lia.
  - intros m H. injection H as <-. lia.
  - discriminate.
  - reflexivity.
  - reflexivity.
Defined.

Section LearningRate.

Import VerifierCode.

Variables (polygon_model : Sequential) (in_polygon : Polygon).

Lemma py_max_floor (a : Q) :
  (1 # 10000) <= a ->
  (1 # 10000) <= py_max (a / 2) (1 # 10000)
  /\ py_max (a / 2) (1 # 10000) <= a.
Proof.
  intros Ha. unfold py_max.
  destruct (Qle_bool (1 # 10000) (a / 2)) eqn:H.
  - apply Qle_bool_iff in H. split; [exact H |].
    assert (a / 2 == a * (1 # 2)) as -> by (field). lra.
  - split; lra.
Qed.

Lemma schedule_lr_bounds lrs d lr0 lr' :
  schedule_lr lrs d lr0 = Return lr' ->
  (1 # 10000) <= lr0 ->
  (1 # 10000) <= lr' /\ lr' <= lr0.
Proof.
  unfold schedule_lr. intros H H0.
  destruct lrs as [m|].
  - destruct (_ <=? _)%Z.
    + destruct (deque_last d) as [[|]|]; cbn [rbind] in H;
        try discriminate; injection H as <-.
      * apply py_max_floor. exact H0.
      * split; lra.
    + injection H as <-. split; lra.
  - injection H as <-. split; lra.
Qed.

Lemma iteration_lr trainable maxlen es lrs st st' :
  iteration polygon_model in_polygon trainable maxlen es lrs st
  = Continues st' ->
  (1 # 10000) <= lr st ->
  (1 # 10000) <= lr st' /\ lr st' <= lr st.
Proof.
  unfold iteration.
  destruct (all_positive _); [discriminate |].
  destruct trainable; cbn [negb]; [| discriminate].
  destruct (schedule_lr _ _ _) as [lr'|] eqn:Hs; [| discriminate].
  destruct (early_stop _ _); [discriminate |].
  intros H; injection H as <-. cbn [lr].
  apply (schedule_lr_bounds _ _ _ _ Hs).
Qed.

Lemma continues_lr trainable maxlen es lrs n st st' :
  Spec.continues polygon_model in_polygon trainable maxlen es lrs n st
  = Some st' ->
  (1 # 10000) <= lr st ->
  (1 # 10000) <= lr st' /\ lr st' <= lr st.
Proof.
  revert st; induction n as [|n IH]; intros st; cbn [Spec.continues].
  - intros H; injection H as <-. intros H0. split; lra.
  - destruct (iteration _ _ _ _ _ _ st) as [? ? ?|?|st1] eqn:Hit;
      try discriminate.
    intros H H0.
    destruct (iteration_lr _ _ _ _ _ _ Hit H0) as [H1 H2].
    destruct (IH _ H H1) as [H3 H4]. split; lra.
Qed.

Lemma train_loop_verdict fuel maxlen lrs st v e :
  train_loop fuel polygon_model in_polygon true maxlen None None lrs st
  = Some (Return (v, e)) ->
  v = true.
Proof.
  revert st; induction fuel as [|fuel IH]; intros st;
    cbn [train_loop loop_test]; [discriminate |].
  unfold iteration.
  destruct (all_positive _).
  - intros H; injection H as <- _. reflexivity.
  - cbn [negb early_stop].
    destruct (schedule_lr _ _ _) as [lr'|]; [| discriminate].
    apply IH.
Qed.

End LearningRate.

(** X21.  Along every run of the loop of [train] the learning rate never
    increases, starts at 5 and stays at or above the floor [1e-4]. *)
Theorem learning_rate_bounds
    (polygon_model : Sequential) (in_polygon : Polygon) (trainable : bool)
    (maxlen : nat) (early_stopping lr_scheduling : option Z)
    (n k : nat) (st st' : VerifierCode.LoopState) :
  Spec.continues polygon_model in_polygon trainable maxlen early_stopping
                 lr_scheduling n (VerifierCode.initial_state polygon_model)
  = Some st ->
  Spec.continues polygon_model in_polygon trainable maxlen early_stopping
                 lr_scheduling k st
  = Some st' ->
  (1 # 10000) <= VerifierCode.lr st'
  /\ VerifierCode.lr st' <= VerifierCode.lr st
  /\ VerifierCode.lr st <= 5.
Proof.
  intros Hn Hk.
  destruct (continues_lr _ _ _ _ _ _ _ _ _ Hn) as [H1 H2].
  { cbn. lra. }
  destruct (continues_lr _ _ _ _ _ _ _ _ _ Hk H1) as [H3 H4].
  cbn [VerifierCode.initial_state VerifierCode.lr] in H2.
  repeat split; assumption.
Qed.

Lemma learning_rate_bounds_witness :
  exists st',
    Spec.continues (Examples.scripted [1; 2; 3]) Examples.some_polygon true 2
                   None (Some 1%Z) 2
                   (VerifierCode.initial_state (Examples.scripted [1; 2; 3]))
    = Some st'
    /\ (1 # 10000) <= VerifierCode.lr st' /\ VerifierCode.lr st' <= 5.
Proof.
  eexists. split; [vm_compute; reflexivity |].
  destruct (learning_rate_bounds (Examples.scripted [1; 2; 3])
              Examples.some_polygon true 2 None (Some 1%Z) 0 2 _ _
              eq_refl ltac:(vm_compute; reflexivity)) as (H1 & H2 & _).
  split; [exact H1 | exact H2].
Defined.

(** X22.  Without early stopping, [analyze] of [src/code/verifier.py]
    (which sets no cap on the epochs) answers not-verified only for a
    chain without trainable parameters: with a trainable chain it returns
    verified or keeps optimizing. *)
Theorem analyze_without_early_stopping
    (fuel : nat) (E : Imports) (net : list Layer) (inputs : Inputs) (eps : Q)
    (true_label : nat) (lr_scheduling : option Z) :
  VerifierCode.analyze fuel E net inputs eps true_label None lr_scheduling
  = Some (Return false) ->
  exists layers b,
    VerifierCode.construct E net inputs eps true_label = Return (layers, b)
    /\ parameters (nn_Sequential E (VerifierCode.transformer_layers b)) = [].
Proof.
  unfold VerifierCode.analyze.
  destruct (VerifierCode.construct _ _ _ _ _) as [[layers b]|];
    [| discriminate].
  intros H. exists layers, b. split; [reflexivity |].
  unfold VerifierCode.train in H.
  destruct (_ <? 0)%Z; [discriminate |].
  unfold VerifierCode.trainable_of in H.
  destruct (parameters _) as [|p ps]; [reflexivity |]. exfalso.
  cbn [length Nat.ltb Nat.leb] in H.
  destruct (VerifierCode.train_loop _ _ _ _ _ _ _ _ _) as [[[v e]|]|] eqn:Ht;
    cbn [option_map rbind fst] in H; try discriminate.
  injection H as ->.
  apply train_loop_verdict in Ht. discriminate.
Qed.

Lemma analyze_without_early_stopping_witness :
  exists layers b,
    VerifierCode.construct MoreExamples.running_imports MoreExamples.tied_net
                           Examples.one_pixel (1 # 10) 0
    = Return (layers, b)
    /\ parameters (nn_Sequential MoreExamples.running_imports
                     (VerifierCode.transformer_layers b)) = [].
Proof.
  apply (analyze_without_early_stopping 1 MoreExamples.running_imports
           MoreExamples.tied_net Examples.one_pixel (1 # 10) 0 (Some 1%Z)).
  vm_compute. reflexivity.
Defined.

(* --------------------------------------------------------------------- *)
(** ** The input box and the loss *)

(** Case analysis on every comparison of rationals in the goal. *)
Ltac qle_cases :=
  repeat match goal with
         | |- context [Qle_bool ?a ?b] =>
             lazymatch a with
             | context [Qle_bool _ _] => fail
             | _ => idtac
             end;
             let H := fresh "H" in
             destruct (Qle_bool a b) eqn:H;
             [apply Qle_bool_iff in H | apply Qle_bool_false in H]
         end;
  try lra.

Section InputBox.

Lemma clamp_range (v : Q) : 0 <= clamp 0 1 v /\ clamp 0 1 v <= 1.
Proof. unfold clamp, clamp_max, clamp_min. split; qle_cases. Qed.

Lemma clamp_mono (v v' : Q) : v <= v' -> clamp 0 1 v <= clamp 0 1 v'.
Proof. intros H. unfold clamp, clamp_max, clamp_min. qle_cases. Qed.



End InputBox.

(** X23.  For a radius that is not negative, [create_from_input] gives
    every input entry an interval that is not empty and lies inside
    [0, 1], whatever the center. *)
Theorem input_box_intervals (input_tensor : Vector) (eps : Q) :
  0 <= eps ->
  let p := create_from_input input_tensor eps in
  length (l_bound p) = length input_tensor
  /\ length (u_bound p) = length input_tensor
  /\ Forall2 Qle (l_bound p) (u_bound p)
  /\ Forall (fun v => 0 <= v /\ v <= 1) (l_bound p)
  /\ Forall (fun v => 0 <= v /\ v <= 1) (u_bound p).
Proof.
  intros He p. subst p. unfold create_from_input.
  cbn [Polygon_init l_bound u_bound fst snd].
  rewrite !length_map. repeat split.
  - induction input_tensor as [|x xs IH]; cbn [map]; constructor;
      [| exact IH].
    apply clamp_mono. lra.
  - apply Forall_map, Forall_forall. intros x _. apply clamp_range.
  - apply Forall_map, Forall_forall. intros x _. apply clamp_range.
Qed.

Lemma input_box_intervals_witness :
  Forall2 Qle (l_bound (create_from_input [0; 1 # 2; 1] (1 # 4)))
              (u_bound (create_from_input [0; 1 # 2; 1] (1 # 4)))
  /\ Forall (fun v => 0 <= v /\ v <= 1)
            (l_bound (create_from_input [0; 1 # 2; 1] (1 # 4))).
Proof.
  destruct (input_box_intervals [0; 1 # 2; 1] (1 # 4)
              ltac:(vm_compute; discriminate)) as (_ & _ & H1 & H2 & _).
  split; [exact H1 | exact H2].
Defined.



Section Loss.

Lemma loss_term (x : Q) :
  0 <= Qabs (clamp_max 0 x) /\ (Qabs (clamp_max 0 x) == 0 <-> 0 <= x).
Proof.
  unfold clamp_max. destruct (Qle_bool x 0) eqn:H.
  - apply Qle_bool_iff in H. rewrite (Qabs_neg x H).
    split; [lra |]. split; intros; lra.
  - apply Qle_bool_false in H. cbn. split; [lra |]. split; intros; lra.
Qed.

End Loss.

(** X25.  The loss of [train] is never negative, it is zero exactly when
    no lower bound is negative, and it is zero whenever the margins
    verify (a margin that is exactly zero gives a zero loss without
    verifying). *)
Theorem loss_measures_violation (lower_bounds : Vector) :
  0 <= loss_of lower_bounds
  /\ (loss_of lower_bounds == 0 <-> Forall (fun x => 0 <= x) lower_bounds)
  /\ (all_positive lower_bounds = true -> loss_of lower_bounds == 0).
Proof.
  unfold loss_of.
  assert (H : 0 <= vsum (map Qabs (map (clamp_max 0) lower_bounds))
              /\ (vsum (map Qabs (map (clamp_max 0) lower_bounds)) == 0
                  <-> Forall (fun x => 0 <= x) lower_bounds)).
  { induction lower_bounds as [|x xs [IH1 IH2]]; cbn [map vsum fold_right].
    - split; [lra |]. split; [constructor | reflexivity].
    - fold (vsum (map Qabs (map (clamp_max 0) xs))).
      destruct (loss_term x) as [T1 T2].
      split; [lra |]. split.
      + intros H. constructor; [apply T2 | apply IH2]; lra.
      + intros H. inversion H as [|? ? Hx Hxs]; subst.
        apply T2 in Hx. apply IH2 in Hxs. lra. }
  destruct H as [H1 H2]. split; [exact H1 |]. split; [exact H2 |].
  intros Hv. apply H2. unfold all_positive in Hv.
  rewrite forallb_forall in Hv. apply Forall_forall. intros x Hx.
  specialize (Hv x Hx). apply negb_true_iff in Hv.
  apply Qle_bool_false in Hv. lra.
Qed.

(* --------------------------------------------------------------------- *)
(** ** Back-substitution row by row *)

Section RowWise.








End RowWise.

Section RowCongruence.












End RowCongruence.


Section RowBounds.

(** Rows of zeros. *)
Local Abbreviation vzero r := (Forall (fun e : Q => e == 0) r).










Local Abbreviation scale lam r := (map (fun e : Q => e * lam) r).









End RowBounds.

Section UnitRows.









End UnitRows.



(* --------------------------------------------------------------------- *)
(** ** The ground-truth file *)

Section GroundTruthFile.

Import GroundTruth.

Lemma split_free (sep : ascii) (s : string) :
  occurs sep s = false -> split sep s = [s].
Proof.
  induction s as [|c s IH]; cbn [occurs split]; [reflexivity |].
  intros H. apply orb_false_iff in H. destruct H as [Hc Hs].
  rewrite Hc, (IH Hs). reflexivity.
Qed.

Lemma split_append (sep : ascii) (a b : string) :
  occurs sep a = false ->
  split sep (a ++ String sep b)%string = a :: split sep b.
Proof.
  induction a as [|c a IH]; cbn [occurs split String.append].
  - intros _. rewrite Ascii.eqb_refl. reflexivity.
  - intros H. apply orb_false_iff in H. destruct H as [Hc Ha].
    rewrite Hc, (IH Ha). reflexivity.
Qed.

Lemma split_line (model fl answer : string) :
  occurs "," model = false -> occurs "," fl = false ->
  occurs "," answer = false ->
  split "," (model ++ "," ++ fl ++ "," ++ answer)%string
  = [model; fl; answer].
Proof.
  intros Hm Hf Ha.
  change (model ++ "," ++ fl ++ "," ++ answer)%string
    with (model ++ String "," (fl ++ String "," answer))%string.
  rewrite (split_append _ _ _ Hm), (split_append _ _ _ Hf),
    (split_free _ _ Ha).
  reflexivity.
Qed.

Lemma get_gt_lines_passed_over (pre rest : list string) (net spec : string) :
  Forall (passed_over net spec) pre ->
  get_gt_lines (pre ++ rest) net spec = get_gt_lines rest net spec.
Proof.
  induction 1 as [|line pre (m & f & a & Hs & Hno) _ IH]; [reflexivity |].
  cbn [app get_gt_lines]. rewrite Hs, Hno. exact IH.
Qed.

End GroundTruthFile.

(** X28.  [get_gt] returns the answer of the first line
    "model,file,answer" of the ground-truth file whose model is [net] and
    whose file name occurs in [spec], when the lines before it have three
    fields each and do not match; the lines after it are not read. *)
Theorem get_gt_first_match
    (read : string -> list string) (pre post : list string)
    (model fl answer net spec : string) :
  read "test_cases/gt.txt"%string
  = pre ++ (model ++ "," ++ fl ++ "," ++ answer)%string :: post ->
  Forall (passed_over net spec) pre ->
  occurs "," model = false -> occurs "," fl = false ->
  occurs "," answer = false ->
  model = net -> GroundTruth.contains fl spec = true ->
  GroundTruth.src_get_gt read net spec = Return (Some answer).
Proof.
  intros Hread Hpre Hm Hf Ha <- Hin. unfold GroundTruth.src_get_gt.
  rewrite Hread, (get_gt_lines_passed_over _ _ _ _ Hpre).
  cbn [GroundTruth.get_gt_lines].
  rewrite (split_line _ _ _ Hm Hf Ha), String.eqb_refl, Hin. reflexivity.
Qed.

Lemma get_gt_first_match_witness :
  GroundTruth.src_get_gt
    (fun _ => ["fc_1,img0.txt,verified"; "fc_2,img1.txt,verified";
               "fc_1,img1.txt,not verified"; "fc_1,img1.txt,verified"]%string)
    "fc_1" "test_cases/fc_1/img1.txt"
  = Return (Some "not verified"%string).
Proof.
  apply (get_gt_first_match _
           ["fc_1,img0.txt,verified"; "fc_2,img1.txt,verified"]%string
           ["fc_1,img1.txt,verified"%string]
           "fc_1" "img1.txt" "not verified");
    try reflexivity.
  repeat constructor; eexists _, _, _; split; reflexivity.
Defined.

(** X29.  [get_gt] raises [ValueError] at the first line that has not
    exactly three fields separated by commas (an empty line, for
    instance), when no line before it matches. *)
Theorem get_gt_malformed_line
    (read : string -> list string) (pre post : list string)
    (line net spec : string) :
  read "test_cases/gt.txt"%string = pre ++ line :: post ->
  Forall (passed_over net spec) pre ->
  length (GroundTruth.split "," line) <> 3%nat ->
  GroundTruth.src_get_gt read net spec = Raise ValueError.
Proof.
  intros Hread Hpre Hn. unfold GroundTruth.src_get_gt.
  rewrite Hread, (get_gt_lines_passed_over _ _ _ _ Hpre).
  cbn [GroundTruth.get_gt_lines].
  destruct (GroundTruth.split "," line) as [|a [|b [|c [|d l]]]];
    try reflexivity.
  cbn in Hn. congruence.
Qed.

Lemma get_gt_malformed_line_witness :
  GroundTruth.src_get_gt
    (fun _ => ["fc_1,img0.txt,verified"; ""; "fc_1,img1.txt,verified"]%string)
    "fc_1" "test_cases/fc_1/img1.txt"
  = Raise ValueError.
Proof.
  apply (get_gt_malformed_line _ ["fc_1,img0.txt,verified"%string]
           ["fc_1,img1.txt,verified"%string] ""); try reflexivity.
  - repeat constructor; eexists _, _, _; split; reflexivity.
  - cbn. discriminate.
Defined.

(** X30.  For a test case below the folder [test_cases], [get_gt] of
    [src/code/verifier.py] reads the same file as [get_gt] of
    [src/src/verifier.py] and gives the same result. *)
Theorem get_gt_same_file
    (read : string -> list string) (net rest : string) :
  GroundTruth.code_get_gt read net ("test_cases/" ++ rest)%string
  = GroundTruth.src_get_gt read net ("test_cases/" ++ rest)%string.
Proof.
  unfold GroundTruth.code_get_gt, GroundTruth.src_get_gt.
  change ("test_cases/" ++ rest)%string
    with ("test_cases" ++ String "/" rest)%string.
  rewrite (split_append "/" "test_cases" rest eq_refl).
  reflexivity.
Qed.
